(** * Squat analysis engine: a shallow embedding of [fitness_trainer.py]

    The engine is a per-session state machine.  Every call of [analyze]
    receives one frame of pose landmarks, reads the clock once, and returns an
    [AnalysisResult] while mutating the trainer object.  Here the trainer
    object is the record [State], mutation is explicit state passing
    ([analyze] returns the new state together with the result), and the
    clock reading is an argument.

    Numbers.  Python floats are modelled by rationals [Q]: order and
    arithmetic are exact, rounding and NaN are outside the model.  Python
    ints are [Z].

    Geometry.  [angle_at_point] and [angle_with_vertical] of
    [angle_utils.py] test for a zero-length ray and otherwise end in
    [np.arccos]; the form score uses [np.std].  The zero-length tests are
    embedded; the arccosine of the normalised dot product and the standard
    deviation are parameters of the development (Section variables), so
    every theorem holds whatever these two routines return.  Worked examples
    run the engine with a rational reference kernel in their place. *)

From Stdlib Require Import ZArith QArith Qabs Bool List String Lia.
Import ListNotations.

Local Open Scope Z_scope.
Local Open Scope Q_scope.

(** ** Float comparisons *)

Definition Qleb (a b : Q) : bool := Qle_bool a b.
Definition Qltb (a b : Q) : bool := negb (Qle_bool b a).

(** [int(x)] on a float: truncation towards zero. *)
Definition Qtrunc (q : Q) : Z := Z.quot (Qnum q) (Zpos (Qden q)).

(** ** models.py: the enumerations *)

Inductive WorkoutMode := BEGINNER | PRO.

Inductive SquatState := S1_NORMAL | S2_TRANSITION | S3_PASS.

Inductive FeedbackType :=
| NONE | READY | BEND_FORWARD | BEND_BACKWARDS | LOWER_HIPS
| KNEE_OVER_TOES | DEEP_SQUAT | FRONTAL_WARNING.

Definition WorkoutMode_eqb (a b : WorkoutMode) : bool :=
  match a, b with
  | BEGINNER, BEGINNER | PRO, PRO => true
  | _, _ => false
  end.

Definition SquatState_eqb (a b : SquatState) : bool :=
  match a, b with
  | S1_NORMAL, S1_NORMAL | S2_TRANSITION, S2_TRANSITION | S3_PASS, S3_PASS => true
  | _, _ => false
  end.

Definition FeedbackType_eqb (a b : FeedbackType) : bool :=
  match a, b with
  | NONE, NONE | READY, READY | BEND_FORWARD, BEND_FORWARD
  | BEND_BACKWARDS, BEND_BACKWARDS | LOWER_HIPS, LOWER_HIPS
  | KNEE_OVER_TOES, KNEE_OVER_TOES | DEEP_SQUAT, DEEP_SQUAT
  | FRONTAL_WARNING, FRONTAL_WARNING => true
  | _, _ => false
  end.

(** ** fitness_trainer.py: [ThresholdConfig] and the two profiles *)

Record ThresholdConfig := {
  state_s1_max : Q;
  state_s2_min : Q;
  state_s2_max : Q;
  state_s3_min : Q;
  state_s3_max : Q;
  hip_vertical_min : Q;
  hip_vertical_max : Q;
  lower_hips_min : Q;
  lower_hips_max : Q;
  knee_over_toes : Q;
  deep_squat : Q;
  offset_thresh : Q;
  inactive_thresh : Q;
  visibility_thresh : Q;
  boundary_margin : Q;
  frames_required : Z
}.

(** Fields not given by a profile keep the dataclass defaults
    ([offset_thresh] 45, [visibility_thresh] 0.5, [boundary_margin] 0.03,
    [frames_required] 3). *)
Definition BEGINNER_CONFIG : ThresholdConfig := {|
  state_s1_max := 35; state_s2_min := 38; state_s2_max := 68;
  state_s3_min := 72; state_s3_max := 98;
  hip_vertical_min := 18; hip_vertical_max := 48;
  lower_hips_min := 48; lower_hips_max := 82;
  knee_over_toes := 35; deep_squat := 98;
  offset_thresh := 45; inactive_thresh := 20;
  visibility_thresh := 5 # 10; boundary_margin := 3 # 100;
  frames_required := 3
|}.

Definition PRO_CONFIG : ThresholdConfig := {|
  state_s1_max := 32; state_s2_min := 35; state_s2_max := 65;
  state_s3_min := 75; state_s3_max := 95;
  hip_vertical_min := 20; hip_vertical_max := 45;
  lower_hips_min := 50; lower_hips_max := 80;
  knee_over_toes := 30; deep_squat := 95;
  offset_thresh := 45; inactive_thresh := 15;
  visibility_thresh := 5 # 10; boundary_margin := 3 # 100;
  frames_required := 3
|}.

Definition config_for (mode : WorkoutMode) : ThresholdConfig :=
  if WorkoutMode_eqb mode BEGINNER then BEGINNER_CONFIG else PRO_CONFIG.

(** ** angle_utils.py: landmarks and their indices *)

(** A landmark is a dict read with [lm.get(key, default)]: a key may be
    absent. *)
Record Landmark := {
  lm_x : option Q;
  lm_y : option Q;
  lm_z : option Q;
  lm_visibility : option Q
}.

Definition dict_get (field : option Q) (default : Q) : Q :=
  match field with Some v => v | None => default end.

Definition Point : Type := Q * Q.

Module LandmarkIndex.
Definition NOSE : nat := 0.
Definition LEFT_SHOULDER : nat := 11.
Definition RIGHT_SHOULDER : nat := 12.
Definition LEFT_HIP : nat := 23.
Definition RIGHT_HIP : nat := 24.
Definition LEFT_KNEE : nat := 25.
Definition RIGHT_KNEE : nat := 26.
Definition LEFT_ANKLE : nat := 27.
Definition RIGHT_ANKLE : nat := 28.
Definition LEFT_FOOT : nat := 31.
Definition RIGHT_FOOT : nat := 32.
End LandmarkIndex.

Definition get_landmark_coords (landmarks : list Landmark) (index : nat)
    (frame_width frame_height : Q) : Point :=
  match nth_error landmarks index with
  | None => (0, 0)
  | Some lm =>
      (dict_get (lm_x lm) 0 * frame_width, dict_get (lm_y lm) 0 * frame_height)
  end.

(** ** The trainer object *)

Record State := {
  mode : WorkoutMode;
  config : ThresholdConfig;
  current_state : SquatState;
  prev_state : SquatState;
  state_sequence : list SquatState;
  correct_count : Z;
  incorrect_count : Z;
  depth_angles : list Q;
  min_knee_angle_this_rep : Q;
  feedback_history : list (FeedbackType * Z);
  start_time : Q;
  last_active_time : Q;
  active_seconds : Q;
  full_body_visible_count : Z;
  is_ready : bool;
  last_knee_vertical : Q
}.

(** Attribute assignments [self.f = v]. *)
Definition set_current_state (v : SquatState) (s : State) : State :=
  {| mode := mode s; config := config s; current_state := v;
     prev_state := prev_state s; state_sequence := state_sequence s;
     correct_count := correct_count s; incorrect_count := incorrect_count s;
     depth_angles := depth_angles s;
     min_knee_angle_this_rep := min_knee_angle_this_rep s;
     feedback_history := feedback_history s; start_time := start_time s;
     last_active_time := last_active_time s; active_seconds := active_seconds s;
     full_body_visible_count := full_body_visible_count s;
     is_ready := is_ready s; last_knee_vertical := last_knee_vertical s |}.

Definition set_prev_state (v : SquatState) (s : State) : State :=
  {| mode := mode s; config := config s; current_state := current_state s;
     prev_state := v; state_sequence := state_sequence s;
     correct_count := correct_count s; incorrect_count := incorrect_count s;
     depth_angles := depth_angles s;
     min_knee_angle_this_rep := min_knee_angle_this_rep s;
     feedback_history := feedback_history s; start_time := start_time s;
     last_active_time := last_active_time s; active_seconds := active_seconds s;
     full_body_visible_count := full_body_visible_count s;
     is_ready := is_ready s; last_knee_vertical := last_knee_vertical s |}.

Definition set_state_sequence (v : list SquatState) (s : State) : State :=
  {| mode := mode s; config := config s; current_state := current_state s;
     prev_state := prev_state s; state_sequence := v;
     correct_count := correct_count s; incorrect_count := incorrect_count s;
     depth_angles := depth_angles s;
     min_knee_angle_this_rep := min_knee_angle_this_rep s;
     feedback_history := feedback_history s; start_time := start_time s;
     last_active_time := last_active_time s; active_seconds := active_seconds s;
     full_body_visible_count := full_body_visible_count s;
     is_ready := is_ready s; last_knee_vertical := last_knee_vertical s |}.

Definition set_correct_count (v : Z) (s : State) : State :=
  {| mode := mode s; config := config s; current_state := current_state s;
     prev_state := prev_state s; state_sequence := state_sequence s;
     correct_count := v; incorrect_count := incorrect_count s;
     depth_angles := depth_angles s;
     min_knee_angle_this_rep := min_knee_angle_this_rep s;
     feedback_history := feedback_history s; start_time := start_time s;
     last_active_time := last_active_time s; active_seconds := active_seconds s;
     full_body_visible_count := full_body_visible_count s;
     is_ready := is_ready s; last_knee_vertical := last_knee_vertical s |}.

Definition set_incorrect_count (v : Z) (s : State) : State :=
  {| mode := mode s; config := config s; current_state := current_state s;
     prev_state := prev_state s; state_sequence := state_sequence s;
     correct_count := correct_count s; incorrect_count := v;
     depth_angles := depth_angles s;
     min_knee_angle_this_rep := min_knee_angle_this_rep s;
     feedback_history := feedback_history s; start_time := start_time s;
     last_active_time := last_active_time s; active_seconds := active_seconds s;
     full_body_visible_count := full_body_visible_count s;
     is_ready := is_ready s; last_knee_vertical := last_knee_vertical s |}.

Definition set_depth_angles (v : list Q) (s : State) : State :=
  {| mode := mode s; config := config s; current_state := current_state s;
     prev_state := prev_state s; state_sequence := state_sequence s;
     correct_count := correct_count s; incorrect_count := incorrect_count s;
     depth_angles := v;
     min_knee_angle_this_rep := min_knee_angle_this_rep s;
     feedback_history := feedback_history s; start_time := start_time s;
     last_active_time := last_active_time s; active_seconds := active_seconds s;
     full_body_visible_count := full_body_visible_count s;
     is_ready := is_ready s; last_knee_vertical := last_knee_vertical s |}.

Definition set_min_knee_angle_this_rep (v : Q) (s : State) : State :=
  {| mode := mode s; config := config s; current_state := current_state s;
     prev_state := prev_state s; state_sequence := state_sequence s;
     correct_count := correct_count s; incorrect_count := incorrect_count s;
     depth_angles := depth_angles s;
     min_knee_angle_this_rep := v;
     feedback_history := feedback_history s; start_time := start_time s;
     last_active_time := last_active_time s; active_seconds := active_seconds s;
     full_body_visible_count := full_body_visible_count s;
     is_ready := is_ready s; last_knee_vertical := last_knee_vertical s |}.

Definition set_feedback_history (v : list (FeedbackType * Z)) (s : State)
    : State :=
  {| mode := mode s; config := config s; current_state := current_state s;
     prev_state := prev_state s; state_sequence := state_sequence s;
     correct_count := correct_count s; incorrect_count := incorrect_count s;
     depth_angles := depth_angles s;
     min_knee_angle_this_rep := min_knee_angle_this_rep s;
     feedback_history := v; start_time := start_time s;
     last_active_time := last_active_time s; active_seconds := active_seconds s;
     full_body_visible_count := full_body_visible_count s;
     is_ready := is_ready s; last_knee_vertical := last_knee_vertical s |}.

Definition set_last_active_time (v : Q) (s : State) : State :=
  {| mode := mode s; config := config s; current_state := current_state s;
     prev_state := prev_state s; state_sequence := state_sequence s;
     correct_count := correct_count s; incorrect_count := incorrect_count s;
     depth_angles := depth_angles s;
     min_knee_angle_this_rep := min_knee_angle_this_rep s;
     feedback_history := feedback_history s; start_time := start_time s;
     last_active_time := v; active_seconds := active_seconds s;
     full_body_visible_count := full_body_visible_count s;
     is_ready := is_ready s; last_knee_vertical := last_knee_vertical s |}.

Definition set_active_seconds (v : Q) (s : State) : State :=
  {| mode := mode s; config := config s; current_state := current_state s;
     prev_state := prev_state s; state_sequence := state_sequence s;
     correct_count := correct_count s; incorrect_count := incorrect_count s;
     depth_angles := depth_angles s;
     min_knee_angle_this_rep := min_knee_angle_this_rep s;
     feedback_history := feedback_history s; start_time := start_time s;
     last_active_time := last_active_time s; active_seconds := v;
     full_body_visible_count := full_body_visible_count s;
     is_ready := is_ready s; last_knee_vertical := last_knee_vertical s |}.

Definition set_full_body_visible_count (v : Z) (s : State) : State :=
  {| mode := mode s; config := config s; current_state := current_state s;
     prev_state := prev_state s; state_sequence := state_sequence s;
     correct_count := correct_count s; incorrect_count := incorrect_count s;
     depth_angles := depth_angles s;
     min_knee_angle_this_rep := min_knee_angle_this_rep s;
     feedback_history := feedback_history s; start_time := start_time s;
     last_active_time := last_active_time s; active_seconds := active_seconds s;
     full_body_visible_count := v;
     is_ready := is_ready s; last_knee_vertical := last_knee_vertical s |}.

Definition set_is_ready (v : bool) (s : State) : State :=
  {| mode := mode s; config := config s; current_state := current_state s;
     prev_state := prev_state s; state_sequence := state_sequence s;
     correct_count := correct_count s; incorrect_count := incorrect_count s;
     depth_angles := depth_angles s;
     min_knee_angle_this_rep := min_knee_angle_this_rep s;
     feedback_history := feedback_history s; start_time := start_time s;
     last_active_time := last_active_time s; active_seconds := active_seconds s;
     full_body_visible_count := full_body_visible_count s;
     is_ready := v; last_knee_vertical := last_knee_vertical s |}.

Definition set_last_knee_vertical (v : Q) (s : State) : State :=
  {| mode := mode s; config := config s; current_state := current_state s;
     prev_state := prev_state s; state_sequence := state_sequence s;
     correct_count := correct_count s; incorrect_count := incorrect_count s;
     depth_angles := depth_angles s;
     min_knee_angle_this_rep := min_knee_angle_this_rep s;
     feedback_history := feedback_history s; start_time := start_time s;
     last_active_time := last_active_time s; active_seconds := active_seconds s;
     full_body_visible_count := full_body_visible_count s;
     is_ready := is_ready s; last_knee_vertical := v |}.

(** [FitnessTrainer.__init__]: the clock is read twice. *)
Definition init (m : WorkoutMode) (t_start t_active : Q) : State :=
  {| mode := m; config := config_for m;
     current_state := S1_NORMAL; prev_state := S1_NORMAL;
     state_sequence := [];
     correct_count := 0; incorrect_count := 0;
     depth_angles := []; min_knee_angle_this_rep := 180;
     feedback_history := [];
     start_time := t_start; last_active_time := t_active;
     active_seconds := 0;
     full_body_visible_count := 0; is_ready := false;
     last_knee_vertical := 0 |}.

(** [FitnessTrainer.reset]: [mode] is [Optional]; both enum values are
    truthy strings, so [if mode:] is "a mode was given". *)
Definition reset (m : option WorkoutMode) (t_start t_active : Q) (s : State)
    : State :=
  let '(md, cfg) :=
    match m with
    | Some m' => (m', config_for m')
    | None => (mode s, config s)
    end in
  {| mode := md; config := cfg;
     current_state := S1_NORMAL; prev_state := S1_NORMAL;
     state_sequence := [];
     correct_count := 0; incorrect_count := 0;
     depth_angles := []; min_knee_angle_this_rep := 180;
     feedback_history := [];
     start_time := t_start; last_active_time := t_active;
     active_seconds := 0;
     full_body_visible_count := 0; is_ready := false;
     last_knee_vertical := 0 |}.

(** ** models.py: [AnalysisResult] and its defaults *)

Record AnalysisResult := {
  r_current_state : SquatState;
  r_state_sequence : list SquatState;
  r_correct_count : Z;
  r_incorrect_count : Z;
  r_knee_angle : Q;
  r_hip_vertical_angle : Q;
  r_knee_vertical_angle : Q;
  r_ankle_vertical_angle : Q;
  r_feedback_type : FeedbackType;
  r_feedback_message : string;
  r_is_severe_feedback : bool;
  r_detected_side : string;
  r_offset_angle : Q;
  r_is_frontal_view : bool;
  r_is_full_body_visible : bool;
  r_is_ready : bool;
  r_inactivity_seconds : Q;
  r_debug_info : string
}.

Definition AnalysisResult_default : AnalysisResult := {|
  r_current_state := S1_NORMAL; r_state_sequence := [];
  r_correct_count := 0; r_incorrect_count := 0;
  r_knee_angle := 180; r_hip_vertical_angle := 0;
  r_knee_vertical_angle := 0; r_ankle_vertical_angle := 0;
  r_feedback_type := NONE; r_feedback_message := "";
  r_is_severe_feedback := false;
  r_detected_side := "right"; r_offset_angle := 0;
  r_is_frontal_view := false;
  r_is_full_body_visible := false; r_is_ready := false;
  r_inactivity_seconds := 0; r_debug_info := ""
|}.

(** ** Feedback histogram: a dict in insertion order *)

Fixpoint fh_get (h : list (FeedbackType * Z)) (k : FeedbackType) (default : Z)
    : Z :=
  match h with
  | [] => default
  | (k', v) :: h' => if FeedbackType_eqb k' k then v else fh_get h' k default
  end.

(** [h[k] = v]: an existing key keeps its place, a new key goes last. *)
Fixpoint fh_set (h : list (FeedbackType * Z)) (k : FeedbackType) (v : Z)
    : list (FeedbackType * Z) :=
  match h with
  | [] => [(k, v)]
  | (k', v') :: h' =>
      if FeedbackType_eqb k' k then (k', v) :: h' else (k', v') :: fh_set h' k v
  end.

(** [', '.join(l)] *)
Fixpoint join (sep : string) (l : list string) : string :=
  match l with
  | [] => EmptyString
  | [a] => a
  | a :: l' => String.append a (String.append sep (join sep l'))
  end.

(** Python's [sum] and [min] over a list of floats. *)
Definition py_sum (l : list Q) : Q := fold_left Qplus l 0.

Definition py_min (l : list Q) (default : Q) : Q :=
  match l with
  | [] => default
  | a :: l' => fold_left (fun m x => if Qltb x m then x else m) l' a
  end.

Definition py_max2 (a b : Q) : Q := if Qltb a b then b else a.
Definition py_min2 (a b : Q) : Q := if Qltb b a then b else a.

(** ** The engine *)

Section Engine.

(** The part of [angle_at_point] and [angle_with_vertical] after the
    zero-length test: [arccos(dot(v1, v2) / (|v1| |v2|))] in degrees. *)
Variable angle_between : Point -> Point -> Q.

(** [np.std] *)
Variable np_std : list Q -> Q.

Definition vec_sub (p q : Point) : Point := (fst p - fst q, snd p - snd q).

(** [np.linalg.norm(v) == 0] *)
Definition norm_is_zero (v : Point) : bool :=
  Qeq_bool (fst v) 0 && Qeq_bool (snd v) 0.

Definition angle_at_point (a b c : Point) : Q :=
  let v1 := vec_sub a b in
  let v2 := vec_sub c b in
  if norm_is_zero v1 || norm_is_zero v2 then 0
  else angle_between v1 v2.

Definition angle_with_vertical (p1 p2 : Point) : Q :=
  let line_vec := vec_sub p2 p1 in
  let vertical : Point := (0, 1) in
  if norm_is_zero line_vec then 0
  else angle_between line_vec vertical.

Definition offset_angle (nose left_shoulder right_shoulder : Point) : Q :=
  let shoulder_line := vec_sub right_shoulder left_shoulder in
  if norm_is_zero shoulder_line then 0
  else angle_at_point left_shoulder nose right_shoulder.

(** *** [_is_full_body_visible] *)

Definition key_indices : list (nat * string) :=
  [ (LandmarkIndex.LEFT_SHOULDER, "L.Shoulder"%string);
    (LandmarkIndex.RIGHT_SHOULDER, "R.Shoulder"%string);
    (LandmarkIndex.LEFT_HIP, "L.Hip"%string);
    (LandmarkIndex.RIGHT_HIP, "R.Hip"%string);
    (LandmarkIndex.LEFT_KNEE, "L.Knee"%string);
    (LandmarkIndex.RIGHT_KNEE, "R.Knee"%string);
    (LandmarkIndex.LEFT_ANKLE, "L.Ankle"%string);
    (LandmarkIndex.RIGHT_ANKLE, "R.Ankle"%string);
    (LandmarkIndex.NOSE, "Nose"%string) ].

(** The boundary test and the visibility test on one landmark dict. *)
Definition off_edge (tol : Q) (lm : Landmark) : bool :=
  let x := dict_get (lm_x lm) 0 in
  let y := dict_get (lm_y lm) 0 in
  Qltb x tol || Qltb (1 - tol) x || Qltb y tol || Qltb (1 - tol) y.

Definition low_visibility (vis_thresh : Q) (lm : Landmark) : bool :=
  Qltb (dict_get (lm_visibility lm) 1) vis_thresh.

(** One iteration of the loop: what it appends to [missing]. *)
Definition check_key (tol vis_thresh : Q) (landmarks : list Landmark)
    (key : nat * string) : list string :=
  let '(idx, name) := key in
  match nth_error landmarks idx with
  | None => [name]
  | Some lm =>
      if off_edge tol lm then [String.append name "(edge)"]
      else if low_visibility vis_thresh lm then [String.append name "(vis)"]
      else []
  end.

Definition missing_keys (cfg : ThresholdConfig) (landmarks : list Landmark)
    : list string :=
  fold_left
    (fun missing key =>
       missing ++ check_key (boundary_margin cfg) (visibility_thresh cfg)
                    landmarks key)
    key_indices [].

Definition _is_full_body_visible (s : State) (landmarks : list Landmark)
    : bool * string :=
  let missing := missing_keys (config s) landmarks in
  match missing with
  | [] => (true, "Full body visible"%string)
  | _ => (false, String.append "Missing: " (join ", " (firstn 3 missing)))
  end.

(** *** [_determine_state] *)

Definition _determine_state (s : State) (knee_vertical_angle : Q)
    : SquatState :=
  let cfg := config s in
  if Qleb knee_vertical_angle (state_s1_max cfg) then S1_NORMAL
  else if Qleb (state_s2_min cfg) knee_vertical_angle
          && Qleb knee_vertical_angle (state_s2_max cfg) then S2_TRANSITION
  else if Qleb (state_s3_min cfg) knee_vertical_angle
          && Qleb knee_vertical_angle (state_s3_max cfg) then S3_PASS
  else if Qltb (state_s3_max cfg) knee_vertical_angle then S3_PASS
  else current_state s.

(** *** [_determine_feedback] *)

Definition _determine_feedback (s : State)
    (hip_vertical knee_vertical ankle_vertical : Q) (is_going_down : bool)
    : FeedbackType * string * bool :=
  let cfg := config s in
  if Qltb (knee_over_toes cfg) ankle_vertical then
    (KNEE_OVER_TOES, "Knee falling over toes! Push hips back."%string, true)
  else if SquatState_eqb (current_state s) S3_PASS
          && Qltb (deep_squat cfg) knee_vertical then
    (DEEP_SQUAT, "Too deep! Don't go past parallel."%string, true)
  else if Qltb hip_vertical (hip_vertical_min cfg) then
    (BEND_FORWARD, "Lean your torso forward slightly."%string, false)
  else if Qltb (hip_vertical_max cfg) hip_vertical then
    (BEND_BACKWARDS, "Straighten your back, lean less forward."%string, false)
  else if is_going_down && SquatState_eqb (current_state s) S2_TRANSITION
          && (Qleb (lower_hips_min cfg) knee_vertical
              && Qleb knee_vertical (lower_hips_max cfg)) then
    (LOWER_HIPS, "Lower your hips more!"%string, false)
  else
    match current_state s with
    | S1_NORMAL => (READY, "Ready - squat down!"%string, false)
    | S3_PASS => (NONE, "Good depth! Now stand up."%string, false)
    | S2_TRANSITION => (NONE, ""%string, false)
    end.

(** *** [_update_counters] *)

Definition has_s3 (seq : list SquatState) : bool :=
  existsb (fun x => SquatState_eqb S3_PASS x) seq.

Definition _update_counters (s : State) : State :=
  let s :=
    if (3 <=? List.length (state_sequence s))%nat then
      if has_s3 (state_sequence s) then
        let s := set_correct_count (correct_count s + 1)%Z s in
        if Qltb (min_knee_angle_this_rep s) 180 then
          set_depth_angles
            (depth_angles s ++ [min_knee_angle_this_rep s]) s
        else s
      else set_incorrect_count (incorrect_count s + 1)%Z s
    else if (0 <? List.length (state_sequence s))%nat then
      set_incorrect_count (incorrect_count s + 1)%Z s
    else s in
  let s := set_state_sequence [] s in
  set_min_knee_angle_this_rep 180 s.

(** *** [_record_feedback] *)

Definition _record_feedback (feedback_type : FeedbackType) (s : State)
    : State :=
  match feedback_type with
  | NONE | READY => s
  | key =>
      set_feedback_history
        (fh_set (feedback_history s) key
           (fh_get (feedback_history s) key 0 + 1)%Z) s
  end.

(** *** [analyze]

    The body of [analyze] is cut at its comment lines into the blocks
    below; [analyze] chains them in source order.  [frame_width] and
    [frame_height] are arguments the body never reads, and so are the two
    foot landmarks it extracts. *)

(** "Check full body visibility": the two branches on [is_visible]. *)
Definition update_visibility (is_visible : bool) (s : State) : State :=
  if is_visible then
    set_full_body_visible_count (full_body_visible_count s + 1)%Z s
  else
    let s := set_full_body_visible_count 0%Z s in
    set_is_ready false s.

(** "Extract landmarks (using normalized coordinates)". *)
Definition get_pt (landmarks : list Landmark) (idx : nat) : Point :=
  get_landmark_coords landmarks idx 1 1.

(** "Track minimum knee angle for this rep". *)
Definition track_min_knee_angle (knee_angle : Q) (s : State) : State :=
  if Qltb knee_angle (min_knee_angle_this_rep s) then
    set_min_knee_angle_this_rep knee_angle s
  else s.

(** "Check inactivity", first half: the movement threshold. *)
Definition refresh_activity (current_time knee_vertical : Q) (s : State)
    : State :=
  let angle_change := Qabs (knee_vertical - last_knee_vertical s) in
  if Qltb 3 angle_change then
    let s := set_last_active_time current_time s in
    set_active_seconds (active_seconds s + (33 # 1000)) s
  else s.

(** "Check inactivity", second half: "Reset counters due to inactivity". *)
Definition inactivity_reset (current_time inactivity : Q) (s : State)
    : State :=
  if Qltb (inactive_thresh (config s)) inactivity then
    let s := set_correct_count 0%Z s in
    let s := set_incorrect_count 0%Z s in
    let s := set_state_sequence [] s in
    set_last_active_time current_time s
  else s.

(** "State transition logic". *)
Definition transition (new_state : SquatState) (s : State) : State :=
  if negb (SquatState_eqb new_state (current_state s)) then
    let s := set_prev_state (current_state s) s in
    let s := set_current_state new_state s in
    let s :=
      match new_state with
      | S2_TRANSITION | S3_PASS =>
          if (List.length (state_sequence s) <? 3)%nat then
            set_state_sequence (state_sequence s ++ [new_state]) s
          else s
      | S1_NORMAL => s
      end in
    match new_state with
    | S1_NORMAL => _update_counters s
    | _ => s
    end
  else s.

Definition analyze (s : State) (landmarks : list Landmark)
    (frame_width frame_height : Z) (current_time : Q)
    : State * AnalysisResult :=
  let result := AnalysisResult_default in
  if (List.length landmarks <? 33)%nat then
    (s, {| r_current_state := r_current_state result;
           r_state_sequence := r_state_sequence result;
           r_correct_count := r_correct_count result;
           r_incorrect_count := r_incorrect_count result;
           r_knee_angle := r_knee_angle result;
           r_hip_vertical_angle := r_hip_vertical_angle result;
           r_knee_vertical_angle := r_knee_vertical_angle result;
           r_ankle_vertical_angle := r_ankle_vertical_angle result;
           r_feedback_type := r_feedback_type result;
           r_feedback_message := r_feedback_message result;
           r_is_severe_feedback := r_is_severe_feedback result;
           r_detected_side := r_detected_side result;
           r_offset_angle := r_offset_angle result;
           r_is_frontal_view := r_is_frontal_view result;
           r_is_full_body_visible := r_is_full_body_visible result;
           r_is_ready := r_is_ready result;
           r_inactivity_seconds := r_inactivity_seconds result;
           r_debug_info := "Incomplete pose data" |})
  else
    let is_visible := fst (_is_full_body_visible s landmarks) in
    let debug_msg := snd (_is_full_body_visible s landmarks) in
    let s := update_visibility is_visible s in
    let result_is_ready :=
      (frames_required (config s) <=? full_body_visible_count s)%Z in
    let nose := get_pt landmarks LandmarkIndex.NOSE in
    let l_shoulder := get_pt landmarks LandmarkIndex.LEFT_SHOULDER in
    let r_shoulder := get_pt landmarks LandmarkIndex.RIGHT_SHOULDER in
    let l_hip := get_pt landmarks LandmarkIndex.LEFT_HIP in
    let r_hip := get_pt landmarks LandmarkIndex.RIGHT_HIP in
    let l_knee := get_pt landmarks LandmarkIndex.LEFT_KNEE in
    let r_knee := get_pt landmarks LandmarkIndex.RIGHT_KNEE in
    let l_ankle := get_pt landmarks LandmarkIndex.LEFT_ANKLE in
    let r_ankle := get_pt landmarks LandmarkIndex.RIGHT_ANKLE in
    let result_offset_angle := offset_angle nose l_shoulder r_shoulder in
    let result_is_frontal_view :=
      Qltb (offset_thresh (config s)) result_offset_angle in
    if result_is_frontal_view then
      (s, {| r_current_state := current_state s;
             r_state_sequence := r_state_sequence result;
             r_correct_count := correct_count s;
             r_incorrect_count := incorrect_count s;
             r_knee_angle := r_knee_angle result;
             r_hip_vertical_angle := r_hip_vertical_angle result;
             r_knee_vertical_angle := r_knee_vertical_angle result;
             r_ankle_vertical_angle := r_ankle_vertical_angle result;
             r_feedback_type := FRONTAL_WARNING;
             r_feedback_message := "Turn to side view for better analysis";
             r_is_severe_feedback := r_is_severe_feedback result;
             r_detected_side := r_detected_side result;
             r_offset_angle := result_offset_angle;
             r_is_frontal_view := result_is_frontal_view;
             r_is_full_body_visible := is_visible;
             r_is_ready := result_is_ready;
             r_inactivity_seconds := r_inactivity_seconds result;
             r_debug_info := debug_msg |})
    else
      let left_knee_angle := angle_at_point l_hip l_knee l_ankle in
      let right_knee_angle := angle_at_point r_hip r_knee r_ankle in
      let left := Qltb left_knee_angle right_knee_angle in
      let side := if left then "left"%string else "right"%string in
      let shoulder := if left then l_shoulder else r_shoulder in
      let hip := if left then l_hip else r_hip in
      let knee := if left then l_knee else r_knee in
      let ankle := if left then l_ankle else r_ankle in
      let knee_angle := if left then left_knee_angle else right_knee_angle in
      let hip_vertical := angle_with_vertical shoulder hip in
      let knee_vertical := angle_with_vertical hip knee in
      let ankle_vertical := angle_with_vertical knee ankle in
      let s := track_min_knee_angle knee_angle s in
      let s := refresh_activity current_time knee_vertical s in
      let inactivity := current_time - last_active_time s in
      let s := inactivity_reset current_time inactivity s in
      let s := set_last_knee_vertical knee_vertical s in
      if result_is_ready then
        let s := set_is_ready true s in
        let new_state := _determine_state s knee_vertical in
        let is_going_down := Qltb (last_knee_vertical s) knee_vertical in
        let s := transition new_state s in
        let fb :=
          _determine_feedback s hip_vertical knee_vertical ankle_vertical
            is_going_down in
        let feedback_type := fst (fst fb) in
        let feedback_msg := snd (fst fb) in
        let is_severe := snd fb in
        let s := _record_feedback feedback_type s in
        (s, {| r_current_state := current_state s;
               r_state_sequence := state_sequence s;
               r_correct_count := correct_count s;
               r_incorrect_count := incorrect_count s;
               r_knee_angle := knee_angle;
               r_hip_vertical_angle := hip_vertical;
               r_knee_vertical_angle := knee_vertical;
               r_ankle_vertical_angle := ankle_vertical;
               r_feedback_type := feedback_type;
               r_feedback_message := feedback_msg;
               r_is_severe_feedback := is_severe;
               r_detected_side := side;
               r_offset_angle := result_offset_angle;
               r_is_frontal_view := result_is_frontal_view;
               r_is_full_body_visible := is_visible;
               r_is_ready := result_is_ready;
               r_inactivity_seconds := inactivity;
               r_debug_info := debug_msg |})
      else
        (s, {| r_current_state := current_state s;
               r_state_sequence := state_sequence s;
               r_correct_count := correct_count s;
               r_incorrect_count := incorrect_count s;
               r_knee_angle := knee_angle;
               r_hip_vertical_angle := hip_vertical;
               r_knee_vertical_angle := knee_vertical;
               r_ankle_vertical_angle := ankle_vertical;
               r_feedback_type := NONE;
               r_feedback_message := "Position full body in frame";
               r_is_severe_feedback := r_is_severe_feedback result;
               r_detected_side := side;
               r_offset_angle := result_offset_angle;
               r_is_frontal_view := result_is_frontal_view;
               r_is_full_body_visible := is_visible;
               r_is_ready := result_is_ready;
               r_inactivity_seconds := inactivity;
               r_debug_info := debug_msg |}).

(** *** [get_summary] and [_calculate_form_score] *)

Record WorkoutSummary := {
  total_reps : Z;
  correct_reps : Z;
  incorrect_reps : Z;
  accuracy_percentage : Q;
  average_depth_angle : Q;
  best_depth_angle : Q;
  sum_depth_angles : list Q;
  form_score : Q;
  form_label : string;
  feedback_counts : list (FeedbackType * Z);
  most_common_issue : option FeedbackType;
  total_duration_seconds : Z;
  active_time_seconds : Z;
  sum_mode : WorkoutMode
}.

Definition _calculate_form_score (s : State) : Q :=
  if (correct_count s + incorrect_count s =? 0)%Z then 0
  else
    let total := (correct_count s + incorrect_count s)%Z in
    let accuracy_score :=
      (inject_Z (correct_count s) / inject_Z total) * 50 in
    let consistency_score :=
      if (1 <? List.length (depth_angles s))%nat then
        py_max2 0 (25 - np_std (depth_angles s))
      else if (List.length (depth_angles s) =? 1)%nat then 25
      else 0 in
    let severe_types := [KNEE_OVER_TOES; DEEP_SQUAT] in
    let severe_penalty :=
      fold_left
        (fun penalty ft =>
           penalty + inject_Z (fh_get (feedback_history s) ft 0 * 2)%Z)
        severe_types 0 in
    let feedback_score := py_max2 0 (25 - severe_penalty) in
    py_min2 100 (accuracy_score + consistency_score + feedback_score).

(** [max(d, key=d.get)]: the first key, in insertion order, whose count is
    largest. *)
Fixpoint max_key (h : list (FeedbackType * Z)) (best : FeedbackType * Z)
    : FeedbackType :=
  match h with
  | [] => fst best
  | (k, v) :: h' =>
      if (snd best <? v)%Z then max_key h' (k, v) else max_key h' best
  end.

Definition get_summary (s : State) (now : Q) : WorkoutSummary :=
  let total_reps := (correct_count s + incorrect_count s)%Z in
  let accuracy :=
    if (0 <? total_reps)%Z then
      (inject_Z (correct_count s) / inject_Z total_reps) * 100
    else 0 in
  let avg_depth :=
    match depth_angles s with
    | [] => 180
    | _ => py_sum (depth_angles s)
           / inject_Z (Z.of_nat (List.length (depth_angles s)))
    end in
  let best_depth := py_min (depth_angles s) 180 in
  let form_score := _calculate_form_score s in
  let form_label :=
    if Qleb 80 form_score then "Excellent"%string
    else if Qleb 60 form_score then "Good"%string
    else if Qleb 40 form_score then "Fair"%string
    else "Needs Work"%string in
  let most_common :=
    match feedback_history s with
    | [] => None
    | kv :: h' => Some (max_key h' kv)
    end in
  let total_duration := Qtrunc (now - start_time s) in
  {| total_reps := total_reps;
     correct_reps := correct_count s;
     incorrect_reps := incorrect_count s;
     accuracy_percentage := accuracy;
     average_depth_angle := avg_depth;
     best_depth_angle := best_depth;
     sum_depth_angles := depth_angles s;
     form_score := form_score;
     form_label := form_label;
     feedback_counts := feedback_history s;
     most_common_issue := most_common;
     total_duration_seconds := total_duration;
     active_time_seconds := Qtrunc (active_seconds s);
     sum_mode := mode s |}.

(** *** Names for what [analyze] computes on a frame

    The local variables of [analyze], as functions of the frame, so that the
    facts below can speak about them. *)

Definition frame_offset_angle (landmarks : list Landmark) : Q :=
  offset_angle (get_pt landmarks LandmarkIndex.NOSE)
    (get_pt landmarks LandmarkIndex.LEFT_SHOULDER)
    (get_pt landmarks LandmarkIndex.RIGHT_SHOULDER).

Definition frame_left_knee_angle (landmarks : list Landmark) : Q :=
  angle_at_point (get_pt landmarks LandmarkIndex.LEFT_HIP)
    (get_pt landmarks LandmarkIndex.LEFT_KNEE)
    (get_pt landmarks LandmarkIndex.LEFT_ANKLE).

Definition frame_right_knee_angle (landmarks : list Landmark) : Q :=
  angle_at_point (get_pt landmarks LandmarkIndex.RIGHT_HIP)
    (get_pt landmarks LandmarkIndex.RIGHT_KNEE)
    (get_pt landmarks LandmarkIndex.RIGHT_ANKLE).

Definition frame_left (landmarks : list Landmark) : bool :=
  Qltb (frame_left_knee_angle landmarks) (frame_right_knee_angle landmarks).

Definition frame_knee_angle (landmarks : list Landmark) : Q :=
  if frame_left landmarks then frame_left_knee_angle landmarks
  else frame_right_knee_angle landmarks.

Definition frame_hip_vertical (landmarks : list Landmark) : Q :=
  angle_with_vertical
    (if frame_left landmarks then get_pt landmarks LandmarkIndex.LEFT_SHOULDER
     else get_pt landmarks LandmarkIndex.RIGHT_SHOULDER)
    (if frame_left landmarks then get_pt landmarks LandmarkIndex.LEFT_HIP
     else get_pt landmarks LandmarkIndex.RIGHT_HIP).

Definition frame_knee_vertical (landmarks : list Landmark) : Q :=
  angle_with_vertical
    (if frame_left landmarks then get_pt landmarks LandmarkIndex.LEFT_HIP
     else get_pt landmarks LandmarkIndex.RIGHT_HIP)
    (if frame_left landmarks then get_pt landmarks LandmarkIndex.LEFT_KNEE
     else get_pt landmarks LandmarkIndex.RIGHT_KNEE).

Definition frame_ankle_vertical (landmarks : list Landmark) : Q :=
  angle_with_vertical
    (if frame_left landmarks then get_pt landmarks LandmarkIndex.LEFT_KNEE
     else get_pt landmarks LandmarkIndex.RIGHT_KNEE)
    (if frame_left landmarks then get_pt landmarks LandmarkIndex.LEFT_ANKLE
     else get_pt landmarks LandmarkIndex.RIGHT_ANKLE).

Definition frame_visible (s : State) (landmarks : list Landmark) : bool :=
  fst (_is_full_body_visible s landmarks).

(** [result.is_ready] *)
Definition frame_ready (s : State) (landmarks : list Landmark) : bool :=
  let s := update_visibility (frame_visible s landmarks) s in
  (frames_required (config s) <=? full_body_visible_count s)%Z.

(** The trainer after the visibility gate, the running minimum and the
    movement threshold: the state in which [inactivity] is computed. *)
Definition before_inactivity (s : State) (landmarks : list Landmark)
    (current_time : Q) : State :=
  let s := update_visibility (frame_visible s landmarks) s in
  let s := track_min_knee_angle (frame_knee_angle landmarks) s in
  refresh_activity current_time (frame_knee_vertical landmarks) s.

(** [result.inactivity_seconds] *)
Definition frame_inactivity (s : State) (landmarks : list Landmark)
    (current_time : Q) : Q :=
  current_time - last_active_time (before_inactivity s landmarks current_time).

(** The trainer at the line "State machine - only process if ready". *)
Definition bookkeeping (s : State) (landmarks : list Landmark)
    (current_time : Q) : State :=
  let s0 := before_inactivity s landmarks current_time in
  let s1 :=
    inactivity_reset current_time (frame_inactivity s landmarks current_time)
      s0 in
  set_last_knee_vertical (frame_knee_vertical landmarks) s1.

(** The trainer at "Determine new state", on a ready frame. *)
Definition machine_input (s : State) (landmarks : list Landmark)
    (current_time : Q) : State :=
  set_is_ready true (bookkeeping s landmarks current_time).

(** [new_state] *)
Definition frame_new_state (s : State) (landmarks : list Landmark)
    (current_time : Q) : SquatState :=
  _determine_state (machine_input s landmarks current_time)
    (frame_knee_vertical landmarks).

(** The trainer at "Determine feedback", on a ready frame. *)
Definition after_transition (s : State) (landmarks : list Landmark)
    (current_time : Q) : State :=
  transition (frame_new_state s landmarks current_time)
    (machine_input s landmarks current_time).

(** Running [analyze] over a list of timed frames. *)
Fixpoint run (s : State) (frames : list (list Landmark * Q)) : State :=
  match frames with
  | [] => s
  | (landmarks, t) :: rest => run (fst (analyze s landmarks 640 480 t)) rest
  end.

End Engine.

(** ** Notions used by the statements *)

(** The phase bands of a profile lie in order, with gaps between them. *)
Definition bands_ordered (cfg : ThresholdConfig) : Prop :=
  state_s1_max cfg < state_s2_min cfg
  /\ state_s2_min cfg <= state_s2_max cfg
  /\ state_s2_max cfg < state_s3_min cfg
  /\ state_s3_min cfg <= state_s3_max cfg.

(** A key landmark fails the visibility gate of a profile: it lies outside
    [margin, 1 - margin] on an axis, or its visibility is below the
    threshold. *)
Definition fails_gate (cfg : ThresholdConfig) (lm : Landmark) : Prop :=
  dict_get (lm_x lm) 0 < boundary_margin cfg
  \/ 1 - boundary_margin cfg < dict_get (lm_x lm) 0
  \/ dict_get (lm_y lm) 0 < boundary_margin cfg
  \/ 1 - boundary_margin cfg < dict_get (lm_y lm) 0
  \/ dict_get (lm_visibility lm) 1 < visibility_thresh cfg.

(** The result of the early return on incomplete pose data. *)
Definition incomplete_result : AnalysisResult := {|
  r_current_state := S1_NORMAL; r_state_sequence := [];
  r_correct_count := 0; r_incorrect_count := 0;
  r_knee_angle := 180; r_hip_vertical_angle := 0;
  r_knee_vertical_angle := 0; r_ankle_vertical_angle := 0;
  r_feedback_type := NONE; r_feedback_message := "";
  r_is_severe_feedback := false;
  r_detected_side := "right"; r_offset_angle := 0;
  r_is_frontal_view := false;
  r_is_full_body_visible := false; r_is_ready := false;
  r_inactivity_seconds := 0; r_debug_info := "Incomplete pose data"
|}.

(** ** A reference kernel for worked examples

    A rational stand-in for the two numeric routines, used only to run the
    engine on concrete frames.  [approx_angle v1 v2] is the angle between two
    non-zero vectors, [atan2 (|cross|, dot)] in degrees, with the arctangent
    on [0, 1] replaced by the quadratic [45 x + 15.64 x (1 - x)]; it is exact
    at every multiple of 45 degrees and within a quarter of a degree
    elsewhere.  The sample frames below have dyadic coordinates and rays along
    the axes, the diagonals and a 3-4-5 triangle; there the double-precision
    computation of [angle_utils.py] gives 0, 90, 135 and 180 exactly, 45 up to
    the last binary digit, and 53.13 where this kernel gives 53.32, so every
    comparison made in the examples has the same outcome in the source. *)

Definition dot (v1 v2 : Point) : Q := fst v1 * fst v2 + snd v1 * snd v2.
Definition cross (v1 v2 : Point) : Q := fst v1 * snd v2 - snd v1 * fst v2.

Definition atan_deg_unit (x : Q) : Q := 45 * x + (1564 # 100) * x * (1 - x).

Definition approx_angle (v1 v2 : Point) : Q :=
  let d := dot v1 v2 in
  let c := Qabs (cross v1 v2) in
  Qred
    (if Qeq_bool c 0 then (if Qltb d 0 then 180 else 0)
     else if Qltb 0 d then
       if Qleb c d then atan_deg_unit (c / d) else 90 - atan_deg_unit (d / c)
     else
       if Qleb (- d) c then 90 + atan_deg_unit (- d / c)
       else 180 - atan_deg_unit (c / - d)).

(** Population standard deviation, the square root taken by six Newton
    steps. *)
Fixpoint newton_sqrt (n : nat) (x g : Q) : Q :=
  match n with
  | O => g
  | S n' => newton_sqrt n' x (Qred ((g + x / g) / 2))
  end.

Definition approx_std (l : list Q) : Q :=
  match l with
  | [] => 0
  | _ =>
      let n := inject_Z (Z.of_nat (List.length l)) in
      let mean := py_sum l / n in
      let var := py_sum (map (fun x => (x - mean) * (x - mean)) l) / n in
      if Qeq_bool var 0 then 0 else newton_sqrt 6 var ((1 + var) / 2)
  end.

(** *** Sample frames

    A pure side view: the left and the right landmark of each pair share one
    position, so the tie in the knee angles selects the right side and the
    shoulder line has zero length.  Every other landmark sits at the centre
    of the frame, as in the mock of [tests/test_fitness_trainer.py]. *)

Definition mk (x y : Q) : Landmark :=
  {| lm_x := Some x; lm_y := Some y; lm_z := Some 0;
     lm_visibility := Some (9 # 10) |}.

Definition centre : Landmark := mk (1 # 2) (1 # 2).

Definition pose (nose shoulder hip knee ankle : Landmark) : list Landmark :=
  [nose] ++ repeat centre 10 ++ [shoulder; shoulder] ++ repeat centre 10
  ++ [hip; hip; knee; knee; ankle; ankle] ++ repeat centre 4.

(** Upright: thigh and shin vertical, straight knee. *)
Definition standing : list Landmark :=
  pose (mk (1 # 2) (1 # 8)) (mk (1 # 2) (1 # 4)) (mk (1 # 2) (1 # 2))
       (mk (1 # 2) (5 # 8)) (mk (1 # 2) (3 # 4)).

(** Thigh at 45 degrees, shin vertical, torso leaning 45 degrees. *)
Definition half_squat : list Landmark :=
  pose (mk (3 # 4) (1 # 8)) (mk (5 # 8) (1 # 4)) (mk (3 # 8) (1 # 2))
       (mk (1 # 2) (5 # 8)) (mk (1 # 2) (3 # 4)).

(** Thigh horizontal, shin vertical, torso leaning 45 degrees. *)
Definition deep_squat_pose : list Landmark :=
  pose (mk (3 # 4) (1 # 4)) (mk (5 # 8) (3 # 8)) (mk (3 # 8) (5 # 8))
       (mk (1 # 2) (5 # 8)) (mk (1 # 2) (3 # 4)).

(** Thigh 4 across and 3 down (about 53 degrees), shin vertical, torso
    leaning 45 degrees. *)
Definition mid_squat : list Landmark :=
  pose (mk (3 # 4) (1 # 8)) (mk (5 # 8) (1 # 4)) (mk (3 # 8) (1 # 2))
       (mk (1 # 2) (19 # 32)) (mk (1 # 2) (3 # 4)).

(** A rigid straight leg, hip to ankle on one line, swung forward: 4 across
    and 3 down, and horizontal. *)
Definition straight_lifted : list Landmark :=
  pose (mk (1 # 2) (1 # 4)) (mk (3 # 8) (3 # 8)) (mk (1 # 4) (1 # 2))
       (mk (3 # 8) (19 # 32)) (mk (1 # 2) (11 # 16)).

Definition straight_horizontal : list Landmark :=
  pose (mk (1 # 2) (1 # 4)) (mk (3 # 8) (3 # 8)) (mk (1 # 4) (1 # 2))
       (mk (3 # 8) (1 # 2)) (mk (1 # 2) (1 # 2)).

(** Facing the camera: the shoulders apart, the nose above their middle. *)
Definition facing : list Landmark :=
  [mk (1 # 2) (1 # 4)] ++ repeat centre 10
  ++ [mk (1 # 4) (1 # 2); mk (3 # 4) (1 # 2)] ++ repeat centre 10
  ++ [mk (3 # 8) (5 # 8); mk (5 # 8) (5 # 8); mk (3 # 8) (3 # 4);
      mk (5 # 8) (3 # 4); mk (3 # 8) (7 # 8); mk (5 # 8) (7 # 8)]
  ++ repeat centre 4.

(** Upright, with the nose above the top margin. *)
Definition nose_cut_off : list Landmark :=
  pose (mk (1 # 2) (1 # 100)) (mk (1 # 2) (1 # 4)) (mk (1 # 2) (1 # 2))
       (mk (1 # 2) (5 # 8)) (mk (1 # 2) (3 # 4)).


(** *** Sample sessions, all in Beginner mode, created at time 0 *)

Definition fresh : State := init BEGINNER 0 0.

(** Three upright frames make the trainer ready. *)
Definition warm_up : list (list Landmark * Q) :=
  [(standing, 1); (standing, 2); (standing, 3)].

(** Ready, then half-way down: phase Transition, history [s2]. *)
Definition going_down : State :=
  run approx_angle fresh (warm_up ++ [(half_squat, 4)]).

(** A full rep, the last frame (upright again) still to come. *)
Definition before_standing_up : State :=
  run approx_angle fresh
    (warm_up ++ [(half_squat, 4); (deep_squat_pose, 5); (half_squat, 6)]).

(** One correct rep counted. *)
Definition one_rep : State :=
  run approx_angle fresh
    (warm_up ++ [(half_squat, 4); (deep_squat_pose, 5); (half_squat, 6);
                 (standing, 7)]).

(** One correct rep, then upright and still until the timeout has fired. *)
Definition one_rep_then_idle : State :=
  run approx_angle one_rep [(standing, 40)].

(** Half-way down from the first frame on, two frames only: not ready yet. *)
Definition crouching_unready : State :=
  run approx_angle fresh [(half_squat, 1); (half_squat, 2)].

(** Half-way down from the first frame on, three frames: ready, phase
    Transition, history [s2]. *)
Definition crouching_ready : State :=
  run approx_angle fresh [(half_squat, 1); (half_squat, 2); (half_squat, 3)].

(** The straight leg swung up to horizontal and half-way back. *)
Definition leg_swing : State :=
  run approx_angle fresh
    (warm_up ++ [(straight_lifted, 4); (straight_horizontal, 5);
                 (straight_lifted, 6)]).

(** ** Notions used by the further statements *)

(** A well-formed feedback histogram: every kind at most once, every count
    at least 1, and never an entry for none, "ready" or the frontal
    warning. *)
Definition histogram_ok (h : list (FeedbackType * Z)) : Prop :=
  NoDup (map fst h)
  /\ Forall (fun kv => (1 <= snd kv)%Z /\ fst kv <> NONE /\ fst kv <> READY
                       /\ fst kv <> FRONTAL_WARNING) h.

(** What holds of a trainer throughout a session. *)
Definition session_ok (s : State) : Prop :=
  (0 <= correct_count s)%Z
  /\ (0 <= incorrect_count s)%Z
  /\ Forall (fun a => a < 180) (depth_angles s)
  /\ (current_state s = S1_NORMAL -> state_sequence s = [])
  /\ ~ In S1_NORMAL (state_sequence s)
  /\ histogram_ok (feedback_history s)
  /\ (0 <= full_body_visible_count s)%Z
  /\ (is_ready s = true ->
      (frames_required (config s) <= full_body_visible_count s)%Z).

(** A key landmark passes the visibility gate of a profile. *)
Definition passes_gate (cfg : ThresholdConfig) (lm : Landmark) : Prop :=
  boundary_margin cfg <= dict_get (lm_x lm) 0
  /\ dict_get (lm_x lm) 0 <= 1 - boundary_margin cfg
  /\ boundary_margin cfg <= dict_get (lm_y lm) 0
  /\ dict_get (lm_y lm) 0 <= 1 - boundary_margin cfg
  /\ visibility_thresh cfg <= dict_get (lm_visibility lm) 1.

(** A frame that [analyze] accepts and whose nine key landmarks all pass. *)
Definition frame_passes (cfg : ThresholdConfig) (landmarks : list Landmark)
    : Prop :=
  (33 <= List.length landmarks)%nat
  /\ forall idx name lm,
       In (idx, name) key_indices -> nth_error landmarks idx = Some lm ->
       passes_gate cfg lm.

(** A collapsed frame: all of the first 33 landmarks at one position. *)
Definition collapsed (landmarks : list Landmark) : Prop :=
  forall i j, (i < 33)%nat -> (j < 33)%nat ->
              get_pt landmarks i = get_pt landmarks j.


(** The part of the trainer the phase machine reads and writes: phase,
    history and the two counters. *)
Definition phase_view (s : State) : SquatState * list SquatState * Z * Z :=
  (current_state s, state_sequence s, correct_count s, incorrect_count s).

Section Phases.

Variable angle_between : Point -> Point -> Q.

(** A frame on which the phase machine runs and the inactivity timeout does
    not fire: complete, seen from the side, ready, and within the timeout. *)
Definition accepted (s : State) (landmarks : list Landmark) (t : Q) : bool :=
  (33 <=? List.length landmarks)%nat
  && negb (Qltb (offset_thresh (config s))
             (frame_offset_angle angle_between landmarks))
  && frame_ready s landmarks
  && negb (Qltb (inactive_thresh (config s))
             (frame_inactivity angle_between s landmarks t)).

(** Every frame of a list is accepted in its turn and classified as the
    phase [c]. *)
Fixpoint steady (c : SquatState) (s : State)
    (frames : list (list Landmark * Q)) : bool :=
  match frames with
  | [] => true
  | (landmarks, t) :: rest =>
      accepted s landmarks t
      && SquatState_eqb
           (_determine_state s (frame_knee_vertical angle_between landmarks)) c
      && steady c (fst (analyze angle_between s landmarks 640 480 t)) rest
  end.

End Phases.

(** ** pose_server.py: the websocket endpoint

    One connection of [websocket_analyze].  A message is the object that
    [json.loads] returned, with the fields of the documented format at their
    documented types: strings for "command" and "mode", a list of landmark
    objects for "landmarks", integers for the frame size; a key may be absent.
    Text that is not JSON, and fields of other types, are outside the model;
    on the messages of the model no call of the loop body raises.  The clock
    is read by [reset] (twice), by [analyze] and by [get_summary]: every
    message comes with the three readings its handling may take. *)

Record Message := {
  m_command : option string;
  m_mode : option string;
  m_landmarks : option (list Landmark);
  m_frame_width : option Z;
  m_frame_height : option Z
}.

(** What [send_json] sends. *)
Inductive Reply :=
| reply_reset (mode_str : string)
| reply_summary (summary : WorkoutSummary)
| reply_error (received_count : nat)
| reply_result (result : AnalysisResult).

(** [pose_dict.get(key, default)] *)
Definition get_or {A : Type} (field : option A) (default : A) : A :=
  match field with Some v => v | None => default end.

(** [pose_dict.get("command") == name] *)
Definition command_is (msg : Message) (name : string) : bool :=
  match m_command msg with
  | Some c => String.eqb c name
  | None => false
  end.

(** [WorkoutMode.BEGINNER if mode_str == "beginner" else WorkoutMode.PRO] *)
Definition mode_of (mode_str : string) : WorkoutMode :=
  if String.eqb mode_str "beginner" then BEGINNER else PRO.

Section Server.

Variable angle_between : Point -> Point -> Q.
Variable np_std : list Q -> Q.

(** The body of the receive loop. *)
Definition websocket_message (trainer : State) (msg : Message)
    (t_start t_active now : Q) : State * Reply :=
  if command_is msg "reset" then
    let mode_str := get_or (m_mode msg) "beginner"%string in
    let mode := mode_of mode_str in
    (reset (Some mode) t_start t_active trainer, reply_reset mode_str)
  else if command_is msg "summary" then
    (trainer, reply_summary (get_summary np_std trainer now))
  else
    let landmarks := get_or (m_landmarks msg) [] in
    if (List.length landmarks <? 33)%nat then
      (trainer, reply_error (List.length landmarks))
    else
      let mode_str := get_or (m_mode msg) "beginner"%string in
      let new_mode := mode_of mode_str in
      let trainer :=
        if negb (WorkoutMode_eqb new_mode (mode trainer))
        then reset (Some new_mode) t_start t_active trainer
        else trainer in
      let frame_width := get_or (m_frame_width msg) 640%Z in
      let frame_height := get_or (m_frame_height msg) 480%Z in
      let '(trainer, result) :=
        analyze angle_between trainer landmarks frame_width frame_height now in
      (trainer, reply_result result).

(** The receive loop over the messages of a connection, with the replies
    in the order sent. *)
Fixpoint websocket_loop (trainer : State)
    (inbox : list (Message * (Q * Q * Q))) : State * list Reply :=
  match inbox with
  | [] => (trainer, [])
  | (msg, (t_start, t_active, now)) :: rest =>
      let '(trainer, reply) :=
        websocket_message trainer msg t_start t_active now in
      let '(trainer, replies) := websocket_loop trainer rest in
      (trainer, reply :: replies)
  end.

(** [websocket_analyze]: a trainer of its own for the connection. *)
Definition websocket_analyze (t_start t_active : Q)
    (inbox : list (Message * (Q * Q * Q))) : State * list Reply :=
  websocket_loop (init BEGINNER t_start t_active) inbox.

End Server.

(** What holds of the trainer throughout a connection. *)
Definition connection_ok (s : State) : Prop :=
  session_ok s
  /\ config s = config_for (mode s)
  /\ (List.length (state_sequence s) <= 3)%nat.

(** The numbers of a reply are in range. *)
Definition reply_in_range (reply : Reply) : Prop :=
  match reply with
  | reply_summary summary =>
      (0 <= correct_reps summary)%Z /\ (0 <= incorrect_reps summary)%Z
      /\ total_reps summary = (correct_reps summary + incorrect_reps summary)%Z
      /\ 0 <= accuracy_percentage summary <= 100
      /\ 0 <= form_score summary <= 100
  | reply_result result =>
      (0 <= r_correct_count result)%Z /\ (0 <= r_incorrect_count result)%Z
      /\ (List.length (r_state_sequence result) <= 3)%nat
  | _ => True
  end.

(** A frame message for the worked examples: upright, naming the mode
    "pro", no frame size. *)
Definition pro_frame : Message :=
  {| m_command := None; m_mode := Some "pro"%string;
     m_landmarks := Some standing;
     m_frame_width := None; m_frame_height := None |}.
(** * Facts

    ** Comparisons and enumerations *)

Lemma Qleb_true (a b : Q) : Qleb a b = true <-> a <= b.
Proof. unfold Qleb. apply Qle_bool_iff. Qed.

Lemma Qleb_false (a b : Q) : Qleb a b = false <-> b < a.
Proof.
  unfold Qleb. split; intro H.
  - apply Qnot_le_lt. intro C. apply Qle_bool_iff in C. congruence.
  - destruct (Qle_bool a b) eqn:E; [|reflexivity].
    apply Qle_bool_iff in E. exfalso. exact (Qlt_not_le _ _ H E).
Qed.

Lemma Qltb_true (a b : Q) : Qltb a b = true <-> a < b.
Proof.
  unfold Qltb. rewrite negb_true_iff. apply (Qleb_false b a).
Qed.

Lemma Qltb_false (a b : Q) : Qltb a b = false <-> b <= a.
Proof.
  unfold Qltb. rewrite negb_false_iff. apply Qle_bool_iff.
Qed.

Lemma Qltb_irrefl (a : Q) : Qltb a a = false.
Proof. apply Qltb_false. apply Qle_refl. Qed.

Lemma SquatState_eqb_spec (a b : SquatState) :
  reflect (a = b) (SquatState_eqb a b).
Proof. destruct a, b; simpl; constructor; congruence. Qed.

Lemma FeedbackType_eqb_spec (a b : FeedbackType) :
  reflect (a = b) (FeedbackType_eqb a b).
Proof. destruct a, b; simpl; constructor; congruence. Qed.


Ltac q_concrete := unfold Qlt, Qle; simpl; lia.

(** ** The paths through [analyze] *)

Section EngineFacts.

Variable angle_between : Point -> Point -> Q.
Variable np_std : list Q -> Q.

Lemma short_frame_false (landmarks : list Landmark) :
  (33 <= List.length landmarks)%nat ->
  (List.length landmarks <? 33)%nat = false.
Proof. intro H. apply Nat.ltb_ge. exact H. Qed.

(** Fewer than 33 landmarks: the early return. *)
Lemma analyze_short s landmarks fw fh t :
  (List.length landmarks < 33)%nat ->
  analyze angle_between s landmarks fw fh t =
  (s, {| r_current_state := S1_NORMAL; r_state_sequence := [];
         r_correct_count := 0; r_incorrect_count := 0;
         r_knee_angle := 180; r_hip_vertical_angle := 0;
         r_knee_vertical_angle := 0; r_ankle_vertical_angle := 0;
         r_feedback_type := NONE; r_feedback_message := "";
         r_is_severe_feedback := false;
         r_detected_side := "right"; r_offset_angle := 0;
         r_is_frontal_view := false;
         r_is_full_body_visible := false; r_is_ready := false;
         r_inactivity_seconds := 0;
         r_debug_info := "Incomplete pose data" |}).
Proof.
  intro H. unfold analyze.
  apply Nat.ltb_lt in H. rewrite H. reflexivity.
Qed.

Lemma config_update_visibility b s :
  config (update_visibility b s) = config s.
Proof. destruct b; reflexivity. Qed.

Ltac unfold_frame :=
  cbv beta zeta delta
    [after_transition frame_new_state machine_input bookkeeping
     frame_inactivity before_inactivity frame_visible frame_knee_angle
     frame_hip_vertical frame_knee_vertical frame_ankle_vertical frame_left
     frame_left_knee_angle frame_right_knee_angle frame_offset_angle].

(** The frontal-view return. *)
Lemma analyze_frontal s landmarks fw fh t :
  (33 <= List.length landmarks)%nat ->
  Qltb (offset_thresh (config s)) (frame_offset_angle angle_between landmarks)
  = true ->
  analyze angle_between s landmarks fw fh t =
  (update_visibility (frame_visible s landmarks) s,
   {| r_current_state := current_state s; r_state_sequence := [];
      r_correct_count := correct_count s;
      r_incorrect_count := incorrect_count s;
      r_knee_angle := 180; r_hip_vertical_angle := 0;
      r_knee_vertical_angle := 0; r_ankle_vertical_angle := 0;
      r_feedback_type := FRONTAL_WARNING;
      r_feedback_message := "Turn to side view for better analysis";
      r_is_severe_feedback := false;
      r_detected_side := "right";
      r_offset_angle := frame_offset_angle angle_between landmarks;
      r_is_frontal_view := true;
      r_is_full_body_visible := frame_visible s landmarks;
      r_is_ready := frame_ready s landmarks;
      r_inactivity_seconds := 0;
      r_debug_info := snd (_is_full_body_visible s landmarks) |}).
Proof.
  intros Hlen Hfront. unfold analyze.
  rewrite (short_frame_false _ Hlen).
  cbv zeta. rewrite config_update_visibility.
  unfold frame_offset_angle in Hfront. rewrite Hfront.
  unfold frame_ready, frame_visible.
  destruct (fst (_is_full_body_visible s landmarks)); reflexivity.
Qed.

(** A side-view frame on which the trainer is not ready. *)
Lemma analyze_not_ready s landmarks fw fh t :
  (33 <= List.length landmarks)%nat ->
  Qltb (offset_thresh (config s)) (frame_offset_angle angle_between landmarks)
  = false ->
  frame_ready s landmarks = false ->
  analyze angle_between s landmarks fw fh t =
  (bookkeeping angle_between s landmarks t,
   {| r_current_state := current_state (bookkeeping angle_between s landmarks t);
      r_state_sequence :=
        state_sequence (bookkeeping angle_between s landmarks t);
      r_correct_count := correct_count (bookkeeping angle_between s landmarks t);
      r_incorrect_count :=
        incorrect_count (bookkeeping angle_between s landmarks t);
      r_knee_angle := frame_knee_angle angle_between landmarks;
      r_hip_vertical_angle := frame_hip_vertical angle_between landmarks;
      r_knee_vertical_angle := frame_knee_vertical angle_between landmarks;
      r_ankle_vertical_angle := frame_ankle_vertical angle_between landmarks;
      r_feedback_type := NONE;
      r_feedback_message := "Position full body in frame";
      r_is_severe_feedback := false;
      r_detected_side :=
        if frame_left angle_between landmarks then "left"%string
        else "right"%string;
      r_offset_angle := frame_offset_angle angle_between landmarks;
      r_is_frontal_view := false;
      r_is_full_body_visible := frame_visible s landmarks;
      r_is_ready := false;
      r_inactivity_seconds := frame_inactivity angle_between s landmarks t;
      r_debug_info := snd (_is_full_body_visible s landmarks) |}).
Proof.
  intros Hlen Hfront Hready. unfold analyze.
  rewrite (short_frame_false _ Hlen).
  cbv zeta. rewrite config_update_visibility.
  unfold frame_offset_angle in Hfront. rewrite Hfront.
  unfold frame_ready, frame_visible in Hready.
  rewrite config_update_visibility in Hready. rewrite Hready.
  unfold_frame. reflexivity.
Qed.

(** A side-view frame on which the trainer is ready.  The direction flag of
    the source compares the knee-vertical angle with [last_knee_vertical]
    after that attribute has been overwritten with the same angle. *)
Lemma analyze_ready s landmarks fw fh t :
  (33 <= List.length landmarks)%nat ->
  Qltb (offset_thresh (config s)) (frame_offset_angle angle_between landmarks)
  = false ->
  frame_ready s landmarks = true ->
  let st := after_transition angle_between s landmarks t in
  let fb :=
    _determine_feedback st (frame_hip_vertical angle_between landmarks)
      (frame_knee_vertical angle_between landmarks)
      (frame_ankle_vertical angle_between landmarks)
      (Qltb (frame_knee_vertical angle_between landmarks)
         (frame_knee_vertical angle_between landmarks)) in
  let s' := _record_feedback (fst (fst fb)) st in
  analyze angle_between s landmarks fw fh t =
  (s',
   {| r_current_state := current_state s';
      r_state_sequence := state_sequence s';
      r_correct_count := correct_count s';
      r_incorrect_count := incorrect_count s';
      r_knee_angle := frame_knee_angle angle_between landmarks;
      r_hip_vertical_angle := frame_hip_vertical angle_between landmarks;
      r_knee_vertical_angle := frame_knee_vertical angle_between landmarks;
      r_ankle_vertical_angle := frame_ankle_vertical angle_between landmarks;
      r_feedback_type := fst (fst fb);
      r_feedback_message := snd (fst fb);
      r_is_severe_feedback := snd fb;
      r_detected_side :=
        if frame_left angle_between landmarks then "left"%string
        else "right"%string;
      r_offset_angle := frame_offset_angle angle_between landmarks;
      r_is_frontal_view := false;
      r_is_full_body_visible := frame_visible s landmarks;
      r_is_ready := true;
      r_inactivity_seconds := frame_inactivity angle_between s landmarks t;
      r_debug_info := snd (_is_full_body_visible s landmarks) |}).
Proof.
  intros Hlen Hfront Hready. unfold analyze.
  rewrite (short_frame_false _ Hlen).
  cbv zeta. rewrite config_update_visibility.
  unfold frame_offset_angle in Hfront. rewrite Hfront.
  unfold frame_ready, frame_visible in Hready.
  rewrite config_update_visibility in Hready. rewrite Hready.
  unfold_frame. reflexivity.
Qed.

(** The two components of a ready frame's outcome; the direction flag is
    false whatever the angles. *)
Lemma analyze_ready_state s landmarks fw fh t :
  (33 <= List.length landmarks)%nat ->
  Qltb (offset_thresh (config s)) (frame_offset_angle angle_between landmarks)
  = false ->
  frame_ready s landmarks = true ->
  fst (analyze angle_between s landmarks fw fh t)
  = _record_feedback
      (fst (fst (_determine_feedback
                   (after_transition angle_between s landmarks t)
                   (frame_hip_vertical angle_between landmarks)
                   (frame_knee_vertical angle_between landmarks)
                   (frame_ankle_vertical angle_between landmarks) false)))
      (after_transition angle_between s landmarks t).
Proof.
  intros Hlen Hfront Hready.
  rewrite (analyze_ready _ _ fw fh t Hlen Hfront Hready).
  cbn [fst]. rewrite Qltb_irrefl. reflexivity.
Qed.

Lemma analyze_ready_feedback s landmarks fw fh t :
  (33 <= List.length landmarks)%nat ->
  Qltb (offset_thresh (config s)) (frame_offset_angle angle_between landmarks)
  = false ->
  frame_ready s landmarks = true ->
  (r_feedback_type (snd (analyze angle_between s landmarks fw fh t)),
   r_feedback_message (snd (analyze angle_between s landmarks fw fh t)),
   r_is_severe_feedback (snd (analyze angle_between s landmarks fw fh t)))
  = _determine_feedback (after_transition angle_between s landmarks t)
      (frame_hip_vertical angle_between landmarks)
      (frame_knee_vertical angle_between landmarks)
      (frame_ankle_vertical angle_between landmarks) false.
Proof.
  intros Hlen Hfront Hready.
  rewrite (analyze_ready _ _ fw fh t Hlen Hfront Hready).
  cbn [snd r_feedback_type r_feedback_message r_is_severe_feedback].
  rewrite Qltb_irrefl.
  destruct (_determine_feedback _ _ _ _ false) as [[ft msg] sev].
  reflexivity.
Qed.

Lemma analyze_ready_inactivity s landmarks fw fh t :
  (33 <= List.length landmarks)%nat ->
  Qltb (offset_thresh (config s)) (frame_offset_angle angle_between landmarks)
  = false ->
  frame_ready s landmarks = true ->
  r_inactivity_seconds (snd (analyze angle_between s landmarks fw fh t))
  = frame_inactivity angle_between s landmarks t.
Proof.
  intros Hlen Hfront Hready.
  rewrite (analyze_ready _ _ fw fh t Hlen Hfront Hready). reflexivity.
Qed.

(** ** What each block of [analyze] changes *)

(** Case analysis on the innermost test of the goal. *)
Ltac split_if :=
  match goal with
  | |- context [if ?c then _ else _] =>
      lazymatch c with
      | context [if _ then _ else _] => fail
      | _ => destruct c eqn:?
      end
  end.

Ltac fields :=
  cbn [mode config current_state prev_state state_sequence correct_count
       incorrect_count depth_angles min_knee_angle_this_rep feedback_history
       start_time last_active_time active_seconds full_body_visible_count
       is_ready last_knee_vertical
       set_current_state set_prev_state set_state_sequence set_correct_count
       set_incorrect_count set_depth_angles set_min_knee_angle_this_rep
       set_feedback_history set_last_active_time set_active_seconds
       set_full_body_visible_count set_is_ready set_last_knee_vertical] in *.

Ltac block_fields :=
  intros;
  unfold bookkeeping, frame_inactivity, before_inactivity, inactivity_reset,
    refresh_activity, track_min_knee_angle, update_visibility;
  cbv zeta;
  repeat (fields; split_if);
  fields; try reflexivity.

Lemma bookkeeping_config s landmarks t :
  config (bookkeeping angle_between s landmarks t) = config s.
Proof. block_fields. Qed.

Lemma bookkeeping_current_state s landmarks t :
  current_state (bookkeeping angle_between s landmarks t) = current_state s.
Proof. block_fields. Qed.

Lemma bookkeeping_prev_state s landmarks t :
  prev_state (bookkeeping angle_between s landmarks t) = prev_state s.
Proof. block_fields. Qed.

Lemma bookkeeping_feedback_history s landmarks t :
  feedback_history (bookkeeping angle_between s landmarks t)
  = feedback_history s.
Proof. block_fields. Qed.

Lemma bookkeeping_depth_angles s landmarks t :
  depth_angles (bookkeeping angle_between s landmarks t) = depth_angles s.
Proof. block_fields. Qed.

Lemma bookkeeping_last_knee_vertical s landmarks t :
  last_knee_vertical (bookkeeping angle_between s landmarks t)
  = frame_knee_vertical angle_between landmarks.
Proof. block_fields. Qed.

Lemma bookkeeping_visible_count s landmarks t :
  full_body_visible_count (bookkeeping angle_between s landmarks t)
  = full_body_visible_count (update_visibility (frame_visible s landmarks) s).
Proof. block_fields. Qed.

Lemma bookkeeping_is_ready s landmarks t :
  is_ready (bookkeeping angle_between s landmarks t)
  = is_ready (update_visibility (frame_visible s landmarks) s).
Proof. block_fields. Qed.

Lemma bookkeeping_min s landmarks t :
  min_knee_angle_this_rep (bookkeeping angle_between s landmarks t)
  = if Qltb (frame_knee_angle angle_between landmarks)
         (min_knee_angle_this_rep s)
    then frame_knee_angle angle_between landmarks
    else min_knee_angle_this_rep s.
Proof. block_fields. Qed.

Lemma before_inactivity_config s landmarks t :
  config (before_inactivity angle_between s landmarks t) = config s.
Proof. block_fields. Qed.

Lemma before_inactivity_last_active_time s landmarks t :
  last_active_time (before_inactivity angle_between s landmarks t)
  = if Qltb 3 (Qabs (frame_knee_vertical angle_between landmarks
                     - last_knee_vertical s))
    then t else last_active_time s.
Proof. block_fields. Qed.

Lemma bookkeeping_active_seconds s landmarks t :
  active_seconds (bookkeeping angle_between s landmarks t)
  = if Qltb 3 (Qabs (frame_knee_vertical angle_between landmarks
                     - last_knee_vertical s))
    then active_seconds s + (33 # 1000) else active_seconds s.
Proof. block_fields. Qed.

(** The inactivity reset, off and on. *)
Lemma inactivity_reset_off t inactivity s :
  Qltb (inactive_thresh (config s)) inactivity = false ->
  inactivity_reset t inactivity s = s.
Proof. intro H. unfold inactivity_reset. rewrite H. reflexivity. Qed.

Lemma inactivity_reset_on t inactivity s :
  Qltb (inactive_thresh (config s)) inactivity = true ->
  inactivity_reset t inactivity s
  = set_last_active_time t
      (set_state_sequence []
         (set_incorrect_count 0%Z (set_correct_count 0%Z s))).
Proof. intro H. unfold inactivity_reset. rewrite H. reflexivity. Qed.

Lemma before_inactivity_counts s landmarks t :
  correct_count (before_inactivity angle_between s landmarks t)
  = correct_count s
  /\ incorrect_count (before_inactivity angle_between s landmarks t)
     = incorrect_count s
  /\ state_sequence (before_inactivity angle_between s landmarks t)
     = state_sequence s.
Proof.
  unfold before_inactivity, refresh_activity, track_min_knee_angle,
    update_visibility.
  cbv zeta.
  destruct (frame_visible s landmarks); repeat split_if; auto.
Qed.

(** The inactivity reset, when it fires ... *)
Lemma bookkeeping_inactive s landmarks t :
  Qltb (inactive_thresh (config s))
    (frame_inactivity angle_between s landmarks t) = true ->
  correct_count (bookkeeping angle_between s landmarks t) = 0%Z
  /\ incorrect_count (bookkeeping angle_between s landmarks t) = 0%Z
  /\ state_sequence (bookkeeping angle_between s landmarks t) = []
  /\ last_active_time (bookkeeping angle_between s landmarks t) = t.
Proof.
  intro H. unfold bookkeeping. cbv zeta.
  rewrite inactivity_reset_on
    by (rewrite before_inactivity_config; exact H).
  generalize (before_inactivity angle_between s landmarks t). intro s0.
  auto.
Qed.

(** ... and when it does not. *)
Lemma bookkeeping_active s landmarks t :
  Qltb (inactive_thresh (config s))
    (frame_inactivity angle_between s landmarks t) = false ->
  correct_count (bookkeeping angle_between s landmarks t) = correct_count s
  /\ incorrect_count (bookkeeping angle_between s landmarks t)
     = incorrect_count s
  /\ state_sequence (bookkeeping angle_between s landmarks t)
     = state_sequence s
  /\ last_active_time (bookkeeping angle_between s landmarks t)
     = last_active_time (before_inactivity angle_between s landmarks t).
Proof.
  intro H.
  destruct (before_inactivity_counts s landmarks t) as (Hc & Hi & Hs).
  unfold bookkeeping. cbv zeta.
  rewrite inactivity_reset_off
    by (rewrite before_inactivity_config; exact H).
  rewrite <- Hc, <- Hi, <- Hs.
  generalize (before_inactivity angle_between s landmarks t). intro s0.
  auto.
Qed.

(** [_update_counters] *)

Ltac counters_fields :=
  intros; unfold _update_counters; cbv zeta;
  repeat (fields; split_if);
  fields; try reflexivity.

Lemma update_counters_config s : config (_update_counters s) = config s.
Proof. counters_fields. Qed.

Lemma update_counters_current_state s :
  current_state (_update_counters s) = current_state s.
Proof. counters_fields. Qed.

Lemma update_counters_prev_state s :
  prev_state (_update_counters s) = prev_state s.
Proof. counters_fields. Qed.

Lemma update_counters_feedback_history s :
  feedback_history (_update_counters s) = feedback_history s.
Proof. counters_fields. Qed.

Lemma update_counters_visible_count s :
  full_body_visible_count (_update_counters s) = full_body_visible_count s.
Proof. counters_fields. Qed.

Lemma update_counters_is_ready s :
  is_ready (_update_counters s) = is_ready s.
Proof. counters_fields. Qed.

Lemma update_counters_state_sequence s :
  state_sequence (_update_counters s) = [].
Proof. counters_fields. Qed.

Lemma update_counters_min s :
  min_knee_angle_this_rep (_update_counters s) = 180.
Proof. counters_fields. Qed.

Lemma has_s3_In seq : has_s3 seq = true <-> In S3_PASS seq.
Proof.
  unfold has_s3. rewrite existsb_exists. split.
  - intros [x [Hin Hx]]. destruct x; try discriminate. exact Hin.
  - intro Hin. exists S3_PASS. split; [exact Hin | reflexivity].
Qed.

(** A history of three or more entries that holds Depth: a correct rep; the
    sample is recorded when it is below 180. *)
Lemma update_counters_correct s :
  (3 <= List.length (state_sequence s))%nat ->
  In S3_PASS (state_sequence s) ->
  correct_count (_update_counters s) = (correct_count s + 1)%Z
  /\ incorrect_count (_update_counters s) = incorrect_count s
  /\ depth_angles (_update_counters s)
     = if Qltb (min_knee_angle_this_rep s) 180
       then depth_angles s ++ [min_knee_angle_this_rep s]
       else depth_angles s.
Proof.
  intros Hlen Hin. apply has_s3_In in Hin. apply Nat.leb_le in Hlen.
  unfold _update_counters. cbv zeta. rewrite Hlen, Hin. fields.
  destruct (Qltb (min_knee_angle_this_rep s) 180); fields; auto.
Qed.

(** A non-empty history without Depth: an incorrect rep, whatever its
    length. *)
Lemma update_counters_no_depth s :
  state_sequence s <> [] ->
  ~ In S3_PASS (state_sequence s) ->
  correct_count (_update_counters s) = correct_count s
  /\ incorrect_count (_update_counters s) = (incorrect_count s + 1)%Z
  /\ depth_angles (_update_counters s) = depth_angles s.
Proof.
  intros Hne Hno.
  assert (Hs3 : has_s3 (state_sequence s) = false).
  { destruct (has_s3 (state_sequence s)) eqn:E; [|reflexivity].
    apply has_s3_In in E. contradiction. }
  assert (Hpos : (0 <? List.length (state_sequence s))%nat = true).
  { apply Nat.ltb_lt. destruct (state_sequence s); [congruence | simpl; lia]. }
  unfold _update_counters. cbv zeta. rewrite Hs3, Hpos.
  destruct (3 <=? List.length (state_sequence s))%nat; fields; auto.
Qed.

(** A non-empty history shorter than three entries counts as an incorrect
    rep even when it holds Depth. *)
Lemma update_counters_short s :
  state_sequence s <> [] ->
  (List.length (state_sequence s) < 3)%nat ->
  correct_count (_update_counters s) = correct_count s
  /\ incorrect_count (_update_counters s) = (incorrect_count s + 1)%Z
  /\ depth_angles (_update_counters s) = depth_angles s.
Proof.
  intros Hne Hlt.
  assert (Hpos : (0 <? List.length (state_sequence s))%nat = true).
  { apply Nat.ltb_lt. destruct (state_sequence s); [congruence | simpl; lia]. }
  apply Nat.leb_gt in Hlt.
  unfold _update_counters. cbv zeta. rewrite Hlt, Hpos. fields. auto.
Qed.

(** An empty history: no rep is counted. *)
Lemma update_counters_empty s :
  state_sequence s = [] ->
  correct_count (_update_counters s) = correct_count s
  /\ incorrect_count (_update_counters s) = incorrect_count s
  /\ depth_angles (_update_counters s) = depth_angles s.
Proof.
  intro He. unfold _update_counters. cbv zeta. rewrite He. simpl. auto.
Qed.

Lemma determine_state_ext s1 s2 kv :
  config s1 = config s2 -> current_state s1 = current_state s2 ->
  _determine_state s1 kv = _determine_state s2 kv.
Proof. intros Hc Hs. unfold _determine_state. rewrite Hc, Hs. reflexivity. Qed.

(** [transition] *)

Lemma transition_same new_state s :
  new_state = current_state s -> transition new_state s = s.
Proof.
  intro H. unfold transition. rewrite H.
  destruct (current_state s); reflexivity.
Qed.

(** A change to Standing finalizes the rep. *)
Lemma transition_standing s :
  current_state s <> S1_NORMAL ->
  transition S1_NORMAL s
  = _update_counters
      (set_current_state S1_NORMAL (set_prev_state (current_state s) s)).
Proof.
  intro H. unfold transition.
  destruct (current_state s) eqn:E; [congruence | reflexivity | reflexivity].
Qed.

(** A change to Transition or Depth is appended to a history shorter than
    three. *)
Lemma transition_down new_state s :
  new_state <> S1_NORMAL -> new_state <> current_state s ->
  transition new_state s
  = let s1 := set_current_state new_state
                (set_prev_state (current_state s) s) in
    if (List.length (state_sequence s) <? 3)%nat
    then set_state_sequence (state_sequence s ++ [new_state]) s1
    else s1.
Proof.
  intros H1 H2. unfold transition.
  destruct (SquatState_eqb_spec new_state (current_state s)) as [E | _];
    [contradiction|].
  cbn [negb]. cbv zeta. fields.
  destruct new_state; [congruence | |];
    destruct (List.length (state_sequence s) <? 3)%nat; reflexivity.
Qed.

Lemma transition_current_state new_state s :
  current_state (transition new_state s) = new_state.
Proof.
  destruct (SquatState_eqb_spec new_state (current_state s)) as [E | N].
  - rewrite transition_same by exact E. congruence.
  - destruct new_state.
    + rewrite transition_standing by congruence.
      rewrite update_counters_current_state. reflexivity.
    + rewrite transition_down by congruence. cbv zeta.
      destruct (List.length (state_sequence s) <? 3)%nat; reflexivity.
    + rewrite transition_down by congruence. cbv zeta.
      destruct (List.length (state_sequence s) <? 3)%nat; reflexivity.
Qed.

Ltac transition_fields update_lemma :=
  intros new_state s;
  destruct (SquatState_eqb_spec new_state (current_state s)) as [E | N];
  [ rewrite transition_same by exact E; reflexivity
  | destruct new_state;
    [ rewrite transition_standing by congruence; rewrite update_lemma;
      reflexivity
    | rewrite transition_down by congruence; cbv zeta;
      destruct (List.length (state_sequence s) <? 3)%nat; reflexivity
    | rewrite transition_down by congruence; cbv zeta;
      destruct (List.length (state_sequence s) <? 3)%nat; reflexivity ] ].

Lemma transition_config :
  forall new_state s, config (transition new_state s) = config s.
Proof. transition_fields update_counters_config. Qed.

Lemma transition_feedback_history :
  forall new_state s,
    feedback_history (transition new_state s) = feedback_history s.
Proof. transition_fields update_counters_feedback_history. Qed.

Lemma transition_visible_count :
  forall new_state s,
    full_body_visible_count (transition new_state s)
    = full_body_visible_count s.
Proof. transition_fields update_counters_visible_count. Qed.

Lemma transition_is_ready :
  forall new_state s, is_ready (transition new_state s) = is_ready s.
Proof. transition_fields update_counters_is_ready. Qed.

(** [_record_feedback] touches the histogram only. *)
Lemma record_feedback_fields ft s :
  config (_record_feedback ft s) = config s
  /\ current_state (_record_feedback ft s) = current_state s
  /\ prev_state (_record_feedback ft s) = prev_state s
  /\ state_sequence (_record_feedback ft s) = state_sequence s
  /\ correct_count (_record_feedback ft s) = correct_count s
  /\ incorrect_count (_record_feedback ft s) = incorrect_count s
  /\ depth_angles (_record_feedback ft s) = depth_angles s
  /\ min_knee_angle_this_rep (_record_feedback ft s)
     = min_knee_angle_this_rep s
  /\ full_body_visible_count (_record_feedback ft s)
     = full_body_visible_count s
  /\ is_ready (_record_feedback ft s) = is_ready s.
Proof. destruct ft; repeat split; reflexivity. Qed.

(** The trainer that enters the state machine differs from the caller's in
    neither profile nor phase, so the classifier sees the caller's phase. *)
Lemma machine_input_config s landmarks t :
  config (machine_input angle_between s landmarks t) = config s.
Proof. unfold machine_input. fields. apply bookkeeping_config. Qed.

Lemma machine_input_current_state s landmarks t :
  current_state (machine_input angle_between s landmarks t) = current_state s.
Proof. unfold machine_input. fields. apply bookkeeping_current_state. Qed.

Lemma frame_new_state_eq s landmarks t :
  frame_new_state angle_between s landmarks t
  = _determine_state s (frame_knee_vertical angle_between landmarks).
Proof.
  unfold frame_new_state. apply determine_state_ext.
  - apply machine_input_config.
  - apply machine_input_current_state.
Qed.

Lemma after_transition_config s landmarks t :
  config (after_transition angle_between s landmarks t) = config s.
Proof.
  unfold after_transition. rewrite transition_config.
  apply machine_input_config.
Qed.

Lemma after_transition_current_state s landmarks t :
  current_state (after_transition angle_between s landmarks t)
  = _determine_state s (frame_knee_vertical angle_between landmarks).
Proof.
  unfold after_transition. rewrite transition_current_state.
  apply frame_new_state_eq.
Qed.

(** ** The classifier and the feedback policy *)

(** With the direction flag false the policy never answers "lower your
    hips". *)
Lemma determine_feedback_not_down s hv kv av :
  fst (fst (_determine_feedback s hv kv av false)) <> LOWER_HIPS.
Proof.
  unfold _determine_feedback.
  destruct (Qltb (knee_over_toes (config s)) av); [simpl; discriminate|].
  destruct (SquatState_eqb (current_state s) S3_PASS
            && Qltb (deep_squat (config s)) kv); [simpl; discriminate|].
  destruct (Qltb hv (hip_vertical_min (config s))); [simpl; discriminate|].
  destruct (Qltb (hip_vertical_max (config s)) hv); [simpl; discriminate|].
  simpl. destruct (current_state s); simpl; discriminate.
Qed.

(** With the direction flag true, rule 5 of the policy does fire. *)
Lemma determine_feedback_down s hv kv av :
  av <= knee_over_toes (config s) ->
  hip_vertical_min (config s) <= hv -> hv <= hip_vertical_max (config s) ->
  current_state s = S2_TRANSITION ->
  lower_hips_min (config s) <= kv -> kv <= lower_hips_max (config s) ->
  _determine_feedback s hv kv av true
  = (LOWER_HIPS, "Lower your hips more!"%string, false).
Proof.
  intros Hav Hlo Hhi Hst Hk1 Hk2. unfold _determine_feedback.
  apply Qltb_false in Hav, Hlo, Hhi. apply Qleb_true in Hk1, Hk2.
  rewrite Hav, Hlo, Hhi, Hst, Hk1, Hk2. reflexivity.
Qed.

(** In phase Transition, with the first four rules silent and the flag
    false, the policy is silent. *)
Lemma determine_feedback_transition_silent s hv kv av :
  av <= knee_over_toes (config s) ->
  hip_vertical_min (config s) <= hv -> hv <= hip_vertical_max (config s) ->
  current_state s = S2_TRANSITION ->
  _determine_feedback s hv kv av false = (NONE, ""%string, false).
Proof.
  intros Hav Hlo Hhi Hst. unfold _determine_feedback.
  apply Qltb_false in Hav, Hlo, Hhi.
  rewrite Hav, Hlo, Hhi, Hst. reflexivity.
Qed.

Lemma current_state_record_feedback ft s :
  current_state (_record_feedback ft s) = current_state s.
Proof. destruct ft; reflexivity. Qed.

Lemma config_record_feedback ft s :
  config (_record_feedback ft s) = config s.
Proof. destruct ft; reflexivity. Qed.

(** The three ways through [analyze] past the landmark count. *)
Lemma analyze_cases s landmarks :
  (33 <= List.length landmarks)%nat ->
  Qltb (offset_thresh (config s)) (frame_offset_angle angle_between landmarks)
  = true
  \/ (Qltb (offset_thresh (config s))
        (frame_offset_angle angle_between landmarks) = false
      /\ frame_ready s landmarks = false)
  \/ (Qltb (offset_thresh (config s))
        (frame_offset_angle angle_between landmarks) = false
      /\ frame_ready s landmarks = true).
Proof.
  intros _.
  destruct (Qltb (offset_thresh (config s))
              (frame_offset_angle angle_between landmarks));
    destruct (frame_ready s landmarks); auto.
Qed.

(** The feedback "lower your hips" is never returned, whatever the frame. *)
Lemma analyze_never_lower_hips s landmarks fw fh t :
  r_feedback_type (snd (analyze angle_between s landmarks fw fh t))
  <> LOWER_HIPS.
Proof.
  destruct (Nat.lt_ge_cases (List.length landmarks) 33) as [Hlt | Hge].
  - rewrite (analyze_short _ _ fw fh t Hlt). simpl. discriminate.
  - destruct (analyze_cases s landmarks Hge) as [Hf | [[Hf Hr] | [Hf Hr]]].
    + rewrite (analyze_frontal _ _ fw fh t Hge Hf). simpl. discriminate.
    + rewrite (analyze_not_ready _ _ fw fh t Hge Hf Hr). simpl. discriminate.
    + pose proof (analyze_ready_feedback _ _ fw fh t Hge Hf Hr) as Hfb.
      apply (f_equal (fun x => fst (fst x))) in Hfb. cbn [fst] in Hfb.
      rewrite Hfb. apply determine_feedback_not_down.
Qed.

(** C1.  The claim's situation: a ready side-view frame, the knee-over-toes
    rule silent, the hip-vertical angle within its band, the phase after
    classification Transition (so the deep-squat rule does not apply), the
    knee-vertical angle within the lower-hips band and strictly above the
    previous frame's.  The claim expects the "lower your hips" feedback; the
    code returns no feedback at all, because [analyze] stores the new
    knee-vertical angle in [last_knee_vertical] before it compares the two. *)
Theorem C1_lower_hips_not_given s landmarks fw fh t :
  (33 <= List.length landmarks)%nat ->
  frame_offset_angle angle_between landmarks <= offset_thresh (config s) ->
  frame_ready s landmarks = true ->
  frame_ankle_vertical angle_between landmarks <= knee_over_toes (config s) ->
  hip_vertical_min (config s) <= frame_hip_vertical angle_between landmarks ->
  frame_hip_vertical angle_between landmarks <= hip_vertical_max (config s) ->
  current_state (fst (analyze angle_between s landmarks fw fh t))
  = S2_TRANSITION ->
  lower_hips_min (config s) <= frame_knee_vertical angle_between landmarks ->
  frame_knee_vertical angle_between landmarks <= lower_hips_max (config s) ->
  last_knee_vertical s < frame_knee_vertical angle_between landmarks ->
  r_feedback_type (snd (analyze angle_between s landmarks fw fh t)) = NONE
  /\ r_feedback_message (snd (analyze angle_between s landmarks fw fh t))
     = ""%string
  /\ r_feedback_type (snd (analyze angle_between s landmarks fw fh t))
     <> LOWER_HIPS.
Proof.
  intros Hlen Hoff Hready Hav Hlo Hhi Hphase Hk1 Hk2 Hdown.
  apply Qltb_false in Hoff.
  rewrite (analyze_ready_state _ _ fw fh t Hlen Hoff Hready) in Hphase.
  rewrite current_state_record_feedback in Hphase.
  pose proof (analyze_ready_feedback _ _ fw fh t Hlen Hoff Hready) as Hfb.
  rewrite determine_feedback_transition_silent in Hfb;
    try rewrite after_transition_config; auto.
  injection Hfb as Hty Hmsg _.
  rewrite Hty, Hmsg. repeat split; discriminate.
Qed.

(** ** The visibility gate *)

Lemma fold_left_app_flat_map {A B} (f : A -> list B) (l : list A)
    (acc : list B) :
  fold_left (fun m k => m ++ f k) l acc = acc ++ flat_map f l.
Proof.
  revert acc. induction l as [|a l IH]; intro acc; simpl.
  - rewrite app_nil_r. reflexivity.
  - rewrite IH. rewrite <- app_assoc. reflexivity.
Qed.

Lemma missing_keys_flat_map cfg landmarks :
  missing_keys cfg landmarks
  = flat_map (check_key (boundary_margin cfg) (visibility_thresh cfg) landmarks)
      key_indices.
Proof. unfold missing_keys. rewrite fold_left_app_flat_map. reflexivity. Qed.

Lemma fails_gate_check_key cfg landmarks idx name lm :
  nth_error landmarks idx = Some lm -> fails_gate cfg lm ->
  check_key (boundary_margin cfg) (visibility_thresh cfg) landmarks (idx, name)
  <> [].
Proof.
  intros Hnth Hfail. unfold check_key. rewrite Hnth.
  destruct (off_edge (boundary_margin cfg) lm) eqn:Hedge; [discriminate|].
  destruct (low_visibility (visibility_thresh cfg) lm) eqn:Hvis;
    [discriminate|].
  exfalso. unfold off_edge in Hedge. cbv zeta in Hedge.
  repeat (apply orb_false_iff in Hedge; destruct Hedge as [Hedge ?]).
  unfold low_visibility in Hvis.
  unfold fails_gate in Hfail.
  repeat match goal with
         | H : Qltb _ _ = false |- _ => apply Qltb_false in H
         end.
  destruct Hfail as [H' | [H' | [H' | [H' | H']]]];
    eapply Qlt_not_le; eauto.
Qed.

(** One failing key landmark makes the frame not visible. *)
Lemma fails_gate_not_visible s landmarks idx name lm :
  In (idx, name) key_indices ->
  nth_error landmarks idx = Some lm -> fails_gate (config s) lm ->
  frame_visible s landmarks = false.
Proof.
  intros Hin Hnth Hfail.
  unfold frame_visible, _is_full_body_visible. cbv zeta.
  destruct (missing_keys (config s) landmarks) eqn:E; [|reflexivity].
  exfalso. rewrite missing_keys_flat_map in E.
  apply (fails_gate_check_key (config s) landmarks idx name lm Hnth Hfail).
  destruct (check_key (boundary_margin (config s))
              (visibility_thresh (config s)) landmarks (idx, name)) eqn:Ek;
    [reflexivity|].
  assert (Hin' : In s0 (flat_map
                         (check_key (boundary_margin (config s))
                            (visibility_thresh (config s)) landmarks)
                         key_indices)).
  { apply in_flat_map. exists (idx, name). split; [exact Hin|].
    rewrite Ek. left. reflexivity. }
  rewrite E in Hin'. destruct Hin'.
Qed.

(** C9.  On a frame (33 landmarks, as the data model has it, or more) in
    which one of the nine key landmarks lies outside [margin, 1 - margin] on
    an axis or has visibility below the threshold, [analyze] reports
    [is_full_body_visible = false], sets the consecutive-visible counter to 0
    and leaves readiness false, in the trainer and in the result.  The
    profile asks for at least one visible frame, as both built-in profiles
    do. *)
Theorem C9_visibility_failure s landmarks fw fh t idx name lm :
  (33 <= List.length landmarks)%nat ->
  (0 < frames_required (config s))%Z ->
  In (idx, name) key_indices ->
  nth_error landmarks idx = Some lm ->
  fails_gate (config s) lm ->
  r_is_full_body_visible (snd (analyze angle_between s landmarks fw fh t))
  = false
  /\ full_body_visible_count (fst (analyze angle_between s landmarks fw fh t))
     = 0%Z
  /\ is_ready (fst (analyze angle_between s landmarks fw fh t)) = false
  /\ r_is_ready (snd (analyze angle_between s landmarks fw fh t)) = false.
Proof.
  intros Hlen Hreq Hin Hnth Hfail.
  pose proof (fails_gate_not_visible s landmarks idx name lm Hin Hnth Hfail)
    as Hvis.
  assert (Hready : frame_ready s landmarks = false).
  { unfold frame_ready. rewrite Hvis. cbv zeta. unfold update_visibility.
    fields. apply Z.leb_gt. exact Hreq. }
  destruct (analyze_cases s landmarks Hlen) as [Hf | [[Hf Hr] | [Hf Hr]]].
  - rewrite (analyze_frontal _ _ fw fh t Hlen Hf).
    cbn [fst snd r_is_full_body_visible r_is_ready].
    rewrite Hvis, Hready. unfold update_visibility. fields. auto.
  - rewrite (analyze_not_ready _ _ fw fh t Hlen Hf Hr).
    cbn [fst snd r_is_full_body_visible r_is_ready].
    rewrite bookkeeping_visible_count, bookkeeping_is_ready, Hvis.
    unfold update_visibility. fields. auto.
  - congruence.
Qed.

(** The two built-in profiles ask for three visible frames. *)
Lemma frames_required_builtin m : (0 < frames_required (config_for m))%Z.
Proof. destruct m; reflexivity. Qed.

(** ** The frontal-view gate *)

(** C8.  On a frame of 33 landmarks (or more, which the code analyses alike)
    whose offset angle exceeds the profile's threshold, [analyze] returns the
    frontal-view warning; the rep counters, the phase, the phase history, the
    per-rep minimum and the feedback histogram are as before.  The new trainer is the old one after the
    visibility gate alone, so neither the classifier nor the feedback policy
    has run, and no knee angle enters the trainer or the result. *)
Theorem C8_frontal_view s landmarks fw fh t :
  (33 <= List.length landmarks)%nat ->
  offset_thresh (config s) < frame_offset_angle angle_between landmarks ->
  let s' := fst (analyze angle_between s landmarks fw fh t) in
  let r := snd (analyze angle_between s landmarks fw fh t) in
  r_feedback_type r = FRONTAL_WARNING
  /\ r_is_frontal_view r = true
  /\ correct_count s' = correct_count s
  /\ incorrect_count s' = incorrect_count s
  /\ current_state s' = current_state s
  /\ prev_state s' = prev_state s
  /\ state_sequence s' = state_sequence s
  /\ min_knee_angle_this_rep s' = min_knee_angle_this_rep s
  /\ feedback_history s' = feedback_history s
  /\ last_knee_vertical s' = last_knee_vertical s
  /\ s' = update_visibility (frame_visible s landmarks) s
  /\ r_current_state r = current_state s
  /\ r_correct_count r = correct_count s
  /\ r_incorrect_count r = incorrect_count s
  /\ r_knee_angle r = 180
  /\ r_knee_vertical_angle r = 0.
Proof.
  intros Hlen Hoff. apply Qltb_true in Hoff.
  cbv zeta. rewrite (analyze_frontal _ _ fw fh t Hlen Hoff).
  cbn [fst snd r_feedback_type r_is_frontal_view r_current_state
       r_correct_count r_incorrect_count r_knee_angle r_knee_vertical_angle].
  unfold update_visibility.
  destruct (frame_visible s landmarks); fields; repeat split; reflexivity.
Qed.

(** ** Incomplete pose data *)

(** Landmarks past index 32 are never read. *)
Lemma get_pt_firstn landmarks idx :
  (idx < 33)%nat -> get_pt (firstn 33 landmarks) idx = get_pt landmarks idx.
Proof.
  intro H. unfold get_pt, get_landmark_coords.
  rewrite nth_error_firstn.
  apply Nat.ltb_lt in H. rewrite H. reflexivity.
Qed.

Lemma missing_keys_firstn cfg landmarks :
  missing_keys cfg (firstn 33 landmarks) = missing_keys cfg landmarks.
Proof.
  unfold missing_keys, key_indices. cbn [fold_left]. unfold check_key.
  rewrite !nth_error_firstn. reflexivity.
Qed.

Lemma is_full_body_visible_firstn s landmarks :
  _is_full_body_visible s (firstn 33 landmarks)
  = _is_full_body_visible s landmarks.
Proof.
  unfold _is_full_body_visible. rewrite missing_keys_firstn. reflexivity.
Qed.

Lemma analyze_firstn s landmarks fw fh t :
  (33 <= List.length landmarks)%nat ->
  analyze angle_between s landmarks fw fh t
  = analyze angle_between s (firstn 33 landmarks) fw fh t.
Proof.
  intro Hlen. unfold analyze.
  assert (Hlen' : (33 <= List.length (firstn 33 landmarks))%nat)
    by (rewrite length_firstn; lia).
  rewrite (short_frame_false _ Hlen), (short_frame_false _ Hlen').
  rewrite is_full_body_visible_firstn.
  unfold LandmarkIndex.NOSE, LandmarkIndex.LEFT_SHOULDER,
    LandmarkIndex.RIGHT_SHOULDER, LandmarkIndex.LEFT_HIP,
    LandmarkIndex.RIGHT_HIP, LandmarkIndex.LEFT_KNEE,
    LandmarkIndex.RIGHT_KNEE, LandmarkIndex.LEFT_ANKLE,
    LandmarkIndex.RIGHT_ANKLE.
  rewrite !get_pt_firstn by lia.
  reflexivity.
Qed.

(** C3, as amended.  With fewer than 33 landmarks [analyze] returns the
    diagnostic result and the trainer it was given.  With 33 landmarks or
    more the frame is analysed, reading the first 33 only. *)
Theorem C3_incomplete_pose s landmarks fw fh t :
  ((List.length landmarks < 33)%nat ->
   analyze angle_between s landmarks fw fh t = (s, incomplete_result))
  /\ ((33 <= List.length landmarks)%nat ->
      analyze angle_between s landmarks fw fh t
      = analyze angle_between s (firstn 33 landmarks) fw fh t).
Proof.
  split.
  - intro H. rewrite (analyze_short _ _ fw fh t H). reflexivity.
  - apply analyze_firstn.
Qed.

(** ** The classifier *)

(** C7.  For a profile whose bands lie in order: Standing at or below
    [s1Max], Transition within [s2Min, s2Max], Depth within [s3Min, s3Max]
    and above [s3Max], and the current phase in the two gaps. *)
Theorem C7_determine_state s kv :
  bands_ordered (config s) ->
  (kv <= state_s1_max (config s) -> _determine_state s kv = S1_NORMAL)
  /\ (state_s2_min (config s) <= kv -> kv <= state_s2_max (config s) ->
      _determine_state s kv = S2_TRANSITION)
  /\ (state_s3_min (config s) <= kv -> kv <= state_s3_max (config s) ->
      _determine_state s kv = S3_PASS)
  /\ (state_s3_max (config s) < kv -> _determine_state s kv = S3_PASS)
  /\ (state_s1_max (config s) < kv -> kv < state_s2_min (config s) ->
      _determine_state s kv = current_state s)
  /\ (state_s2_max (config s) < kv -> kv < state_s3_min (config s) ->
      _determine_state s kv = current_state s).
Proof.
  intros (H12 & H22 & H23 & H33). unfold _determine_state. cbv zeta.
  repeat split; intros.
  - rewrite (proj2 (Qleb_true _ _)) by assumption. reflexivity.
  - rewrite (proj2 (Qleb_false kv _)) by (eapply Qlt_le_trans; eauto).
    rewrite !(proj2 (Qleb_true _ _)) by assumption. reflexivity.
  - assert (Hgt : state_s2_max (config s) < kv)
      by (eapply Qlt_le_trans; eauto).
    rewrite (proj2 (Qleb_false kv (state_s1_max (config s)))).
    2:{ eapply Qlt_trans; [|exact Hgt].
        eapply Qlt_le_trans; eauto. }
    rewrite (proj2 (Qleb_false kv (state_s2_max (config s)))) by exact Hgt.
    rewrite andb_false_r.
    rewrite !(proj2 (Qleb_true _ _)) by assumption. reflexivity.
  - assert (Hgt3 : state_s3_min (config s) < kv)
      by (eapply Qle_lt_trans; eauto).
    assert (Hgt : state_s2_max (config s) < kv)
      by (eapply Qlt_trans; eauto).
    rewrite (proj2 (Qleb_false kv (state_s1_max (config s)))).
    2:{ eapply Qlt_trans; [|exact Hgt].
        eapply Qlt_le_trans; eauto. }
    rewrite (proj2 (Qleb_false kv (state_s2_max (config s)))) by exact Hgt.
    rewrite andb_false_r.
    rewrite (proj2 (Qleb_false kv (state_s3_max (config s)))) by assumption.
    rewrite andb_false_r.
    rewrite (proj2 (Qltb_true _ _)) by assumption. reflexivity.
  - rewrite (proj2 (Qleb_false kv (state_s1_max (config s)))) by assumption.
    rewrite (proj2 (Qleb_false (state_s2_min (config s)) kv)) by assumption.
    cbn [andb].
    assert (Hlt3 : kv < state_s3_min (config s)).
    { eapply Qlt_trans; [eassumption|]. eapply Qle_lt_trans; eauto. }
    rewrite (proj2 (Qleb_false (state_s3_min (config s)) kv)) by exact Hlt3.
    cbn [andb].
    rewrite (proj2 (Qltb_false _ _)); [reflexivity|].
    apply Qlt_le_weak. eapply Qlt_le_trans; eauto.
  - assert (Hgt1 : state_s1_max (config s) < kv).
    { eapply Qlt_trans; [|eassumption]. eapply Qlt_le_trans; eauto. }
    rewrite (proj2 (Qleb_false kv (state_s1_max (config s)))) by exact Hgt1.
    rewrite (proj2 (Qleb_false kv (state_s2_max (config s)))) by assumption.
    rewrite andb_false_r.
    rewrite (proj2 (Qleb_false (state_s3_min (config s)) kv)) by assumption.
    cbn [andb].
    rewrite (proj2 (Qltb_false _ _)); [reflexivity|].
    apply Qlt_le_weak. eapply Qlt_le_trans; eauto.
Qed.

Lemma bands_ordered_builtin m : bands_ordered (config_for m).
Proof. destruct m; unfold bands_ordered; simpl; repeat split; q_concrete. Qed.

(** ** Frames on which the trainer is not ready *)

(** C10.  On a side-view frame of 33 landmarks on which the trainer is not
    ready ([result.is_ready] is false, the test that gates the state
    machine), [analyze] still takes the running minimum of the knee joint angle
    and still does the inactivity bookkeeping: it stores the knee-vertical
    angle, accrues active time on movement, and on a timeout zeroes both rep
    counters and empties the phase history.  What is suppressed is the
    classifier and the feedback policy: phase and histogram stay, the
    feedback is the neutral "position" message. *)
Theorem C10_not_ready_bookkeeping s landmarks fw fh t :
  (33 <= List.length landmarks)%nat ->
  frame_offset_angle angle_between landmarks <= offset_thresh (config s) ->
  frame_ready s landmarks = false ->
  let s' := fst (analyze angle_between s landmarks fw fh t) in
  let r := snd (analyze angle_between s landmarks fw fh t) in
  let moved :=
    Qltb 3 (Qabs (frame_knee_vertical angle_between landmarks
                  - last_knee_vertical s)) in
  min_knee_angle_this_rep s'
  = (if Qltb (frame_knee_angle angle_between landmarks)
          (min_knee_angle_this_rep s)
     then frame_knee_angle angle_between landmarks
     else min_knee_angle_this_rep s)
  /\ last_knee_vertical s' = frame_knee_vertical angle_between landmarks
  /\ active_seconds s'
     = (if moved then active_seconds s + (33 # 1000) else active_seconds s)
  /\ r_inactivity_seconds r
     = t - (if moved then t else last_active_time s)
  /\ (inactive_thresh (config s) < r_inactivity_seconds r ->
      correct_count s' = 0%Z /\ incorrect_count s' = 0%Z
      /\ state_sequence s' = [] /\ last_active_time s' = t)
  /\ (r_inactivity_seconds r <= inactive_thresh (config s) ->
      correct_count s' = correct_count s
      /\ incorrect_count s' = incorrect_count s
      /\ state_sequence s' = state_sequence s
      /\ last_active_time s' = (if moved then t else last_active_time s))
  /\ current_state s' = current_state s
  /\ prev_state s' = prev_state s
  /\ feedback_history s' = feedback_history s
  /\ depth_angles s' = depth_angles s
  /\ r_is_ready r = false
  /\ r_feedback_type r = NONE
  /\ r_feedback_message r = "Position full body in frame"%string.
Proof.
  intros Hlen Hoff Hready. apply Qltb_false in Hoff.
  cbv zeta. rewrite (analyze_not_ready _ _ fw fh t Hlen Hoff Hready).
  cbn [fst snd r_inactivity_seconds r_feedback_type r_feedback_message
       r_is_ready].
  rewrite bookkeeping_min, bookkeeping_last_knee_vertical,
    bookkeeping_active_seconds, bookkeeping_current_state,
    bookkeeping_prev_state, bookkeeping_feedback_history,
    bookkeeping_depth_angles.
  assert (Hin : frame_inactivity angle_between s landmarks t
                = t - (if Qltb 3
                            (Qabs (frame_knee_vertical angle_between landmarks
                                   - last_knee_vertical s))
                       then t else last_active_time s)).
  { unfold frame_inactivity.
    rewrite before_inactivity_last_active_time. reflexivity. }
  repeat split; try reflexivity; try exact Hin.
  - apply (bookkeeping_inactive s landmarks t). apply Qltb_true. assumption.
  - apply (bookkeeping_inactive s landmarks t). apply Qltb_true. assumption.
  - apply (bookkeeping_inactive s landmarks t). apply Qltb_true. assumption.
  - apply (bookkeeping_inactive s landmarks t). apply Qltb_true. assumption.
  - apply (bookkeeping_active s landmarks t). apply Qltb_false. assumption.
  - apply (bookkeeping_active s landmarks t). apply Qltb_false. assumption.
  - apply (bookkeeping_active s landmarks t). apply Qltb_false. assumption.
  - rewrite <- before_inactivity_last_active_time.
    apply (bookkeeping_active s landmarks t). apply Qltb_false. assumption.
Qed.

(** ** The inactivity timeout *)

(** A change of phase out of an empty history counts nothing and leaves at
    most the new phase in the history. *)
Lemma transition_from_empty new_state s :
  state_sequence s = [] -> new_state <> current_state s ->
  correct_count (transition new_state s) = correct_count s
  /\ incorrect_count (transition new_state s) = incorrect_count s
  /\ state_sequence (transition new_state s)
     = match new_state with
       | S1_NORMAL => []
       | _ => [new_state]
       end.
Proof.
  intros He Hne. destruct new_state.
  - rewrite transition_standing by congruence.
    rewrite update_counters_state_sequence.
    destruct (update_counters_empty
                (set_current_state S1_NORMAL
                   (set_prev_state (current_state s) s)) He) as (Hc & Hi & _).
    rewrite Hc, Hi. fields. auto.
  - rewrite transition_down by congruence. cbv zeta. rewrite He.
    cbn [List.length Nat.ltb Nat.leb app]. fields. auto.
  - rewrite transition_down by congruence. cbv zeta. rewrite He.
    cbn [List.length Nat.ltb Nat.leb app]. fields. auto.
Qed.

(** C4, as amended.  On a side-view frame of 33 landmarks whose inactivity
    (the elapsed time [analyze] computes, after the movement test may have
    refreshed the last-active time) exceeds the profile's timeout, both rep
    counters are 0 after the call.  If the trainer is not ready on the frame,
    or the frame classifies to the current phase, the phase history is empty
    and the phase unchanged.  On a ready frame that classifies to another
    phase the state machine still runs after the reset: the phase becomes the
    new one, and the history holds just that phase (nothing for Standing). *)
Theorem C4_inactivity_reset s landmarks fw fh t :
  (33 <= List.length landmarks)%nat ->
  frame_offset_angle angle_between landmarks <= offset_thresh (config s) ->
  inactive_thresh (config s) < frame_inactivity angle_between s landmarks t ->
  let s' := fst (analyze angle_between s landmarks fw fh t) in
  let r := snd (analyze angle_between s landmarks fw fh t) in
  let new_state :=
    _determine_state s (frame_knee_vertical angle_between landmarks) in
  r_inactivity_seconds r = frame_inactivity angle_between s landmarks t
  /\ correct_count s' = 0%Z
  /\ incorrect_count s' = 0%Z
  /\ (frame_ready s landmarks = false \/ new_state = current_state s ->
      state_sequence s' = [] /\ current_state s' = current_state s)
  /\ (frame_ready s landmarks = true -> new_state <> current_state s ->
      current_state s' = new_state
      /\ state_sequence s'
         = match new_state with
           | S1_NORMAL => []
           | _ => [new_state]
           end).
Proof.
  intros Hlen Hoff Hin. apply Qltb_false in Hoff. apply Qltb_true in Hin.
  destruct (bookkeeping_inactive s landmarks t Hin) as (Hc & Hi & Hs & _).
  cbv zeta. destruct (frame_ready s landmarks) eqn:Hready.
  - rewrite (analyze_ready_state _ _ fw fh t Hlen Hoff Hready).
    rewrite (analyze_ready_inactivity _ _ fw fh t Hlen Hoff Hready).
    match goal with
    | |- context [_record_feedback ?ft ?st] =>
        destruct (record_feedback_fields ft st)
          as (_ & Rcur & _ & Rseq & Rc & Ri & _)
    end.
    rewrite Rcur, Rseq, Rc, Ri.
    rewrite after_transition_current_state.
    unfold after_transition. rewrite frame_new_state_eq.
    destruct (SquatState_eqb_spec
                (_determine_state s
                   (frame_knee_vertical angle_between landmarks))
                (current_state s)) as [E | N].
    + rewrite transition_same
        by (rewrite machine_input_current_state; exact E).
      unfold machine_input. fields. rewrite Hc, Hi, Hs.
      split; [|split; [|split; [|split]]]; auto.
      intros; congruence.
    + destruct (transition_from_empty
                  (_determine_state s
                     (frame_knee_vertical angle_between landmarks))
                  (machine_input angle_between s landmarks t))
        as (Tc & Ti & Ts).
      * unfold machine_input. fields. exact Hs.
      * rewrite machine_input_current_state. exact N.
      * rewrite Tc, Ti, Ts. unfold machine_input. fields.
        rewrite Hc, Hi.
        split; [|split; [|split; [|split]]]; auto.
        intros [? | ?]; congruence.
  - rewrite (analyze_not_ready _ _ fw fh t Hlen Hoff Hready).
    cbn [fst snd r_inactivity_seconds].
    rewrite Hc, Hi, Hs, bookkeeping_current_state.
    split; [|split; [|split; [|split]]]; auto.
    intros; congruence.
Qed.

(** ** The per-rep minimum *)

Lemma transition_min new_state s :
  min_knee_angle_this_rep (transition new_state s)
  = match new_state with
    | S1_NORMAL =>
        if SquatState_eqb S1_NORMAL (current_state s)
        then min_knee_angle_this_rep s else 180
    | _ => min_knee_angle_this_rep s
    end.
Proof.
  destruct (SquatState_eqb_spec new_state (current_state s)) as [E | N].
  - rewrite transition_same by exact E. rewrite <- E.
    destruct new_state; reflexivity.
  - destruct new_state.
    + rewrite transition_standing by congruence.
      rewrite update_counters_min.
      destruct (SquatState_eqb_spec S1_NORMAL (current_state s));
        [contradiction | reflexivity].
    + rewrite transition_down by congruence. cbv zeta.
      destruct (List.length (state_sequence s) <? 3)%nat; reflexivity.
    + rewrite transition_down by congruence. cbv zeta.
      destruct (List.length (state_sequence s) <? 3)%nat; reflexivity.
Qed.

(** C6, as amended.  On every side-view frame of 33 landmarks the per-rep
    minimum becomes the running minimum with the frame's knee joint angle,
    unless the frame finalizes a rep (the trainer is ready and the phase
    changes to Standing): then it is 180 and the phase history is empty.  So
    the minimum is reset only together with a clearing of the history; the
    clearing done by the inactivity timeout is not among these resets. *)
Theorem C6_per_rep_minimum s landmarks fw fh t :
  (33 <= List.length landmarks)%nat ->
  frame_offset_angle angle_between landmarks <= offset_thresh (config s) ->
  let s' := fst (analyze angle_between s landmarks fw fh t) in
  let running :=
    if Qltb (frame_knee_angle angle_between landmarks)
         (min_knee_angle_this_rep s)
    then frame_knee_angle angle_between landmarks
    else min_knee_angle_this_rep s in
  let finalized :=
    frame_ready s landmarks = true /\ current_state s <> S1_NORMAL
    /\ current_state s' = S1_NORMAL in
  (finalized -> min_knee_angle_this_rep s' = 180 /\ state_sequence s' = [])
  /\ (~ finalized -> min_knee_angle_this_rep s' = running).
Proof.
  intros Hlen Hoff. apply Qltb_false in Hoff. cbv zeta.
  destruct (frame_ready s landmarks) eqn:Hready.
  - rewrite (analyze_ready_state _ _ fw fh t Hlen Hoff Hready).
    match goal with
    | |- context [_record_feedback ?ft ?st] =>
        destruct (record_feedback_fields ft st)
          as (_ & Rcur & _ & Rseq & _ & _ & _ & Rmin & _)
    end.
    rewrite Rcur, Rseq, Rmin.
    rewrite after_transition_current_state.
    unfold after_transition. rewrite frame_new_state_eq.
    rewrite transition_min. rewrite machine_input_current_state.
    assert (Hmi : min_knee_angle_this_rep
                    (machine_input angle_between s landmarks t)
                  = if Qltb (frame_knee_angle angle_between landmarks)
                         (min_knee_angle_this_rep s)
                    then frame_knee_angle angle_between landmarks
                    else min_knee_angle_this_rep s).
    { unfold machine_input. fields. apply bookkeeping_min. }
    rewrite Hmi. split.
    + intros (_ & Hne & Hnew). rewrite Hnew.
      destruct (SquatState_eqb_spec S1_NORMAL (current_state s));
        [congruence|].
      split; [reflexivity|].
      rewrite transition_standing
        by (rewrite machine_input_current_state; exact Hne).
      apply update_counters_state_sequence.
    + intro Hnot.
      destruct (_determine_state s
                  (frame_knee_vertical angle_between landmarks)) eqn:Enew;
        try reflexivity.
      destruct (SquatState_eqb_spec S1_NORMAL (current_state s)) as [E | N];
        [reflexivity|].
      exfalso. apply Hnot. repeat split; congruence.
  - rewrite (analyze_not_ready _ _ fw fh t Hlen Hoff Hready). cbn [fst].
    rewrite bookkeeping_min. split.
    + intros (Habs & _). discriminate.
    + intros _. reflexivity.
Qed.

(** ** Rep finalization *)

(** On a ready frame whose phase changes to Standing, the trainer returned
    is [_update_counters] applied to the trainer that entered the state
    machine (with the phase already switched), up to the histogram. *)
Lemma analyze_finalizes s landmarks fw fh t :
  (33 <= List.length landmarks)%nat ->
  frame_offset_angle angle_between landmarks <= offset_thresh (config s) ->
  frame_ready s landmarks = true ->
  current_state s <> S1_NORMAL ->
  current_state (fst (analyze angle_between s landmarks fw fh t)) = S1_NORMAL ->
  exists ft,
    fst (analyze angle_between s landmarks fw fh t)
    = _record_feedback ft
        (_update_counters
           (set_current_state S1_NORMAL
              (set_prev_state (current_state s)
                 (machine_input angle_between s landmarks t)))).
Proof.
  intros Hlen Hoff Hready Hne Hnew. apply Qltb_false in Hoff.
  rewrite (analyze_ready_state _ _ fw fh t Hlen Hoff Hready) in Hnew |- *.
  rewrite current_state_record_feedback in Hnew.
  rewrite after_transition_current_state in Hnew.
  eexists. f_equal.
  unfold after_transition. rewrite frame_new_state_eq, Hnew.
  rewrite transition_standing
    by (rewrite machine_input_current_state; exact Hne).
  rewrite machine_input_current_state. reflexivity.
Qed.

(** C2, as amended.  Let a ready side-view frame change the phase to
    Standing, and let [sb] be the trainer as it enters the state machine on
    that frame (the caller's trainer after the frame's bookkeeping, so with
    history and counters already reset if the inactivity timeout fired on this
    very frame).  A history of at least three entries holding Depth: the
    correct counter grows by exactly 1, and the per-rep minimum is appended to
    the depth angles when it is below 180 (a minimum of 180 is not recorded).
    A non-empty history without Depth, of any length: the incorrect counter
    grows by exactly 1.  An empty history: neither counter changes.  In every
    case the history is empty and the minimum 180 afterwards. *)
Theorem C2_rep_finalization s landmarks fw fh t :
  (33 <= List.length landmarks)%nat ->
  frame_offset_angle angle_between landmarks <= offset_thresh (config s) ->
  frame_ready s landmarks = true ->
  current_state s <> S1_NORMAL ->
  current_state (fst (analyze angle_between s landmarks fw fh t)) = S1_NORMAL ->
  let s' := fst (analyze angle_between s landmarks fw fh t) in
  let sb := bookkeeping angle_between s landmarks t in
  let m := min_knee_angle_this_rep sb in
  m = (if Qltb (frame_knee_angle angle_between landmarks)
            (min_knee_angle_this_rep s)
       then frame_knee_angle angle_between landmarks
       else min_knee_angle_this_rep s)
  /\ ((3 <= List.length (state_sequence sb))%nat ->
      In S3_PASS (state_sequence sb) ->
      correct_count s' = (correct_count sb + 1)%Z
      /\ incorrect_count s' = incorrect_count sb
      /\ depth_angles s'
         = if Qltb m 180 then depth_angles s ++ [m] else depth_angles s)
  /\ (state_sequence sb <> [] -> ~ In S3_PASS (state_sequence sb) ->
      correct_count s' = correct_count sb
      /\ incorrect_count s' = (incorrect_count sb + 1)%Z
      /\ depth_angles s' = depth_angles s)
  /\ (state_sequence sb = [] ->
      correct_count s' = correct_count sb
      /\ incorrect_count s' = incorrect_count sb
      /\ depth_angles s' = depth_angles s)
  /\ state_sequence s' = []
  /\ min_knee_angle_this_rep s' = 180.
Proof.
  intros Hlen Hoff Hready Hne Hnew. cbv zeta.
  destruct (analyze_finalizes s landmarks fw fh t Hlen Hoff Hready Hne Hnew)
    as [ft Heq].
  rewrite Heq. clear Heq Hnew.
  unfold machine_input.
  rewrite <- (bookkeeping_depth_angles s landmarks t).
  split; [apply bookkeeping_min|].
  generalize (bookkeeping angle_between s landmarks t). intro sb.
  generalize (current_state s). intro cur.
  match goal with
  | |- context [_record_feedback ft ?st] =>
      destruct (record_feedback_fields ft st)
        as (_ & _ & _ & Rseq & Rc & Ri & Rd & Rmin & _)
  end.
  rewrite Rseq, Rc, Ri, Rd, Rmin.
  rewrite update_counters_state_sequence, update_counters_min.
  split; [|split; [|split; [|split]]]; try reflexivity.
  - intros H3 Hin.
    exact (update_counters_correct
             (set_current_state S1_NORMAL
                (set_prev_state cur (set_is_ready true sb))) H3 Hin).
  - intros Hnonempty Hno.
    exact (update_counters_no_depth
             (set_current_state S1_NORMAL
                (set_prev_state cur (set_is_ready true sb))) Hnonempty Hno).
  - intros Hempty.
    exact (update_counters_empty
             (set_current_state S1_NORMAL
                (set_prev_state cur (set_is_ready true sb))) Hempty).
Qed.

(** ** The summary *)

(** C5, as amended.  With both rep counters 0 the summary has no reps,
    accuracy 0, form score 0 and the label "Needs Work"; the average and the
    best depth angle are 180 when no depth angle is recorded. *)
Theorem C5_summary_zero_reps s now :
  correct_count s = 0%Z -> incorrect_count s = 0%Z ->
  let summary := get_summary np_std s now in
  total_reps summary = 0%Z
  /\ accuracy_percentage summary = 0
  /\ form_score summary = 0
  /\ form_label summary = "Needs Work"%string
  /\ (depth_angles s = [] ->
      average_depth_angle summary = 180 /\ best_depth_angle summary = 180).
Proof.
  intros Hc Hi. unfold get_summary, _calculate_form_score. cbv zeta.
  cbn [total_reps accuracy_percentage form_score form_label
       average_depth_angle best_depth_angle].
  rewrite Hc, Hi. cbn [Z.add Z.eqb Z.ltb Z.compare].
  repeat split; try reflexivity.
  - rewrite H. reflexivity.
  - rewrite H. reflexivity.
Qed.

(** ** Invariants of a session *)

Lemma bookkeeping_mode s landmarks t :
  mode (bookkeeping angle_between s landmarks t) = mode s.
Proof. block_fields. Qed.

Lemma update_counters_mode s : mode (_update_counters s) = mode s.
Proof. counters_fields. Qed.

Lemma transition_mode :
  forall new_state s, mode (transition new_state s) = mode s.
Proof. transition_fields update_counters_mode. Qed.

Lemma record_feedback_mode ft s : mode (_record_feedback ft s) = mode s.
Proof. destruct ft; reflexivity. Qed.

(** [analyze] never touches the mode or the profile. *)
Lemma analyze_mode_config s landmarks fw fh t :
  mode (fst (analyze angle_between s landmarks fw fh t)) = mode s
  /\ config (fst (analyze angle_between s landmarks fw fh t)) = config s.
Proof.
  destruct (Nat.lt_ge_cases (List.length landmarks) 33) as [Hlt | Hge].
  - rewrite (analyze_short _ _ fw fh t Hlt). auto.
  - destruct (analyze_cases s landmarks Hge) as [Hf | [[Hf Hr] | [Hf Hr]]].
    + rewrite (analyze_frontal _ _ fw fh t Hge Hf). cbn [fst].
      destruct (frame_visible s landmarks); auto.
    + rewrite (analyze_not_ready _ _ fw fh t Hge Hf Hr). cbn [fst].
      rewrite bookkeeping_mode, bookkeeping_config. auto.
    + rewrite (analyze_ready_state _ _ fw fh t Hge Hf Hr).
      rewrite record_feedback_mode, config_record_feedback.
      rewrite after_transition_config.
      unfold after_transition, machine_input.
      rewrite transition_mode. cbn [mode set_is_ready].
      rewrite bookkeeping_mode. auto.
Qed.

Lemma transition_history_bound new_state s :
  (List.length (state_sequence s) <= 3)%nat ->
  (List.length (state_sequence (transition new_state s)) <= 3)%nat.
Proof.
  intro H.
  destruct (SquatState_eqb_spec new_state (current_state s)) as [E | N].
  - rewrite transition_same by exact E. exact H.
  - destruct new_state.
    + rewrite transition_standing by congruence.
      rewrite update_counters_state_sequence. simpl. lia.
    + rewrite transition_down by congruence. cbv zeta.
      destruct (List.length (state_sequence s) <? 3)%nat eqn:E3; fields;
        [|exact H].
      apply Nat.ltb_lt in E3. rewrite length_app. simpl. lia.
    + rewrite transition_down by congruence. cbv zeta.
      destruct (List.length (state_sequence s) <? 3)%nat eqn:E3; fields;
        [|exact H].
      apply Nat.ltb_lt in E3. rewrite length_app. simpl. lia.
Qed.

Lemma bookkeeping_history_bound s landmarks t :
  (List.length (state_sequence s) <= 3)%nat ->
  (List.length (state_sequence (bookkeeping angle_between s landmarks t)) <= 3)%nat.
Proof.
  intro H.
  destruct (Qltb (inactive_thresh (config s))
              (frame_inactivity angle_between s landmarks t)) eqn:E.
  - destruct (bookkeeping_inactive s landmarks t E) as (_ & _ & Hs & _).
    rewrite Hs. simpl. lia.
  - destruct (bookkeeping_active s landmarks t E) as (_ & _ & Hs & _).
    rewrite Hs. exact H.
Qed.

(** One call of [analyze] keeps the phase history within three entries. *)
Lemma analyze_history_bound s landmarks fw fh t :
  (List.length (state_sequence s) <= 3)%nat ->
  (List.length
     (state_sequence (fst (analyze angle_between s landmarks fw fh t)))
   <= 3)%nat.
Proof.
  intro H.
  destruct (Nat.lt_ge_cases (List.length landmarks) 33) as [Hlt | Hge].
  - rewrite (analyze_short _ _ fw fh t Hlt). exact H.
  - destruct (analyze_cases s landmarks Hge) as [Hf | [[Hf Hr] | [Hf Hr]]].
    + rewrite (analyze_frontal _ _ fw fh t Hge Hf). cbn [fst].
      destruct (frame_visible s landmarks); exact H.
    + rewrite (analyze_not_ready _ _ fw fh t Hge Hf Hr). cbn [fst].
      apply bookkeeping_history_bound. exact H.
    + rewrite (analyze_ready_state _ _ fw fh t Hge Hf Hr).
      match goal with
      | |- context [_record_feedback ?ft ?st] =>
          destruct (record_feedback_fields ft st) as (_ & _ & _ & Rseq & _)
      end.
      rewrite Rseq. unfold after_transition.
      apply transition_history_bound.
      unfold machine_input. cbn [state_sequence set_is_ready].
      apply bookkeeping_history_bound. exact H.
Qed.

Lemma run_invariants frames :
  forall s0,
    config s0 = config_for (mode s0) ->
    (List.length (state_sequence s0) <= 3)%nat ->
    config (run angle_between s0 frames)
    = config_for (mode (run angle_between s0 frames))
    /\ (List.length (state_sequence (run angle_between s0 frames)) <= 3)%nat.
Proof.
  induction frames as [|[landmarks t] rest IH]; intros s0 Hcfg Hlen.
  - simpl. auto.
  - cbn [run]. apply IH.
    + destruct (analyze_mode_config s0 landmarks 640 480 t) as (Hm & Hc).
      rewrite Hm, Hc. exact Hcfg.
    + apply analyze_history_bound. exact Hlen.
Qed.

(** Along any run of frames from a fresh trainer the profile is the built-in
    one of the mode, and the phase history has at most three entries. *)
Theorem session_invariants m t_start t_active frames :
  let s := run angle_between (init m t_start t_active) frames in
  config s = config_for (mode s)
  /\ (List.length (state_sequence s) <= 3)%nat.
Proof.
  cbv zeta. apply run_invariants.
  - reflexivity.
  - simpl. lia.
Qed.

(** So the side conditions of C7 and C9 hold throughout a session. *)
Corollary session_profile m t_start t_active frames :
  let s := run angle_between (init m t_start t_active) frames in
  bands_ordered (config s) /\ (0 < frames_required (config s))%Z.
Proof.
  cbv zeta.
  destruct (run_invariants frames (init m t_start t_active)) as (Hcfg & _).
  - reflexivity.
  - simpl. lia.
  - rewrite Hcfg. split.
    + apply bands_ordered_builtin.
    + apply frames_required_builtin.
Qed.

(** ** More about the feedback policy *)

(** The severity flag goes with the kind: true for knee-over-toes and
    too-deep, false for every other kind. *)
Lemma determine_feedback_severe s hv kv av down :
  snd (_determine_feedback s hv kv av down) = true
  <-> (fst (fst (_determine_feedback s hv kv av down)) = KNEE_OVER_TOES
       \/ fst (fst (_determine_feedback s hv kv av down)) = DEEP_SQUAT).
Proof.
  unfold _determine_feedback.
  destruct (Qltb (knee_over_toes (config s)) av); [simpl; tauto|].
  destruct (SquatState_eqb (current_state s) S3_PASS
            && Qltb (deep_squat (config s)) kv); [simpl; tauto|].
  destruct (Qltb hv (hip_vertical_min (config s)));
    [simpl; split; [discriminate | intros [H | H]; discriminate H]|].
  destruct (Qltb (hip_vertical_max (config s)) hv);
    [simpl; split; [discriminate | intros [H | H]; discriminate H]|].
  destruct (down && SquatState_eqb (current_state s) S2_TRANSITION
            && (Qleb (lower_hips_min (config s)) kv
                && Qleb kv (lower_hips_max (config s))));
    [simpl; split; [discriminate | intros [H | H]; discriminate H]|].
  destruct (current_state s); simpl;
    (split; [discriminate | intros [H | H]; discriminate H]).
Qed.

(** Which phase a kind of feedback can come from. *)
Lemma determine_feedback_phase s hv kv av down :
  (fst (fst (_determine_feedback s hv kv av down)) = DEEP_SQUAT ->
   current_state s = S3_PASS)
  /\ (fst (fst (_determine_feedback s hv kv av down)) = READY ->
      current_state s = S1_NORMAL)
  /\ (fst (fst (_determine_feedback s hv kv av down)) = LOWER_HIPS ->
      current_state s = S2_TRANSITION)
  /\ fst (fst (_determine_feedback s hv kv av down)) <> FRONTAL_WARNING.
Proof.
  unfold _determine_feedback.
  destruct (Qltb (knee_over_toes (config s)) av);
    [simpl; repeat split; discriminate|].
  destruct (SquatState_eqb_spec (current_state s) S3_PASS) as [E3 | N3].
  - destruct (Qltb (deep_squat (config s)) kv); cbn [andb];
      [simpl; repeat split; try discriminate; auto|].
    destruct (Qltb hv (hip_vertical_min (config s)));
      [simpl; repeat split; discriminate|].
    destruct (Qltb (hip_vertical_max (config s)) hv);
      [simpl; repeat split; discriminate|].
    rewrite E3. rewrite andb_false_r. cbn [andb].
    simpl. repeat split; discriminate.
  - cbn [andb].
    destruct (Qltb hv (hip_vertical_min (config s)));
      [simpl; repeat split; discriminate|].
    destruct (Qltb (hip_vertical_max (config s)) hv);
      [simpl; repeat split; discriminate|].
    destruct (SquatState_eqb_spec (current_state s) S2_TRANSITION)
      as [E2 | N2].
    + destruct (down && true
                && (Qleb (lower_hips_min (config s)) kv
                    && Qleb kv (lower_hips_max (config s))));
        [simpl; repeat split; try discriminate; auto|].
      rewrite E2. simpl. repeat split; discriminate.
    + rewrite andb_false_r. cbn [andb].
      destruct (current_state s); simpl; repeat split;
        try discriminate; try congruence; auto.
Qed.

(** What [analyze] reports about the trainer is the trainer it returns. *)
Lemma analyze_result_mirror s landmarks fw fh t :
  (33 <= List.length landmarks)%nat ->
  r_current_state (snd (analyze angle_between s landmarks fw fh t))
  = current_state (fst (analyze angle_between s landmarks fw fh t))
  /\ r_correct_count (snd (analyze angle_between s landmarks fw fh t))
     = correct_count (fst (analyze angle_between s landmarks fw fh t))
  /\ r_incorrect_count (snd (analyze angle_between s landmarks fw fh t))
     = incorrect_count (fst (analyze angle_between s landmarks fw fh t))
  /\ r_state_sequence (snd (analyze angle_between s landmarks fw fh t))
     = (if r_is_frontal_view (snd (analyze angle_between s landmarks fw fh t))
        then []
        else state_sequence (fst (analyze angle_between s landmarks fw fh t))).
Proof.
  intro Hge.
  destruct (analyze_cases s landmarks Hge) as [Hf | [[Hf Hr] | [Hf Hr]]].
  - rewrite (analyze_frontal _ _ fw fh t Hge Hf).
    cbn [fst snd r_current_state r_correct_count r_incorrect_count
         r_state_sequence r_is_frontal_view].
    destruct (frame_visible s landmarks); auto.
  - rewrite (analyze_not_ready _ _ fw fh t Hge Hf Hr).
    cbn [fst snd r_current_state r_correct_count r_incorrect_count
         r_state_sequence r_is_frontal_view]. auto.
  - rewrite (analyze_ready _ _ fw fh t Hge Hf Hr). cbv zeta.
    cbn [fst snd r_current_state r_correct_count r_incorrect_count
         r_state_sequence r_is_frontal_view]. auto.
Qed.

Lemma analyze_frontal_flag s landmarks fw fh t :
  r_is_frontal_view (snd (analyze angle_between s landmarks fw fh t)) = true
  <-> ((33 <= List.length landmarks)%nat
       /\ Qltb (offset_thresh (config s))
            (frame_offset_angle angle_between landmarks) = true).
Proof.
  destruct (Nat.lt_ge_cases (List.length landmarks) 33) as [Hlt | Hge].
  - rewrite (analyze_short _ _ fw fh t Hlt). cbn [snd r_is_frontal_view].
    split; [discriminate | intros [H _]; lia].
  - destruct (analyze_cases s landmarks Hge) as [Hf | [[Hf Hr] | [Hf Hr]]].
    + rewrite (analyze_frontal _ _ fw fh t Hge Hf).
      cbn [snd r_is_frontal_view]. tauto.
    + rewrite (analyze_not_ready _ _ fw fh t Hge Hf Hr).
      cbn [snd r_is_frontal_view]. rewrite Hf.
      split; [discriminate | intros [_ H]; discriminate H].
    + rewrite (analyze_ready _ _ fw fh t Hge Hf Hr). cbv zeta.
      cbn [snd r_is_frontal_view]. rewrite Hf.
      split; [discriminate | intros [_ H]; discriminate H].
Qed.

(** The feedback fields of a result fit together: the severity flag is set
    exactly for knee-over-toes and too-deep, the frontal warning is given
    exactly on frontal frames, too-deep is only reported in phase Depth and
    "ready" only in phase Standing. *)
Theorem feedback_fields_coherent s landmarks fw fh t :
  let r := snd (analyze angle_between s landmarks fw fh t) in
  (r_is_severe_feedback r = true
   <-> (r_feedback_type r = KNEE_OVER_TOES \/ r_feedback_type r = DEEP_SQUAT))
  /\ (r_feedback_type r = FRONTAL_WARNING <-> r_is_frontal_view r = true)
  /\ (r_feedback_type r = DEEP_SQUAT -> r_current_state r = S3_PASS)
  /\ (r_feedback_type r = READY -> r_current_state r = S1_NORMAL).
Proof.
  cbv zeta.
  destruct (Nat.lt_ge_cases (List.length landmarks) 33) as [Hlt | Hge].
  - rewrite (analyze_short _ _ fw fh t Hlt).
    cbn [snd r_is_severe_feedback r_feedback_type r_is_frontal_view
         r_current_state].
    split; [split; [discriminate | intros [H | H]; discriminate H]|].
    split; [split; discriminate|]. split; discriminate.
  - destruct (analyze_cases s landmarks Hge) as [Hf | [[Hf Hr] | [Hf Hr]]].
    + rewrite (analyze_frontal _ _ fw fh t Hge Hf).
      cbn [snd r_is_severe_feedback r_feedback_type r_is_frontal_view
           r_current_state].
      split; [split; [discriminate | intros [H | H]; discriminate H]|].
      split; [tauto|]. split; discriminate.
    + rewrite (analyze_not_ready _ _ fw fh t Hge Hf Hr).
      cbn [snd r_is_severe_feedback r_feedback_type r_is_frontal_view
           r_current_state].
      split; [split; [discriminate | intros [H | H]; discriminate H]|].
      split; [split; discriminate|]. split; discriminate.
    + pose proof (analyze_ready_feedback _ _ fw fh t Hge Hf Hr) as Hfb.
      destruct (analyze_result_mirror s landmarks fw fh t Hge)
        as (Hcur & _).
      rewrite Hcur.
      rewrite (analyze_ready_state _ _ fw fh t Hge Hf Hr).
      rewrite current_state_record_feedback.
      assert (Hfr : r_is_frontal_view
                      (snd (analyze angle_between s landmarks fw fh t))
                    = false).
      { destruct (r_is_frontal_view
                    (snd (analyze angle_between s landmarks fw fh t))) eqn:E;
          [|reflexivity].
        apply analyze_frontal_flag in E. destruct E as [_ E]. congruence. }
      rewrite Hfr.
      pose proof (determine_feedback_severe
                    (after_transition angle_between s landmarks t)
                    (frame_hip_vertical angle_between landmarks)
                    (frame_knee_vertical angle_between landmarks)
                    (frame_ankle_vertical angle_between landmarks) false)
        as Hsev.
      destruct (determine_feedback_phase
                  (after_transition angle_between s landmarks t)
                  (frame_hip_vertical angle_between landmarks)
                  (frame_knee_vertical angle_between landmarks)
                  (frame_ankle_vertical angle_between landmarks) false)
        as (Hdeep & Hrdy & _ & Hnf).
      rewrite <- Hfb in Hsev, Hdeep, Hrdy, Hnf. cbn [fst snd] in *.
      split; [exact Hsev|]. split; [|split; assumption].
      split; [intro; contradiction | discriminate].
Qed.

(** ** The feedback histogram *)

Lemma fh_get_set_same h k v d : fh_get (fh_set h k v) k d = v.
Proof.
  induction h as [|[k' v'] h IH]; simpl.
  - destruct (FeedbackType_eqb_spec k k); [reflexivity | congruence].
  - destruct (FeedbackType_eqb_spec k' k) as [E | N]; simpl.
    + destruct (FeedbackType_eqb_spec k' k); [reflexivity | congruence].
    + destruct (FeedbackType_eqb_spec k' k); [congruence | exact IH].
Qed.

Lemma fh_get_set_other h k k0 v d :
  k <> k0 -> fh_get (fh_set h k v) k0 d = fh_get h k0 d.
Proof.
  intro Hne. induction h as [|[k' v'] h IH]; simpl.
  - destruct (FeedbackType_eqb_spec k k0); [congruence | reflexivity].
  - destruct (FeedbackType_eqb_spec k' k) as [E | N]; simpl.
    + destruct (FeedbackType_eqb_spec k' k0); [congruence | reflexivity].
    + destruct (FeedbackType_eqb_spec k' k0); [reflexivity | exact IH].
Qed.

Lemma record_feedback_get ft s k :
  fh_get (feedback_history (_record_feedback ft s)) k 0%Z
  = if FeedbackType_eqb ft k && negb (FeedbackType_eqb k NONE)
       && negb (FeedbackType_eqb k READY)
    then (fh_get (feedback_history s) k 0 + 1)%Z
    else fh_get (feedback_history s) k 0%Z.
Proof.
  destruct (FeedbackType_eqb_spec ft k) as [E | N].
  - subst k. destruct ft; cbn [_record_feedback feedback_history
                                 set_feedback_history FeedbackType_eqb
                                 andb negb];
      try reflexivity; apply fh_get_set_same.
  - cbn [andb].
    destruct ft; cbn [_record_feedback feedback_history set_feedback_history];
      try reflexivity; apply fh_get_set_other; exact N.
Qed.

(** Every call adds one to the histogram count of the kind of feedback it
    returns, unless that kind is none, "ready" or the frontal warning; every
    other count stays. *)
Theorem analyze_histogram s landmarks fw fh t k :
  let s' := fst (analyze angle_between s landmarks fw fh t) in
  let r := snd (analyze angle_between s landmarks fw fh t) in
  fh_get (feedback_history s') k 0%Z
  = if FeedbackType_eqb (r_feedback_type r) k
       && negb (FeedbackType_eqb k NONE) && negb (FeedbackType_eqb k READY)
       && negb (FeedbackType_eqb k FRONTAL_WARNING)
    then (fh_get (feedback_history s) k 0 + 1)%Z
    else fh_get (feedback_history s) k 0%Z.
Proof.
  cbv zeta.
  destruct (Nat.lt_ge_cases (List.length landmarks) 33) as [Hlt | Hge].
  - rewrite (analyze_short _ _ fw fh t Hlt). cbn [fst snd r_feedback_type].
    destruct k; reflexivity.
  - destruct (analyze_cases s landmarks Hge) as [Hf | [[Hf Hr] | [Hf Hr]]].
    + rewrite (analyze_frontal _ _ fw fh t Hge Hf).
      cbn [fst snd r_feedback_type].
      destruct (frame_visible s landmarks); destruct k; reflexivity.
    + rewrite (analyze_not_ready _ _ fw fh t Hge Hf Hr).
      cbn [fst snd r_feedback_type].
      rewrite bookkeeping_feedback_history. destruct k; reflexivity.
    + pose proof (analyze_ready_feedback _ _ fw fh t Hge Hf Hr) as Hfb.
      apply (f_equal (fun x => fst (fst x))) in Hfb. cbn [fst] in Hfb.
      rewrite (analyze_ready_state _ _ fw fh t Hge Hf Hr).
      rewrite Hfb. rewrite record_feedback_get.
      unfold after_transition, machine_input.
      rewrite transition_feedback_history.
      cbn [feedback_history set_is_ready].
      rewrite bookkeeping_feedback_history.
      destruct (FeedbackType_eqb_spec
                  (fst (fst (_determine_feedback
                               (transition
                                  (frame_new_state angle_between s landmarks t)
                                  (set_is_ready true
                                     (bookkeeping angle_between s landmarks t)))
                               (frame_hip_vertical angle_between landmarks)
                               (frame_knee_vertical angle_between landmarks)
                               (frame_ankle_vertical angle_between landmarks)
                               false))) k) as [E | N];
        [|reflexivity].
      cbn [andb].
      destruct (FeedbackType_eqb_spec k FRONTAL_WARNING) as [Ef | Nf].
      * exfalso. subst k.
        eapply (proj2 (proj2 (proj2 (determine_feedback_phase _ _ _ _ _)))).
        exact Ef.
      * cbn [negb]. rewrite andb_true_r. reflexivity.
Qed.

(** ** What one change of phase does, field by field *)

Lemma transition_state_sequence new_state s :
  state_sequence (transition new_state s)
  = if SquatState_eqb new_state (current_state s) then state_sequence s
    else match new_state with
         | S1_NORMAL => []
         | _ => if (List.length (state_sequence s) <? 3)%nat
                then state_sequence s ++ [new_state]
                else state_sequence s
         end.
Proof.
  destruct (SquatState_eqb_spec new_state (current_state s)) as [E | N].
  - rewrite transition_same by exact E. reflexivity.
  - destruct new_state.
    + rewrite transition_standing by congruence.
      apply update_counters_state_sequence.
    + rewrite transition_down by congruence. cbv zeta.
      destruct (List.length (state_sequence s) <? 3)%nat; reflexivity.
    + rewrite transition_down by congruence. cbv zeta.
      destruct (List.length (state_sequence s) <? 3)%nat; reflexivity.
Qed.

Lemma update_counters_counts s :
  correct_count (_update_counters s)
  = (if (3 <=? List.length (state_sequence s))%nat
        && has_s3 (state_sequence s)
     then correct_count s + 1 else correct_count s)%Z
  /\ incorrect_count (_update_counters s)
     = (if (3 <=? List.length (state_sequence s))%nat
        then (if has_s3 (state_sequence s) then incorrect_count s
              else incorrect_count s + 1)
        else if (0 <? List.length (state_sequence s))%nat
             then incorrect_count s + 1 else incorrect_count s)%Z
  /\ depth_angles (_update_counters s)
     = if (3 <=? List.length (state_sequence s))%nat
          && has_s3 (state_sequence s)
          && Qltb (min_knee_angle_this_rep s) 180
       then depth_angles s ++ [min_knee_angle_this_rep s]
       else depth_angles s.
Proof.
  unfold _update_counters. cbv zeta.
  destruct (3 <=? List.length (state_sequence s))%nat;
    destruct (has_s3 (state_sequence s));
    destruct (0 <? List.length (state_sequence s))%nat;
    destruct (Qltb (min_knee_angle_this_rep s) 180) eqn:E;
    fields; try rewrite E; cbn [andb]; auto.
Qed.

Lemma transition_counts new_state s :
  correct_count (transition new_state s)
  = (if SquatState_eqb new_state (current_state s) then correct_count s
     else match new_state with
          | S1_NORMAL =>
              if (3 <=? List.length (state_sequence s))%nat
                 && has_s3 (state_sequence s)
              then correct_count s + 1 else correct_count s
          | _ => correct_count s
          end)%Z
  /\ incorrect_count (transition new_state s)
     = (if SquatState_eqb new_state (current_state s) then incorrect_count s
        else match new_state with
             | S1_NORMAL =>
                 if (3 <=? List.length (state_sequence s))%nat
                 then (if has_s3 (state_sequence s) then incorrect_count s
                       else incorrect_count s + 1)
                 else if (0 <? List.length (state_sequence s))%nat
                      then incorrect_count s + 1 else incorrect_count s
             | _ => incorrect_count s
             end)%Z
  /\ depth_angles (transition new_state s)
     = if SquatState_eqb new_state (current_state s) then depth_angles s
       else match new_state with
            | S1_NORMAL =>
                if (3 <=? List.length (state_sequence s))%nat
                   && has_s3 (state_sequence s)
                   && Qltb (min_knee_angle_this_rep s) 180
                then depth_angles s ++ [min_knee_angle_this_rep s]
                else depth_angles s
            | _ => depth_angles s
            end.
Proof.
  destruct (SquatState_eqb_spec new_state (current_state s)) as [E | N].
  - rewrite transition_same by exact E. auto.
  - destruct new_state.
    + rewrite transition_standing by congruence.
      exact (update_counters_counts
               (set_current_state S1_NORMAL
                  (set_prev_state (current_state s) s))).
    + rewrite transition_down by congruence. cbv zeta.
      destruct (List.length (state_sequence s) <? 3)%nat; auto.
    + rewrite transition_down by congruence. cbv zeta.
      destruct (List.length (state_sequence s) <? 3)%nat; auto.
Qed.

(** A change of phase counts at most one rep. *)
Lemma transition_counts_cases new_state s :
  (correct_count (transition new_state s) = correct_count s
   /\ incorrect_count (transition new_state s) = incorrect_count s)
  \/ (correct_count (transition new_state s) = (correct_count s + 1)%Z
      /\ incorrect_count (transition new_state s) = incorrect_count s)
  \/ (correct_count (transition new_state s) = correct_count s
      /\ incorrect_count (transition new_state s)
         = (incorrect_count s + 1)%Z).
Proof.
  destruct (transition_counts new_state s) as (Hc & Hi & _).
  rewrite Hc, Hi.
  destruct (SquatState_eqb new_state (current_state s)); [auto|].
  destruct new_state; auto.
  destruct (3 <=? List.length (state_sequence s))%nat;
    destruct (has_s3 (state_sequence s));
    destruct (0 <? List.length (state_sequence s))%nat; cbn [andb]; auto.
Qed.

(** The rep-relevant fields of the trainer that enters the state machine. *)
Lemma machine_input_fields s landmarks t :
  state_sequence (machine_input angle_between s landmarks t)
  = state_sequence (bookkeeping angle_between s landmarks t)
  /\ correct_count (machine_input angle_between s landmarks t)
     = correct_count (bookkeeping angle_between s landmarks t)
  /\ incorrect_count (machine_input angle_between s landmarks t)
     = incorrect_count (bookkeeping angle_between s landmarks t)
  /\ depth_angles (machine_input angle_between s landmarks t) = depth_angles s
  /\ min_knee_angle_this_rep (machine_input angle_between s landmarks t)
     = (if Qltb (frame_knee_angle angle_between landmarks)
             (min_knee_angle_this_rep s)
        then frame_knee_angle angle_between landmarks
        else min_knee_angle_this_rep s).
Proof.
  unfold machine_input.
  rewrite <- (bookkeeping_depth_angles s landmarks t).
  rewrite <- (bookkeeping_min s landmarks t).
  generalize (bookkeeping angle_between s landmarks t). intro sb.
  repeat split.
Qed.

(** The trainer returned by a ready side-view frame, in its rep-relevant
    fields, is the one [transition] leaves. *)
Lemma analyze_ready_fields s landmarks fw fh t :
  (33 <= List.length landmarks)%nat ->
  Qltb (offset_thresh (config s)) (frame_offset_angle angle_between landmarks)
  = false ->
  frame_ready s landmarks = true ->
  let s' := fst (analyze angle_between s landmarks fw fh t) in
  let st :=
    transition
      (_determine_state s (frame_knee_vertical angle_between landmarks))
      (machine_input angle_between s landmarks t) in
  current_state s' = current_state st
  /\ state_sequence s' = state_sequence st
  /\ correct_count s' = correct_count st
  /\ incorrect_count s' = incorrect_count st
  /\ depth_angles s' = depth_angles st
  /\ min_knee_angle_this_rep s' = min_knee_angle_this_rep st.
Proof.
  intros Hge Hf Hr. cbv zeta.
  rewrite (analyze_ready_state _ _ fw fh t Hge Hf Hr).
  unfold after_transition. rewrite frame_new_state_eq.
  match goal with
  | |- context [_record_feedback ?ft ?st] =>
      destruct (record_feedback_fields ft st)
        as (_ & Rcur & _ & Rseq & Rc & Ri & Rd & Rmin & _)
  end.
  rewrite Rcur, Rseq, Rc, Ri, Rd, Rmin. repeat split.
Qed.

(** One call counts at most one rep: the counters stay, or one of them grows
    by one, or the inactivity timeout zeroes both. *)
Theorem analyze_counts_one_rep s landmarks fw fh t :
  let s' := fst (analyze angle_between s landmarks fw fh t) in
  (correct_count s' = correct_count s
   /\ incorrect_count s' = incorrect_count s)
  \/ (correct_count s' = (correct_count s + 1)%Z
      /\ incorrect_count s' = incorrect_count s)
  \/ (correct_count s' = correct_count s
      /\ incorrect_count s' = (incorrect_count s + 1)%Z)
  \/ (correct_count s' = 0%Z /\ incorrect_count s' = 0%Z).
Proof.
  cbv zeta.
  destruct (Nat.lt_ge_cases (List.length landmarks) 33) as [Hlt | Hge].
  - rewrite (analyze_short _ _ fw fh t Hlt). cbn [fst]. auto.
  - destruct (analyze_cases s landmarks Hge) as [Hf | [[Hf Hr] | [Hf Hr]]].
    + rewrite (analyze_frontal _ _ fw fh t Hge Hf). cbn [fst].
      destruct (frame_visible s landmarks); auto.
    + rewrite (analyze_not_ready _ _ fw fh t Hge Hf Hr). cbn [fst].
      destruct (Qltb (inactive_thresh (config s))
                  (frame_inactivity angle_between s landmarks t)) eqn:E.
      * destruct (bookkeeping_inactive s landmarks t E) as (Hc & Hi & _).
        rewrite Hc, Hi. auto 6.
      * destruct (bookkeeping_active s landmarks t E) as (Hc & Hi & _).
        rewrite Hc, Hi. auto.
    + destruct (analyze_ready_fields s landmarks fw fh t Hge Hf Hr)
        as (_ & _ & Hc & Hi & _).
      cbv zeta in Hc, Hi. rewrite Hc, Hi.
      destruct (machine_input_fields s landmarks t)
        as (Ms & Mc & Mi & _).
      destruct (Qltb (inactive_thresh (config s))
                  (frame_inactivity angle_between s landmarks t)) eqn:E.
      * destruct (bookkeeping_inactive s landmarks t E)
          as (Bc & Bi & Bs & _).
        destruct (transition_counts
                    (_determine_state s
                       (frame_knee_vertical angle_between landmarks))
                    (machine_input angle_between s landmarks t))
          as (Tc & Ti & _).
        rewrite Tc, Ti, Ms, Mc, Mi, Bs, Bc, Bi.
        cbn [List.length Nat.leb Nat.ltb andb].
        right. right. right.
        destruct (SquatState_eqb _ _); [auto|].
        destruct (_determine_state s _); auto.
      * destruct (bookkeeping_active s landmarks t E) as (Bc & Bi & _).
        rewrite <- Bc, <- Bi, <- Mc, <- Mi.
        destruct (transition_counts_cases
                    (_determine_state s
                       (frame_knee_vertical angle_between landmarks))
                    (machine_input angle_between s landmarks t))
          as [H | [H | H]]; auto.
Qed.

(** A depth sample is only recorded together with a correct rep: after a
    call the depth angles are as before, or the running minimum of the knee
    joint angle, below 180, has been appended and the correct counter has
    grown by one. *)
Theorem analyze_depth_angles s landmarks fw fh t :
  let s' := fst (analyze angle_between s landmarks fw fh t) in
  let m :=
    if Qltb (frame_knee_angle angle_between landmarks)
         (min_knee_angle_this_rep s)
    then frame_knee_angle angle_between landmarks
    else min_knee_angle_this_rep s in
  depth_angles s' = depth_angles s
  \/ (depth_angles s' = depth_angles s ++ [m] /\ m < 180
      /\ correct_count s' = (correct_count s + 1)%Z
      /\ current_state s' = S1_NORMAL).
Proof.
  cbv zeta.
  destruct (Nat.lt_ge_cases (List.length landmarks) 33) as [Hlt | Hge].
  - rewrite (analyze_short _ _ fw fh t Hlt). cbn [fst]. auto.
  - destruct (analyze_cases s landmarks Hge) as [Hf | [[Hf Hr] | [Hf Hr]]].
    + rewrite (analyze_frontal _ _ fw fh t Hge Hf). cbn [fst].
      destruct (frame_visible s landmarks); auto.
    + rewrite (analyze_not_ready _ _ fw fh t Hge Hf Hr). cbn [fst].
      rewrite bookkeeping_depth_angles. auto.
    + destruct (analyze_ready_fields s landmarks fw fh t Hge Hf Hr)
        as (Hcur & _ & Hc & _ & Hd & _).
      cbv zeta in Hcur, Hc, Hd. rewrite Hcur, Hc, Hd.
      rewrite transition_current_state.
      destruct (machine_input_fields s landmarks t)
        as (Ms & Mc & _ & Md & Mm).
      destruct (transition_counts
                  (_determine_state s
                     (frame_knee_vertical angle_between landmarks))
                  (machine_input angle_between s landmarks t))
        as (Tc & _ & Td).
      rewrite Tc, Td, Ms, Mc, Md, Mm.
      destruct (SquatState_eqb _ _); [auto|].
      destruct (_determine_state s _); auto.
      destruct (3 <=? List.length
                        (state_sequence
                           (bookkeeping angle_between s landmarks t)))%nat
        eqn:E3; cbn [andb]; [|auto].
      destruct (has_s3 (state_sequence
                          (bookkeeping angle_between s landmarks t)));
        cbn [andb]; [|auto].
      match goal with
      | |- context [if Qltb ?m 180 then _ else _] =>
          destruct (Qltb m 180) eqn:Em; [|auto]
      end.
      right. split; [reflexivity|]. split; [apply Qltb_true; exact Em|].
      split; [|reflexivity].
      destruct (Qltb (inactive_thresh (config s))
                  (frame_inactivity angle_between s landmarks t)) eqn:E.
      * destruct (bookkeeping_inactive s landmarks t E) as (_ & _ & Bs & _).
        rewrite Bs in E3. discriminate E3.
      * destruct (bookkeeping_active s landmarks t E) as (Bc & _).
        rewrite Bc. reflexivity.
Qed.

(** ** What holds throughout a session *)

(** The trainer a call returns: the four ways through [analyze]. *)
Lemma analyze_state_cases s landmarks fw fh t :
  fst (analyze angle_between s landmarks fw fh t) = s
  \/ fst (analyze angle_between s landmarks fw fh t)
     = update_visibility (frame_visible s landmarks) s
  \/ (frame_ready s landmarks = false
      /\ fst (analyze angle_between s landmarks fw fh t)
         = bookkeeping angle_between s landmarks t)
  \/ (frame_ready s landmarks = true
      /\ exists ft,
           ft <> FRONTAL_WARNING
           /\ fst (analyze angle_between s landmarks fw fh t)
              = _record_feedback ft
                  (transition
                     (_determine_state s
                        (frame_knee_vertical angle_between landmarks))
                     (machine_input angle_between s landmarks t))).
Proof.
  destruct (Nat.lt_ge_cases (List.length landmarks) 33) as [Hlt | Hge].
  - left. rewrite (analyze_short _ _ fw fh t Hlt). reflexivity.
  - destruct (analyze_cases s landmarks Hge) as [Hf | [[Hf Hr] | [Hf Hr]]].
    + right. left. rewrite (analyze_frontal _ _ fw fh t Hge Hf). reflexivity.
    + right. right. left. split; [exact Hr|].
      rewrite (analyze_not_ready _ _ fw fh t Hge Hf Hr). reflexivity.
    + right. right. right. split; [exact Hr|].
      rewrite (analyze_ready_state _ _ fw fh t Hge Hf Hr).
      unfold after_transition. rewrite frame_new_state_eq.
      eexists. split; [|reflexivity].
      apply (proj2 (proj2 (proj2 (determine_feedback_phase _ _ _ _ _)))).
Qed.

Lemma fh_set_keys_In h k v x :
  In x (map fst (fh_set h k v)) -> In x (map fst h) \/ x = k.
Proof.
  induction h as [|[k' v'] h IH]; simpl.
  - intros [H | []]. auto.
  - destruct (FeedbackType_eqb_spec k' k) as [E | N]; simpl.
    + tauto.
    + intros [H | H]; [auto|]. destruct (IH H); auto.
Qed.

Lemma fh_set_NoDup h k v :
  NoDup (map fst h) -> NoDup (map fst (fh_set h k v)).
Proof.
  induction h as [|[k' v'] h IH]; simpl; intro Hnd.
  - constructor; [intros [] | constructor].
  - destruct (FeedbackType_eqb_spec k' k) as [E | N]; simpl.
    + exact Hnd.
    + inversion Hnd as [|? ? Hnotin Hnd']; subst.
      constructor; [|apply IH; exact Hnd'].
      intro Hin. apply fh_set_keys_In in Hin. destruct Hin; [contradiction|].
      congruence.
Qed.

Lemma fh_set_Forall (P : FeedbackType * Z -> Prop) h k v :
  Forall P h -> P (k, v) -> Forall P (fh_set h k v).
Proof.
  intros Hall Hk. induction h as [|[k' v'] h IH]; simpl.
  - constructor; [exact Hk | constructor].
  - inversion Hall as [|? ? Hhd Htl]; subst.
    destruct (FeedbackType_eqb_spec k' k) as [E | N].
    + constructor; [subst k'; exact Hk | exact Htl].
    + constructor; [exact Hhd | apply IH; exact Htl].
Qed.

Lemma fh_get_nonneg h k :
  Forall (fun kv => (1 <= snd kv)%Z /\ fst kv <> NONE /\ fst kv <> READY
                    /\ fst kv <> FRONTAL_WARNING) h ->
  (0 <= fh_get h k 0)%Z.
Proof.
  intro Hall. induction h as [|[k' v'] h IH]; simpl; [lia|].
  inversion Hall as [|? ? Hhd Htl]; subst. simpl in Hhd.
  destruct (FeedbackType_eqb k' k); [lia | apply IH; exact Htl].
Qed.

Lemma record_feedback_histogram_ok ft s :
  ft <> FRONTAL_WARNING ->
  histogram_ok (feedback_history s) ->
  histogram_ok (feedback_history (_record_feedback ft s)).
Proof.
  intros Hnf [Hnd Hall].
  assert (Hset : forall k,
             k <> NONE -> k <> READY -> k <> FRONTAL_WARNING ->
             histogram_ok
               (fh_set (feedback_history s) k
                  (fh_get (feedback_history s) k 0 + 1)%Z)).
  { intros k H1 H2 H3. split.
    - apply fh_set_NoDup. exact Hnd.
    - apply fh_set_Forall; [exact Hall|]. simpl.
      pose proof (fh_get_nonneg (feedback_history s) k Hall).
      repeat split; try assumption. lia. }
  destruct ft; cbn [_record_feedback feedback_history set_feedback_history];
    try (split; assumption); try congruence;
    apply Hset; discriminate.
Qed.

Ltac split_session :=
  unfold session_ok;
  split; [|split; [|split; [|split; [|split; [|split; [|split]]]]]].

Lemma update_visibility_session_ok b s :
  session_ok s -> session_ok (update_visibility b s).
Proof.
  intros (Hc & Hi & Hd & Hs1 & Hno & Hh & Hv & Hr).
  unfold update_visibility.
  destruct b; split_session; fields; auto; try lia;
    try (intro H; specialize (Hr H); lia); try discriminate.
Qed.

Lemma bookkeeping_session_ok s landmarks t :
  session_ok s -> session_ok (bookkeeping angle_between s landmarks t).
Proof.
  intro Hok.
  pose proof (update_visibility_session_ok (frame_visible s landmarks) s Hok)
    as (_ & _ & _ & _ & _ & _ & Hv & Hr).
  destruct Hok as (Hc & Hi & Hd & Hs1 & Hno & Hh & _ & _).
  unfold session_ok.
  rewrite bookkeeping_depth_angles, bookkeeping_current_state,
    bookkeeping_feedback_history, bookkeeping_visible_count,
    bookkeeping_is_ready, bookkeeping_config.
  rewrite config_update_visibility in Hr.
  destruct (Qltb (inactive_thresh (config s))
              (frame_inactivity angle_between s landmarks t)) eqn:E.
  - destruct (bookkeeping_inactive s landmarks t E) as (Bc & Bi & Bs & _).
    rewrite Bc, Bi, Bs. split_session; auto; try lia.
  - destruct (bookkeeping_active s landmarks t E) as (Bc & Bi & Bs & _).
    rewrite Bc, Bi, Bs. split_session; auto.
Qed.

Lemma transition_depth_below new_state s :
  Forall (fun a => a < 180) (depth_angles s) ->
  Forall (fun a => a < 180) (depth_angles (transition new_state s)).
Proof.
  intro Hd.
  destruct (transition_counts new_state s) as (_ & _ & Td). rewrite Td.
  destruct (SquatState_eqb new_state (current_state s)); [exact Hd|].
  destruct new_state; try exact Hd.
  destruct ((3 <=? List.length (state_sequence s))%nat
            && has_s3 (state_sequence s)); cbn [andb]; [|exact Hd].
  destruct (Qltb (min_knee_angle_this_rep s) 180) eqn:Em; [|exact Hd].
  apply Forall_app. split; [exact Hd|].
  constructor; [apply Qltb_true; exact Em | constructor].
Qed.

Lemma transition_history_shape new_state s :
  (current_state s = S1_NORMAL -> state_sequence s = []) ->
  ~ In S1_NORMAL (state_sequence s) ->
  (new_state = S1_NORMAL -> state_sequence (transition new_state s) = [])
  /\ ~ In S1_NORMAL (state_sequence (transition new_state s)).
Proof.
  intros Hs1 Hno. rewrite transition_state_sequence.
  destruct (SquatState_eqb_spec new_state (current_state s)) as [E | N].
  - split; [intro H; apply Hs1; congruence | exact Hno].
  - destruct new_state.
    + split; [reflexivity | intros []].
    + split; [discriminate|].
      destruct (List.length (state_sequence s) <? 3)%nat; [|exact Hno].
      rewrite in_app_iff. intros [H | [H | []]];
        [contradiction | discriminate H].
    + split; [discriminate|].
      destruct (List.length (state_sequence s) <? 3)%nat; [|exact Hno].
      rewrite in_app_iff. intros [H | [H | []]];
        [contradiction | discriminate H].
Qed.

Lemma transition_session_ok new_state s :
  session_ok s -> session_ok (transition new_state s).
Proof.
  intros (Hc & Hi & Hd & Hs1 & Hno & Hh & Hv & Hr).
  destruct (transition_history_shape new_state s Hs1 Hno) as (Ts1 & Tno).
  pose proof (transition_depth_below new_state s Hd) as Td.
  split_session;
    rewrite ?transition_current_state, ?transition_feedback_history,
      ?transition_visible_count, ?transition_is_ready, ?transition_config;
    auto.
  - destruct (transition_counts_cases new_state s)
      as [[Tc _] | [[Tc _] | [Tc _]]]; rewrite Tc; lia.
  - destruct (transition_counts_cases new_state s)
      as [[_ Ti] | [[_ Ti] | [_ Ti]]]; rewrite Ti; lia.
Qed.

Lemma record_feedback_session_ok ft s :
  ft <> FRONTAL_WARNING ->
  session_ok s -> session_ok (_record_feedback ft s).
Proof.
  intros Hnf (Hc & Hi & Hd & Hs1 & Hno & Hh & Hv & Hr).
  pose proof (record_feedback_histogram_ok ft s Hnf Hh) as Hh'.
  destruct (record_feedback_fields ft s)
    as (Rcfg & Rcur & _ & Rseq & Rc & Ri & Rd & _ & Rv & Rr).
  split_session; rewrite ?Rcfg, ?Rcur, ?Rseq, ?Rc, ?Ri, ?Rd, ?Rv, ?Rr; auto.
Qed.

(** [analyze] keeps a trainer well-formed. *)
Lemma analyze_session_ok s landmarks fw fh t :
  session_ok s ->
  session_ok (fst (analyze angle_between s landmarks fw fh t)).
Proof.
  intro Hok.
  destruct (analyze_state_cases s landmarks fw fh t)
    as [E | [E | [[Hr E] | [Hr [ft [Hnf E]]]]]]; rewrite E.
  - exact Hok.
  - apply update_visibility_session_ok. exact Hok.
  - apply bookkeeping_session_ok. exact Hok.
  - apply record_feedback_session_ok; [exact Hnf|].
    apply transition_session_ok.
    pose proof (bookkeeping_session_ok s landmarks t Hok)
      as (Hc & Hi & Hd & Hs1 & Hno & Hh & Hv & _).
    unfold machine_input. split_session; fields; auto.
    intros _. rewrite bookkeeping_visible_count, bookkeeping_config.
    unfold frame_ready in Hr. cbv zeta in Hr.
    rewrite config_update_visibility in Hr.
    apply Z.leb_le. exact Hr.
Qed.

Lemma init_session_ok m t_start t_active :
  session_ok (init m t_start t_active).
Proof.
  unfold init. split_session; simpl; auto; try lia; try discriminate;
    split; constructor.
Qed.

Lemma run_session_ok frames :
  forall s, session_ok s -> session_ok (run angle_between s frames).
Proof.
  induction frames as [|[landmarks t] rest IH]; intros s Hok.
  - exact Hok.
  - cbn [run]. apply IH. apply analyze_session_ok. exact Hok.
Qed.

(** Along any run of frames on a fresh trainer the rep counters are never
    negative and every recorded depth angle is below 180. *)
Theorem session_counters_depths m t_start t_active frames :
  let s := run angle_between (init m t_start t_active) frames in
  (0 <= correct_count s)%Z /\ (0 <= incorrect_count s)%Z
  /\ Forall (fun a => a < 180) (depth_angles s).
Proof.
  cbv zeta.
  destruct (run_session_ok frames (init m t_start t_active)
              (init_session_ok m t_start t_active))
    as (Hc & Hi & Hd & _).
  auto.
Qed.

(** Along any run of frames on a fresh trainer the phase history holds no
    Standing entry, and it is empty whenever the phase is Standing. *)
Theorem session_history_shape m t_start t_active frames :
  let s := run angle_between (init m t_start t_active) frames in
  (current_state s = S1_NORMAL -> state_sequence s = [])
  /\ ~ In S1_NORMAL (state_sequence s).
Proof.
  cbv zeta.
  destruct (run_session_ok frames (init m t_start t_active)
              (init_session_ok m t_start t_active))
    as (_ & _ & _ & Hs1 & Hno & _).
  auto.
Qed.

(** Along any run of frames on a fresh trainer the feedback histogram has
    every kind at most once, every count at least 1, and no entry for none,
    "ready" or the frontal warning. *)
Theorem session_histogram m t_start t_active frames :
  histogram_ok
    (feedback_history (run angle_between (init m t_start t_active) frames)).
Proof.
  destruct (run_session_ok frames (init m t_start t_active)
              (init_session_ok m t_start t_active))
    as (_ & _ & _ & _ & _ & Hh & _).
  exact Hh.
Qed.

(** Along any run of frames on a fresh trainer the readiness flag is only set
    while the consecutive-visible counter has reached the three frames both
    built-in profiles require; the counter is never negative. *)
Theorem session_readiness m t_start t_active frames :
  let s := run angle_between (init m t_start t_active) frames in
  (0 <= full_body_visible_count s)%Z
  /\ (is_ready s = true -> (3 <= full_body_visible_count s)%Z).
Proof.
  cbv zeta.
  destruct (run_session_ok frames (init m t_start t_active)
              (init_session_ok m t_start t_active))
    as (_ & _ & _ & _ & _ & _ & Hv & Hr).
  split; [exact Hv|]. intro H. specialize (Hr H).
  destruct (run_invariants frames (init m t_start t_active)) as (Hcfg & _).
  - reflexivity.
  - simpl. lia.
  - rewrite Hcfg in Hr. destruct (mode _); exact Hr.
Qed.

(** ** Frames that pass the visibility gate *)

Lemma passes_gate_check_key cfg landmarks idx name lm :
  nth_error landmarks idx = Some lm -> passes_gate cfg lm ->
  check_key (boundary_margin cfg) (visibility_thresh cfg) landmarks (idx, name)
  = [].
Proof.
  intros Hnth (Hx1 & Hx2 & Hy1 & Hy2 & Hv). unfold check_key. rewrite Hnth.
  unfold off_edge, low_visibility. cbv zeta.
  apply Qltb_false in Hx1, Hx2, Hy1, Hy2, Hv.
  rewrite Hx1, Hx2, Hy1, Hy2, Hv. reflexivity.
Qed.

Lemma flat_map_nil {A B} (f : A -> list B) (l : list A) :
  (forall a, In a l -> f a = []) -> flat_map f l = [].
Proof.
  induction l as [|a l IH]; intro H; simpl; [reflexivity|].
  rewrite (H a) by (left; reflexivity).
  apply IH. intros b Hb. apply H. right. exact Hb.
Qed.

Lemma frame_passes_visible s landmarks :
  frame_passes (config s) landmarks ->
  _is_full_body_visible s landmarks = (true, "Full body visible"%string).
Proof.
  intros [Hlen Hall]. unfold _is_full_body_visible. cbv zeta.
  rewrite missing_keys_flat_map.
  rewrite flat_map_nil; [reflexivity|].
  intros [idx name] Hin.
  destruct (nth_error landmarks idx) as [lm|] eqn:Hnth.
  - apply (passes_gate_check_key (config s) landmarks idx name lm Hnth).
    apply (Hall idx name lm Hin Hnth).
  - exfalso. apply nth_error_None in Hnth.
    unfold key_indices in Hin. simpl in Hin.
    repeat (destruct Hin as [Hin | Hin];
            [injection Hin as Hi _; subst idx;
             unfold LandmarkIndex.LEFT_SHOULDER, LandmarkIndex.RIGHT_SHOULDER,
               LandmarkIndex.LEFT_HIP, LandmarkIndex.RIGHT_HIP,
               LandmarkIndex.LEFT_KNEE, LandmarkIndex.RIGHT_KNEE,
               LandmarkIndex.LEFT_ANKLE, LandmarkIndex.RIGHT_ANKLE,
               LandmarkIndex.NOSE in Hnth; lia|]).
    destruct Hin.
Qed.

(** The consecutive-visible counter after a call on an accepted frame. *)
Lemma analyze_visible_count s landmarks fw fh t :
  (33 <= List.length landmarks)%nat ->
  full_body_visible_count (fst (analyze angle_between s landmarks fw fh t))
  = full_body_visible_count (update_visibility (frame_visible s landmarks) s).
Proof.
  intro Hge.
  destruct (analyze_cases s landmarks Hge) as [Hf | [[Hf Hr] | [Hf Hr]]].
  - rewrite (analyze_frontal _ _ fw fh t Hge Hf). reflexivity.
  - rewrite (analyze_not_ready _ _ fw fh t Hge Hf Hr). cbn [fst].
    apply bookkeeping_visible_count.
  - rewrite (analyze_ready_state _ _ fw fh t Hge Hf Hr).
    match goal with
    | |- context [_record_feedback ?ft ?st] =>
        destruct (record_feedback_fields ft st)
          as (_ & _ & _ & _ & _ & _ & _ & _ & Rv & _)
    end.
    rewrite Rv. unfold after_transition. rewrite transition_visible_count.
    unfold machine_input. cbn [full_body_visible_count set_is_ready].
    apply bookkeeping_visible_count.
Qed.

Lemma analyze_result_visibility s landmarks fw fh t :
  (33 <= List.length landmarks)%nat ->
  r_is_full_body_visible (snd (analyze angle_between s landmarks fw fh t))
  = frame_visible s landmarks
  /\ r_debug_info (snd (analyze angle_between s landmarks fw fh t))
     = snd (_is_full_body_visible s landmarks)
  /\ r_is_ready (snd (analyze angle_between s landmarks fw fh t))
     = frame_ready s landmarks.
Proof.
  intro Hge.
  destruct (analyze_cases s landmarks Hge) as [Hf | [[Hf Hr] | [Hf Hr]]].
  - rewrite (analyze_frontal _ _ fw fh t Hge Hf).
    cbn [snd r_is_full_body_visible r_debug_info r_is_ready]. auto.
  - rewrite (analyze_not_ready _ _ fw fh t Hge Hf Hr).
    cbn [snd r_is_full_body_visible r_debug_info r_is_ready]. auto.
  - rewrite (analyze_ready _ _ fw fh t Hge Hf Hr). cbv zeta.
    cbn [snd r_is_full_body_visible r_debug_info r_is_ready]. auto.
Qed.

(** The converse of the visibility gate: when all nine key landmarks of an
    accepted frame lie within the margins with enough visibility, the frame
    is reported visible, the consecutive-visible counter grows by one, and
    the frame is ready exactly when the new count reaches the profile's
    requirement. *)
Theorem visible_frame_counts s landmarks fw fh t :
  frame_passes (config s) landmarks ->
  let s' := fst (analyze angle_between s landmarks fw fh t) in
  let r := snd (analyze angle_between s landmarks fw fh t) in
  r_is_full_body_visible r = true
  /\ r_debug_info r = "Full body visible"%string
  /\ full_body_visible_count s' = (full_body_visible_count s + 1)%Z
  /\ r_is_ready r
     = (frames_required (config s) <=? full_body_visible_count s + 1)%Z.
Proof.
  intro Hpass. cbv zeta.
  pose proof (frame_passes_visible s landmarks Hpass) as Hvis.
  destruct Hpass as [Hge _].
  destruct (analyze_result_visibility s landmarks fw fh t Hge)
    as (Rv & Rd & Rr).
  rewrite Rv, Rd, Rr, (analyze_visible_count s landmarks fw fh t Hge).
  unfold frame_ready, frame_visible. rewrite Hvis. cbn [fst snd].
  unfold update_visibility. fields. auto.
Qed.

(** A streak of passing frames is counted frame by frame. *)
Theorem visible_streak frames :
  forall s,
    (forall landmarks t, In (landmarks, t) frames ->
                         frame_passes (config s) landmarks) ->
    full_body_visible_count (run angle_between s frames)
    = (full_body_visible_count s + Z.of_nat (List.length frames))%Z.
Proof.
  induction frames as [|[landmarks t] rest IH]; intros s Hall.
  - simpl. lia.
  - cbn [run].
    assert (Hpass : frame_passes (config s) landmarks)
      by (apply (Hall landmarks t); left; reflexivity).
    rewrite IH.
    + destruct Hpass as [Hge Hkeys].
      rewrite (analyze_visible_count s landmarks 640 480 t Hge).
      unfold frame_visible.
      rewrite (frame_passes_visible s landmarks (conj Hge Hkeys)).
      cbn [fst]. unfold update_visibility. fields.
      cbn [List.length]. lia.
    + intros l' t' Hin.
      destruct (analyze_mode_config s landmarks 640 480 t) as (_ & Hcfg).
      rewrite Hcfg. apply (Hall l' t'). right. exact Hin.
Qed.

(** ** Reset *)

(** [reset] with a mode leaves exactly the trainer that [__init__] builds for
    that mode; without a mode it does so for the current mode, whenever the
    profile is the one of that mode (as it is throughout a session). *)
Theorem reset_is_init m t_start t_active s :
  reset (Some m) t_start t_active s = init m t_start t_active
  /\ (config s = config_for (mode s) ->
      reset None t_start t_active s = init (mode s) t_start t_active).
Proof.
  split; [reflexivity|].
  intro H. unfold reset, init. rewrite H. reflexivity.
Qed.

Lemma reset_session_ok m t_start t_active s :
  session_ok (reset m t_start t_active s)
  /\ (config s = config_for (mode s) ->
      config (reset m t_start t_active s)
      = config_for (mode (reset m t_start t_active s)))
  /\ (List.length (state_sequence (reset m t_start t_active s)) <= 3)%nat.
Proof.
  destruct m as [m|]; unfold reset.
  - split; [apply (init_session_ok m t_start t_active)|].
    split; [reflexivity | simpl; lia].
  - split.
    + split_session; simpl; auto; try lia; try discriminate;
        split; constructor.
    + split; [auto | simpl; lia].
Qed.

(** ** Degenerate geometry and side selection *)

Lemma norm_is_zero_diag p : norm_is_zero (vec_sub p p) = true.
Proof.
  unfold norm_is_zero, vec_sub. cbn [fst snd].
  apply andb_true_iff. split; apply Qeq_bool_iff; ring.
Qed.

Lemma analyze_result_angles s landmarks fw fh t :
  (33 <= List.length landmarks)%nat ->
  Qltb (offset_thresh (config s)) (frame_offset_angle angle_between landmarks)
  = false ->
  let r := snd (analyze angle_between s landmarks fw fh t) in
  r_knee_angle r = frame_knee_angle angle_between landmarks
  /\ r_hip_vertical_angle r = frame_hip_vertical angle_between landmarks
  /\ r_knee_vertical_angle r = frame_knee_vertical angle_between landmarks
  /\ r_ankle_vertical_angle r = frame_ankle_vertical angle_between landmarks
  /\ r_offset_angle r = frame_offset_angle angle_between landmarks
  /\ r_detected_side r
     = (if frame_left angle_between landmarks then "left"%string
        else "right"%string).
Proof.
  intros Hge Hf. cbv zeta.
  destruct (frame_ready s landmarks) eqn:Hr.
  - rewrite (analyze_ready _ _ fw fh t Hge Hf Hr). cbv zeta.
    cbn [snd r_knee_angle r_hip_vertical_angle r_knee_vertical_angle
         r_ankle_vertical_angle r_offset_angle r_detected_side].
    repeat split.
  - rewrite (analyze_not_ready _ _ fw fh t Hge Hf Hr).
    cbn [snd r_knee_angle r_hip_vertical_angle r_knee_vertical_angle
         r_ankle_vertical_angle r_offset_angle r_detected_side].
    repeat split.
Qed.

Lemma record_feedback_last_knee_vertical ft s :
  last_knee_vertical (_record_feedback ft s) = last_knee_vertical s.
Proof. destruct ft; reflexivity. Qed.

Lemma transition_last_knee_vertical new_state s :
  last_knee_vertical (transition new_state s) = last_knee_vertical s.
Proof.
  destruct (SquatState_eqb_spec new_state (current_state s)) as [E | N].
  - rewrite transition_same by exact E. reflexivity.
  - destruct new_state.
    + rewrite transition_standing by congruence.
      unfold _update_counters. cbv zeta. repeat split_if; reflexivity.
    + rewrite transition_down by congruence. cbv zeta.
      destruct (List.length (state_sequence s) <? 3)%nat; reflexivity.
    + rewrite transition_down by congruence. cbv zeta.
      destruct (List.length (state_sequence s) <? 3)%nat; reflexivity.
Qed.

(** After a call on a side-view frame the trainer remembers the frame's
    knee-vertical angle. *)
Lemma analyze_last_knee_vertical s landmarks fw fh t :
  (33 <= List.length landmarks)%nat ->
  Qltb (offset_thresh (config s)) (frame_offset_angle angle_between landmarks)
  = false ->
  last_knee_vertical (fst (analyze angle_between s landmarks fw fh t))
  = frame_knee_vertical angle_between landmarks.
Proof.
  intros Hge Hf.
  destruct (frame_ready s landmarks) eqn:Hrd.
  - rewrite (analyze_ready_state _ _ fw fh t Hge Hf Hrd).
    rewrite record_feedback_last_knee_vertical. unfold after_transition.
    rewrite transition_last_knee_vertical.
    unfold machine_input. cbn [last_knee_vertical set_is_ready].
    apply bookkeeping_last_knee_vertical.
  - rewrite (analyze_not_ready _ _ fw fh t Hge Hf Hrd). cbn [fst].
    apply bookkeeping_last_knee_vertical.
Qed.

(** A frame whose landmarks all sit at one point is not an error: every
    measured angle is 0, the frame counts as a side view (for a profile with
    a non-negative frontal threshold, as the built-in ones), the right side
    is selected, and the trainer stores 0 as the last knee-vertical angle. *)
Theorem collapsed_frame s landmarks fw fh t :
  (33 <= List.length landmarks)%nat ->
  collapsed landmarks ->
  0 <= offset_thresh (config s) ->
  let s' := fst (analyze angle_between s landmarks fw fh t) in
  let r := snd (analyze angle_between s landmarks fw fh t) in
  r_is_frontal_view r = false
  /\ r_offset_angle r = 0
  /\ r_knee_angle r = 0
  /\ r_hip_vertical_angle r = 0
  /\ r_knee_vertical_angle r = 0
  /\ r_ankle_vertical_angle r = 0
  /\ r_detected_side r = "right"%string
  /\ last_knee_vertical s' = 0.
Proof.
  intros Hge Hcol Hth. cbv zeta.
  assert (Hpt : forall i j, (i < 33)%nat -> (j < 33)%nat ->
                            vec_sub (get_pt landmarks i) (get_pt landmarks j)
                            = vec_sub (get_pt landmarks j)
                                (get_pt landmarks j)).
  { intros i j Hi Hj. rewrite (Hcol i j Hi Hj). reflexivity. }
  assert (Hoff : frame_offset_angle angle_between landmarks = 0).
  { unfold frame_offset_angle, offset_angle. cbv zeta.
    unfold LandmarkIndex.RIGHT_SHOULDER, LandmarkIndex.LEFT_SHOULDER.
    rewrite (Hpt 12%nat 11%nat) by lia.
    rewrite norm_is_zero_diag. reflexivity. }
  assert (Hl : frame_left_knee_angle angle_between landmarks = 0).
  { unfold frame_left_knee_angle, angle_at_point. cbv zeta.
    unfold LandmarkIndex.LEFT_HIP, LandmarkIndex.LEFT_KNEE.
    rewrite (Hpt 23%nat 25%nat) by lia.
    rewrite norm_is_zero_diag. reflexivity. }
  assert (Hr : frame_right_knee_angle angle_between landmarks = 0).
  { unfold frame_right_knee_angle, angle_at_point. cbv zeta.
    unfold LandmarkIndex.RIGHT_HIP, LandmarkIndex.RIGHT_KNEE.
    rewrite (Hpt 24%nat 26%nat) by lia.
    rewrite norm_is_zero_diag. reflexivity. }
  assert (Hleft : frame_left angle_between landmarks = false).
  { unfold frame_left. rewrite Hl, Hr. reflexivity. }
  assert (Hka : frame_knee_angle angle_between landmarks = 0).
  { unfold frame_knee_angle. rewrite Hleft. exact Hr. }
  assert (Hhv : frame_hip_vertical angle_between landmarks = 0).
  { unfold frame_hip_vertical, angle_with_vertical. cbv zeta. rewrite Hleft.
    unfold LandmarkIndex.RIGHT_HIP, LandmarkIndex.RIGHT_SHOULDER.
    rewrite (Hpt 24%nat 12%nat) by lia.
    rewrite norm_is_zero_diag. reflexivity. }
  assert (Hkv : frame_knee_vertical angle_between landmarks = 0).
  { unfold frame_knee_vertical, angle_with_vertical. cbv zeta. rewrite Hleft.
    unfold LandmarkIndex.RIGHT_HIP, LandmarkIndex.RIGHT_KNEE.
    rewrite (Hpt 26%nat 24%nat) by lia.
    rewrite norm_is_zero_diag. reflexivity. }
  assert (Hav : frame_ankle_vertical angle_between landmarks = 0).
  { unfold frame_ankle_vertical, angle_with_vertical. cbv zeta. rewrite Hleft.
    unfold LandmarkIndex.RIGHT_ANKLE, LandmarkIndex.RIGHT_KNEE.
    rewrite (Hpt 28%nat 26%nat) by lia.
    rewrite norm_is_zero_diag. reflexivity. }
  assert (Hf : Qltb (offset_thresh (config s))
                 (frame_offset_angle angle_between landmarks) = false).
  { rewrite Hoff. apply Qltb_false. exact Hth. }
  destruct (analyze_result_angles s landmarks fw fh t Hge Hf)
    as (R1 & R2 & R3 & R4 & R5 & R6).
  rewrite R1, R2, R3, R4, R5, R6, Hoff, Hka, Hhv, Hkv, Hav, Hleft.
  split.
  { destruct (r_is_frontal_view
                (snd (analyze angle_between s landmarks fw fh t))) eqn:E;
      [|reflexivity].
    apply analyze_frontal_flag in E. destruct E as [_ E]. congruence. }
  repeat split.
  rewrite (analyze_last_knee_vertical s landmarks fw fh t Hge Hf).
  exact Hkv.
Qed.

(** Side selection: on a side-view frame [analyze] reports the smaller of the
    two knee joint angles, and names the left side exactly when the left
    angle is strictly smaller (a tie goes to the right). *)
Theorem side_selection s landmarks fw fh t :
  (33 <= List.length landmarks)%nat ->
  frame_offset_angle angle_between landmarks <= offset_thresh (config s) ->
  let r := snd (analyze angle_between s landmarks fw fh t) in
  r_knee_angle r <= frame_left_knee_angle angle_between landmarks
  /\ r_knee_angle r <= frame_right_knee_angle angle_between landmarks
  /\ (r_knee_angle r = frame_left_knee_angle angle_between landmarks
      \/ r_knee_angle r = frame_right_knee_angle angle_between landmarks)
  /\ (r_detected_side r = "left"%string
      <-> frame_left_knee_angle angle_between landmarks
          < frame_right_knee_angle angle_between landmarks)
  /\ (r_detected_side r = "right"%string
      <-> frame_right_knee_angle angle_between landmarks
          <= frame_left_knee_angle angle_between landmarks).
Proof.
  intros Hge Hoff. apply Qltb_false in Hoff. cbv zeta.
  destruct (analyze_result_angles s landmarks fw fh t Hge Hoff)
    as (R1 & _ & _ & _ & _ & R6).
  rewrite R1, R6. unfold frame_knee_angle, frame_left.
  destruct (Qltb (frame_left_knee_angle angle_between landmarks)
              (frame_right_knee_angle angle_between landmarks)) eqn:E.
  - apply Qltb_true in E.
    split; [apply Qle_refl|]. split; [apply Qlt_le_weak; exact E|].
    split; [left; reflexivity|].
    split; [split; [intros _; exact E | reflexivity]|].
    split; [discriminate|].
    intro H. exfalso. exact (Qlt_not_le _ _ E H).
  - apply Qltb_false in E.
    split; [exact E|]. split; [apply Qle_refl|].
    split; [right; reflexivity|].
    split; [split; [discriminate|]|].
    + intro H. exfalso. exact (Qlt_not_le _ _ H E).
    + split; [intros _; exact E | reflexivity].
Qed.

(** What the result says about the trainer.  On an accepted frame the phase
    and both counters in the result are those of the trainer after the call,
    and so is the phase history except on a frontal frame, whose result has
    an empty history.  On incomplete pose data the result carries the
    defaults (phase Standing, both counters 0) whatever the trainer holds. *)
Theorem result_reports_trainer s landmarks fw fh t :
  let s' := fst (analyze angle_between s landmarks fw fh t) in
  let r := snd (analyze angle_between s landmarks fw fh t) in
  ((33 <= List.length landmarks)%nat ->
   r_current_state r = current_state s'
   /\ r_correct_count r = correct_count s'
   /\ r_incorrect_count r = incorrect_count s'
   /\ r_state_sequence r
      = (if r_is_frontal_view r then [] else state_sequence s'))
  /\ ((List.length landmarks < 33)%nat ->
      r_current_state r = S1_NORMAL /\ r_correct_count r = 0%Z
      /\ r_incorrect_count r = 0%Z /\ r_state_sequence r = [] /\ s' = s).
Proof.
  cbv zeta. split.
  - apply analyze_result_mirror.
  - intro Hlt. rewrite (analyze_short _ _ fw fh t Hlt).
    cbn [fst snd r_current_state r_correct_count r_incorrect_count
         r_state_sequence].
    repeat split.
Qed.

(** ** The summary, in general *)

Lemma py_max2_0_nonneg x : 0 <= py_max2 0 x.
Proof.
  unfold py_max2. destruct (Qltb 0 x) eqn:E.
  - apply Qlt_le_weak. apply Qltb_true. exact E.
  - apply Qle_refl.
Qed.

Lemma py_min2_100_bounds x : 0 <= x -> 0 <= py_min2 100 x <= 100.
Proof.
  intro Hx. unfold py_min2. destruct (Qltb x 100) eqn:E.
  - split; [exact Hx|]. apply Qlt_le_weak. apply Qltb_true. exact E.
  - split; [q_concrete | apply Qle_refl].
Qed.

Lemma ratio_bounds c i :
  (0 <= c)%Z -> (0 <= i)%Z -> (0 < c + i)%Z ->
  0 <= inject_Z c / inject_Z (c + i) <= 1.
Proof.
  intros Hc Hi Hpos.
  assert (Ht : 0 < inject_Z (c + i)).
  { change 0 with (inject_Z 0). rewrite <- Zlt_Qlt. exact Hpos. }
  split.
  - apply Qle_shift_div_l; [exact Ht|]. rewrite Qmult_0_l.
    change 0 with (inject_Z 0). rewrite <- Zle_Qle. exact Hc.
  - apply Qle_shift_div_r; [exact Ht|]. rewrite Qmult_1_l.
    rewrite <- Zle_Qle. lia.
Qed.

Lemma get_summary_bounds s now :
  (0 <= correct_count s)%Z -> (0 <= incorrect_count s)%Z ->
  0 <= accuracy_percentage (get_summary np_std s now) <= 100
  /\ 0 <= form_score (get_summary np_std s now) <= 100.
Proof.
  intros Hc Hi. unfold get_summary. cbv zeta.
  cbn [accuracy_percentage form_score].
  destruct (Z.ltb_spec 0 (correct_count s + incorrect_count s)) as [Hpos | Hz].
  - destruct (ratio_bounds _ _ Hc Hi Hpos) as [R0 R1].
    split.
    { split.
      - apply Qmult_le_0_compat; [exact R0 | q_concrete].
      - setoid_replace 100 with (1 * 100) at 2 by reflexivity.
        apply Qmult_le_compat_r; [exact R1 | q_concrete]. }
    unfold _calculate_form_score.
    destruct (Z.eqb_spec (correct_count s + incorrect_count s) 0) as [E | N];
      [lia|].
    cbv zeta. apply py_min2_100_bounds.
    assert (Ha : 0 <= inject_Z (correct_count s)
                     / inject_Z (correct_count s + incorrect_count s) * 50)
      by (apply Qmult_le_0_compat; [exact R0 | q_concrete]).
    assert (Hcs : 0 <= (if (1 <? List.length (depth_angles s))%nat
                        then py_max2 0 (25 - np_std (depth_angles s))
                        else if (List.length (depth_angles s) =? 1)%nat
                             then 25 else 0)).
    { destruct (1 <? List.length (depth_angles s))%nat;
        [apply py_max2_0_nonneg|].
      destruct (List.length (depth_angles s) =? 1)%nat; q_concrete. }
    pose proof (py_max2_0_nonneg
                  (25 - fold_left
                          (fun penalty ft =>
                             penalty
                             + inject_Z (fh_get (feedback_history s) ft 0 * 2))
                          [KNEE_OVER_TOES; DEEP_SQUAT] 0)) as Hf.
    apply (Qle_trans _ (0 + 0 + 0)); [q_concrete|].
    apply Qplus_le_compat; [apply Qplus_le_compat|]; assumption.
  - apply Z.ltb_ge in Hz.
    assert (Hzero : (correct_count s + incorrect_count s = 0)%Z) by lia.
    split; [split; q_concrete|].
    unfold _calculate_form_score. rewrite Hzero. cbn [Z.eqb].
    split; q_concrete.
Qed.

(** The numbers of a summary are in range: for non-negative counters (as
    they are throughout a session) the total is their sum, and both the
    accuracy and the form score lie within [0, 100], whatever the standard
    deviation routine returns.  Without an incorrect rep the accuracy is 100;
    without a correct one it is 0. *)
Theorem summary_ranges s now :
  (0 <= correct_count s)%Z -> (0 <= incorrect_count s)%Z ->
  let summary := get_summary np_std s now in
  total_reps summary = (correct_count s + incorrect_count s)%Z
  /\ 0 <= accuracy_percentage summary <= 100
  /\ 0 <= form_score summary <= 100
  /\ ((0 < correct_count s)%Z -> incorrect_count s = 0%Z ->
      accuracy_percentage summary == 100)
  /\ (correct_count s = 0%Z -> accuracy_percentage summary == 0).
Proof.
  intros Hc Hi. cbv zeta.
  destruct (get_summary_bounds s now Hc Hi) as [Hacc Hform].
  split; [reflexivity|]. split; [exact Hacc|]. split; [exact Hform|].
  unfold get_summary. cbv zeta. cbn [accuracy_percentage].
  split.
  - intros Hpos Hi0. rewrite Hi0, Z.add_0_r.
    destruct (Z.ltb_spec 0 (correct_count s)) as [_ | Hn]; [|lia].
    assert (Hne : ~ inject_Z (correct_count s) == 0).
    { intro Habs. rewrite Zlt_Qlt in Hpos.
      rewrite Habs in Hpos. exact (Qlt_irrefl _ Hpos). }
    field. exact Hne.
  - intro Hc0. rewrite Hc0.
    destruct (0 <? 0 + incorrect_count s)%Z; [|reflexivity].
    unfold Qdiv. rewrite !Qmult_0_l. reflexivity.
Qed.

Lemma max_key_spec h :
  forall best,
  exists v,
    In (max_key h best, v) (best :: h)
    /\ forall kv, In kv (best :: h) -> (snd kv <= v)%Z.
Proof.
  induction h as [|[k v] h IH]; intros [bk bv]; cbn [max_key fst snd].
  - exists bv. split; [left; reflexivity|].
    intros kv [H | []]. subst kv. simpl. lia.
  - destruct (Z.ltb_spec bv v) as [Hlt | Hge].
    + destruct (IH (k, v)) as [w [Hin Hmax]]. exists w. split.
      * right. exact Hin.
      * intros kv [H | H].
        -- subst kv. simpl. specialize (Hmax (k, v) (or_introl eq_refl)).
           simpl in Hmax. lia.
        -- apply Hmax. exact H.
    + destruct (IH (bk, bv)) as [w [Hin Hmax]]. exists w. split.
      * destruct Hin as [Hin | Hin]; [left; exact Hin | right; right; exact Hin].
      * intros kv [H | [H | H]].
        -- apply Hmax. left. exact H.
        -- subst kv. simpl. specialize (Hmax (bk, bv) (or_introl eq_refl)).
           simpl in Hmax. lia.
        -- apply Hmax. right. exact H.
Qed.

(** The most common issue of a summary is unset exactly when the histogram
    is empty; otherwise it is a kind of the histogram whose count no other
    entry exceeds. *)
Theorem most_common_issue_spec s now :
  (most_common_issue (get_summary np_std s now) = None
   <-> feedback_history s = [])
  /\ forall k,
       most_common_issue (get_summary np_std s now) = Some k ->
       exists v,
         In (k, v) (feedback_history s)
         /\ forall k' v', In (k', v') (feedback_history s) -> (v' <= v)%Z.
Proof.
  unfold get_summary. cbv zeta. cbn [most_common_issue].
  destruct (feedback_history s) as [|kv h].
  - split; [tauto | discriminate].
  - split; [split; discriminate|].
    intros k Hk. injection Hk as Hk. subst k.
    destruct (max_key_spec h kv) as [v [Hin Hmax]].
    exists v. split; [exact Hin|].
    intros k' v' H. apply (Hmax (k', v') H).
Qed.

Lemma py_min_fold l :
  forall a,
    let m := fold_left (fun m x => if Qltb x m then x else m) l a in
    In m (a :: l) /\ m <= a /\ Forall (fun x => m <= x) l.
Proof.
  induction l as [|x l IH]; intro a; cbv zeta; cbn [fold_left].
  - split; [left; reflexivity|]. split; [apply Qle_refl | constructor].
  - destruct (Qltb x a) eqn:E.
    + destruct (IH x) as (Hin & Hle & Hall). cbv zeta in Hin, Hle, Hall.
      apply Qltb_true in E.
      split; [right; exact Hin|].
      split; [eapply Qle_trans; [exact Hle | apply Qlt_le_weak; exact E]|].
      constructor; assumption.
    + destruct (IH a) as (Hin & Hle & Hall). cbv zeta in Hin, Hle, Hall.
      apply Qltb_false in E.
      split; [destruct Hin as [Hin | Hin];
              [left; exact Hin | right; right; exact Hin]|].
      split; [exact Hle|].
      constructor; [eapply Qle_trans; eassumption | exact Hall].
Qed.

(** The depth statistics of a summary.  Without a recorded depth angle the
    average and the best depth angle are both 180.  Otherwise the best depth
    angle is one of the recorded angles and no recorded angle is smaller. *)
Theorem depth_statistics s now :
  let summary := get_summary np_std s now in
  (depth_angles s = [] ->
   average_depth_angle summary = 180 /\ best_depth_angle summary = 180)
  /\ (depth_angles s <> [] ->
      In (best_depth_angle summary) (depth_angles s)
      /\ Forall (fun a => best_depth_angle summary <= a) (depth_angles s)).
Proof.
  cbv zeta. unfold get_summary. cbv zeta.
  cbn [average_depth_angle best_depth_angle].
  destruct (depth_angles s) as [|a l] eqn:E.
  - split; [auto | congruence].
  - split; [discriminate|]. intros _.
    unfold py_min.
    destruct (py_min_fold l a) as (Hin & Hle & Hall).
    cbv zeta in Hin, Hle, Hall.
    split; [exact Hin|].
    constructor; assumption.
Qed.

(** ** Whole reps *)

Lemma run_app s frames1 frames2 :
  run angle_between s (frames1 ++ frames2)
  = run angle_between (run angle_between s frames1) frames2.
Proof.
  revert s. induction frames1 as [|[landmarks t] rest IH]; intro s.
  - reflexivity.
  - cbn [app run]. apply IH.
Qed.

(** The phase machine on the view. *)
Lemma transition_view c s cur seq co inc :
  phase_view s = (cur, seq, co, inc) ->
  phase_view (transition c s)
  = if SquatState_eqb c cur then (cur, seq, co, inc)
    else match c with
         | S1_NORMAL =>
             (S1_NORMAL, [],
              if (3 <=? List.length seq)%nat && has_s3 seq
              then co + 1 else co,
              if (3 <=? List.length seq)%nat
              then (if has_s3 seq then inc else inc + 1)
              else if (0 <? List.length seq)%nat then inc + 1 else inc)%Z
         | _ =>
             (c, if (List.length seq <? 3)%nat then seq ++ [c] else seq,
              co, inc)
         end.
Proof.
  unfold phase_view. intro H. injection H as Hcur Hseq Hco Hinc.
  destruct (transition_counts c s) as (C & I & _).
  rewrite transition_state_sequence, C, I.
  rewrite Hcur, Hseq, Hco, Hinc.
  destruct (SquatState_eqb_spec c cur) as [E | N].
  - rewrite transition_same by congruence. congruence.
  - rewrite transition_current_state. destruct c; reflexivity.
Qed.

Lemma transition_view_ext c s1 s2 :
  phase_view s1 = phase_view s2 ->
  phase_view (transition c s1) = phase_view (transition c s2).
Proof.
  intro H.
  destruct (phase_view s2) as [[[cur seq] co] inc] eqn:E2.
  rewrite (transition_view c s1 cur seq co inc H).
  rewrite (transition_view c s2 cur seq co inc E2).
  reflexivity.
Qed.

Lemma accepted_true s landmarks t :
  accepted angle_between s landmarks t = true ->
  (33 <= List.length landmarks)%nat
  /\ Qltb (offset_thresh (config s))
       (frame_offset_angle angle_between landmarks) = false
  /\ frame_ready s landmarks = true
  /\ Qltb (inactive_thresh (config s))
       (frame_inactivity angle_between s landmarks t) = false.
Proof.
  unfold accepted. intro H.
  apply andb_prop in H. destruct H as [H H4].
  apply andb_prop in H. destruct H as [H H3].
  apply andb_prop in H. destruct H as [H1 H2].
  apply Nat.leb_le in H1.
  apply negb_true_iff in H2. apply negb_true_iff in H4.
  auto.
Qed.

(** On an accepted frame the view changes as by one transition to the
    frame's phase. *)
Lemma accepted_frame_view s landmarks fw fh t :
  accepted angle_between s landmarks t = true ->
  phase_view (fst (analyze angle_between s landmarks fw fh t))
  = phase_view
      (transition
         (_determine_state s (frame_knee_vertical angle_between landmarks)) s).
Proof.
  intro H. apply accepted_true in H. destruct H as (Hge & Hf & Hrd & Hact).
  destruct (analyze_ready_fields s landmarks fw fh t Hge Hf Hrd)
    as (Hcur & Hseq & Hco & Hinc & _).
  cbv zeta in Hcur, Hseq, Hco, Hinc.
  transitivity
    (phase_view
       (transition
          (_determine_state s (frame_knee_vertical angle_between landmarks))
          (machine_input angle_between s landmarks t))).
  - unfold phase_view. rewrite Hcur, Hseq, Hco, Hinc. reflexivity.
  - apply transition_view_ext.
    destruct (machine_input_fields s landmarks t) as (Ms & Mc & Mi & _).
    destruct (bookkeeping_active s landmarks t Hact) as (Bc & Bi & Bs & _).
    unfold phase_view.
    rewrite machine_input_current_state, Ms, Mc, Mi, Bc, Bi, Bs.
    reflexivity.
Qed.

(** A non-empty run of accepted frames of one phase changes the view as one
    transition to that phase. *)
Lemma steady_view c frames :
  forall s,
    frames <> [] ->
    steady angle_between c s frames = true ->
    phase_view (run angle_between s frames) = phase_view (transition c s).
Proof.
  induction frames as [|[landmarks t] rest IH]; intros s Hne H;
    [congruence|].
  cbn [steady] in H.
  apply andb_prop in H. destruct H as [H Hrest].
  apply andb_prop in H. destruct H as [Hacc Hcls].
  destruct (SquatState_eqb_spec
              (_determine_state s (frame_knee_vertical angle_between landmarks))
              c) as [Ec | Nc]; [|discriminate Hcls].
  pose proof (accepted_frame_view s landmarks 640 480 t Hacc) as Hview.
  rewrite Ec in Hview.
  cbn [run].
  destruct rest as [|f rest'].
  - exact Hview.
  - rewrite (IH _ ltac:(discriminate) Hrest).
    rewrite transition_same; [exact Hview|].
    apply (f_equal (fun v => fst (fst (fst v)))) in Hview.
    unfold phase_view in Hview. cbn [fst] in Hview.
    rewrite transition_current_state in Hview. congruence.
Qed.

Ltac next_phase H Hprev :=
  rewrite (transition_view _ _ _ _ _ _ Hprev) in H;
  cbn [SquatState_eqb List.length Nat.ltb Nat.leb app has_s3 existsb
       orb andb] in H.

(** A full rep is counted as correct.  From Standing with an empty history,
    accepted frames that are classified as Transition, then Depth, then
    Transition, then Standing (any positive number of frames in each phase)
    leave the trainer in Standing with an empty history, the correct counter
    one higher and the incorrect counter unchanged. *)
Theorem full_rep_counted s going_down_frames depth_frames coming_up_frames
    standing_frames :
  current_state s = S1_NORMAL -> state_sequence s = [] ->
  going_down_frames <> [] -> depth_frames <> [] ->
  coming_up_frames <> [] -> standing_frames <> [] ->
  steady angle_between S2_TRANSITION s going_down_frames = true ->
  steady angle_between S3_PASS
    (run angle_between s going_down_frames) depth_frames = true ->
  steady angle_between S2_TRANSITION
    (run angle_between s (going_down_frames ++ depth_frames))
    coming_up_frames = true ->
  steady angle_between S1_NORMAL
    (run angle_between s
       (going_down_frames ++ depth_frames ++ coming_up_frames))
    standing_frames = true ->
  let s' :=
    run angle_between s
      (going_down_frames ++ depth_frames ++ coming_up_frames
       ++ standing_frames) in
  current_state s' = S1_NORMAL
  /\ state_sequence s' = []
  /\ correct_count s' = (correct_count s + 1)%Z
  /\ incorrect_count s' = incorrect_count s.
Proof.
  intros Hcur Hseq Na Nb Nc Nd Ha Hb Hc Hd. cbv zeta.
  rewrite !app_assoc in *. rewrite !run_app in *.
  apply (steady_view _ _ _ Na) in Ha.
  apply (steady_view _ _ _ Nb) in Hb.
  apply (steady_view _ _ _ Nc) in Hc.
  apply (steady_view _ _ _ Nd) in Hd.
  assert (H0 : phase_view s
               = (S1_NORMAL, [], correct_count s, incorrect_count s))
    by (unfold phase_view; rewrite Hcur, Hseq; reflexivity).
  next_phase Ha H0. next_phase Hb Ha. next_phase Hc Hb. next_phase Hd Hc.
  unfold phase_view in Hd. injection Hd as -> -> -> ->. auto.
Qed.

(** A shallow rep is counted as incorrect.  From Standing with an empty
    history, accepted frames classified as Transition and then as Standing
    again, Depth never reached, leave the correct counter unchanged and the
    incorrect counter one higher. *)
Theorem shallow_rep_counted s going_down_frames standing_frames :
  current_state s = S1_NORMAL -> state_sequence s = [] ->
  going_down_frames <> [] -> standing_frames <> [] ->
  steady angle_between S2_TRANSITION s going_down_frames = true ->
  steady angle_between S1_NORMAL
    (run angle_between s going_down_frames) standing_frames = true ->
  let s' := run angle_between s (going_down_frames ++ standing_frames) in
  current_state s' = S1_NORMAL
  /\ state_sequence s' = []
  /\ correct_count s' = correct_count s
  /\ incorrect_count s' = (incorrect_count s + 1)%Z.
Proof.
  intros Hcur Hseq Na Nd Ha Hd. cbv zeta.
  rewrite !run_app in *.
  apply (steady_view _ _ _ Na) in Ha.
  apply (steady_view _ _ _ Nd) in Hd.
  assert (H0 : phase_view s
               = (S1_NORMAL, [], correct_count s, incorrect_count s))
    by (unfold phase_view; rewrite Hcur, Hseq; reflexivity).
  next_phase Ha H0. next_phase Hd Ha.
  unfold phase_view in Hd. injection Hd as -> -> -> ->. auto.
Qed.

(** ** The websocket endpoint *)

Lemma WorkoutMode_eqb_spec a b : reflect (a = b) (WorkoutMode_eqb a b).
Proof. destruct a, b; constructor; congruence. Qed.

Lemma frame_ready_early s landmarks :
  (full_body_visible_count s + 1 < frames_required (config s))%Z ->
  (0 < frames_required (config s))%Z ->
  frame_ready s landmarks = false.
Proof.
  intros H1 H0. unfold frame_ready, update_visibility. cbv zeta.
  destruct (frame_visible s landmarks);
    cbn [config full_body_visible_count set_full_body_visible_count
         set_is_ready];
    apply Z.leb_gt; lia.
Qed.

(** A frame on a trainer that has counted nothing and is not ready after it
    counts nothing. *)
Lemma analyze_early s landmarks fw fh t :
  (33 <= List.length landmarks)%nat ->
  frame_ready s landmarks = false ->
  correct_count s = 0%Z -> incorrect_count s = 0%Z ->
  let s' := fst (analyze angle_between s landmarks fw fh t) in
  let r := snd (analyze angle_between s landmarks fw fh t) in
  r_is_ready r = false
  /\ r_correct_count r = 0%Z /\ r_incorrect_count r = 0%Z
  /\ correct_count s' = 0%Z /\ incorrect_count s' = 0%Z
  /\ depth_angles s' = depth_angles s
  /\ feedback_history s' = feedback_history s.
Proof.
  intros Hge Hrd Hc Hi. cbv zeta.
  destruct (analyze_cases s landmarks Hge) as [Hf | [[Hf _] | [_ Hr]]];
    [| |congruence].
  - rewrite (analyze_frontal _ _ fw fh t Hge Hf).
    cbn [fst snd r_is_ready r_correct_count r_incorrect_count].
    destruct (frame_visible s landmarks); cbn; auto 10.
  - rewrite (analyze_not_ready _ _ fw fh t Hge Hf Hrd).
    cbn [fst snd r_is_ready r_correct_count r_incorrect_count].
    rewrite bookkeeping_depth_angles, bookkeeping_feedback_history.
    destruct (Qltb (inactive_thresh (config s))
                (frame_inactivity angle_between s landmarks t)) eqn:Hin.
    + destruct (bookkeeping_inactive s landmarks t Hin) as (Bc & Bi & _).
      rewrite Bc, Bi. auto 10.
    + destruct (bookkeeping_active s landmarks t Hin) as (Bc & Bi & _).
      rewrite Bc, Bi, Hc, Hi. auto 10.
Qed.

Lemma mode_switch_connection_ok s new_mode t_start t_active :
  connection_ok s ->
  connection_ok
    (if negb (WorkoutMode_eqb new_mode (mode s))
     then reset (Some new_mode) t_start t_active s else s).
Proof.
  intro H. destruct (negb (WorkoutMode_eqb new_mode (mode s))); [|exact H].
  destruct H as (_ & Hcfg & _).
  destruct (reset_session_ok (Some new_mode) t_start t_active s)
    as (A & B & C).
  split; [exact A|]. split; [exact (B Hcfg) | exact C].
Qed.

Lemma analyze_connection_ok s landmarks fw fh t :
  connection_ok s ->
  connection_ok (fst (analyze angle_between s landmarks fw fh t)).
Proof.
  intros (Hs & Hcfg & Hlen).
  split; [apply analyze_session_ok; exact Hs|].
  split; [|apply analyze_history_bound; exact Hlen].
  destruct (analyze_mode_config s landmarks fw fh t) as (Hm & Hc).
  rewrite Hm, Hc. exact Hcfg.
Qed.

Lemma websocket_message_ok s msg t_start t_active now :
  connection_ok s ->
  connection_ok
    (fst (websocket_message angle_between np_std s msg t_start t_active now))
  /\ reply_in_range
       (snd (websocket_message angle_between np_std s msg t_start t_active
               now)).
Proof.
  intro H. unfold websocket_message.
  destruct (command_is msg "reset").
  { cbv zeta. cbn [fst snd reply_in_range]. split; [|exact I].
    destruct H as (_ & Hcfg & _).
    destruct (reset_session_ok
                (Some (mode_of (get_or (m_mode msg) "beginner"%string)))
                t_start t_active s) as (A & B & C).
    split; [exact A|]. split; [exact (B Hcfg) | exact C]. }
  destruct (command_is msg "summary").
  { cbn [fst snd reply_in_range]. split; [exact H|].
    destruct H as (Hs & _). destruct Hs as (Hc & Hi & _).
    destruct (get_summary_bounds s now Hc Hi) as [Hacc Hform].
    unfold get_summary in *. cbv zeta in *.
    cbn [correct_reps incorrect_reps total_reps accuracy_percentage
         form_score] in *.
    auto. }
  cbv zeta.
  destruct (List.length (get_or (m_landmarks msg) []) <? 33)%nat eqn:Hlen.
  { cbn [fst snd reply_in_range]. auto. }
  apply Nat.ltb_ge in Hlen.
  pose proof (mode_switch_connection_ok s
                (mode_of (get_or (m_mode msg) "beginner"%string))
                t_start t_active H) as H0.
  set (s0 := if negb (WorkoutMode_eqb _ (mode s)) then _ else s) in *.
  pose proof (analyze_connection_ok s0 (get_or (m_landmarks msg) [])
                (get_or (m_frame_width msg) 640%Z)
                (get_or (m_frame_height msg) 480%Z) now H0) as H1.
  pose proof (analyze_result_mirror s0 (get_or (m_landmarks msg) [])
                (get_or (m_frame_width msg) 640%Z)
                (get_or (m_frame_height msg) 480%Z) now Hlen) as Hm.
  destruct (analyze angle_between s0 (get_or (m_landmarks msg) [])
              (get_or (m_frame_width msg) 640%Z)
              (get_or (m_frame_height msg) 480%Z) now) as [s1 r].
  cbn [fst snd reply_in_range] in *.
  split; [exact H1|].
  destruct Hm as (_ & Mc & Mi & Ms).
  destruct H1 as ((Hc & Hi & _) & _ & Hl).
  rewrite Mc, Mi, Ms.
  split; [exact Hc|]. split; [exact Hi|].
  destruct (r_is_frontal_view r); [simpl; lia | exact Hl].
Qed.

Lemma websocket_loop_ok inbox :
  forall s,
    connection_ok s ->
    connection_ok (fst (websocket_loop angle_between np_std s inbox))
    /\ Forall reply_in_range
         (snd (websocket_loop angle_between np_std s inbox)).
Proof.
  induction inbox as [|[msg [[t_start t_active] now]] rest IH]; intros s H.
  - cbn [websocket_loop fst snd]. auto.
  - cbn [websocket_loop].
    destruct (websocket_message_ok s msg t_start t_active now H) as [H1 R1].
    destruct (websocket_message angle_between np_std s msg t_start t_active
                now) as [s1 reply].
    cbn [fst snd] in H1, R1.
    destruct (IH s1 H1) as [H2 R2].
    destruct (websocket_loop angle_between np_std s1 rest) as [s2 replies].
    cbn [fst snd] in *. auto.
Qed.

(** Throughout a websocket connection, whatever messages arrive (frames,
    invalid frames, mode switches, reset and summary commands, in any
    order and at any clock readings), the trainer keeps the session
    invariants, its profile is the built-in one of its mode and its phase
    history has at most three entries. *)
Theorem websocket_connection_invariants t_start t_active inbox :
  connection_ok
    (fst (websocket_analyze angle_between np_std t_start t_active inbox)).
Proof.
  unfold websocket_analyze. apply websocket_loop_ok.
  split; [apply init_session_ok|]. split; [reflexivity | simpl; lia].
Qed.

(** Every reply of a websocket connection is in range: a summary has
    non-negative rep counts that add up to the total, and an accuracy and a
    form score within [0, 100]; an analysis result has non-negative
    counters and a phase history of at most three entries. *)
Theorem websocket_replies_in_range t_start t_active inbox :
  Forall reply_in_range
    (snd (websocket_analyze angle_between np_std t_start t_active inbox)).
Proof.
  unfold websocket_analyze. apply websocket_loop_ok.
  split; [apply init_session_ok|]. split; [reflexivity | simpl; lia].
Qed.

(** A frame message sets the trainer's mode: to Beginner if the message
    names "beginner" or no mode, to Pro for any other mode string.  If that
    is not the trainer's mode, the session is discarded before the frame is
    analysed: the profile is the built-in one of the new mode, both counters
    are zero, the depth angles and the feedback histogram are empty, and the
    reply reports no rep and "not ready". *)
Theorem websocket_mode_switch s msg t_start t_active now :
  command_is msg "reset" = false ->
  command_is msg "summary" = false ->
  (33 <= List.length (get_or (m_landmarks msg) []))%nat ->
  let new_mode := mode_of (get_or (m_mode msg) "beginner"%string) in
  let s' :=
    fst (websocket_message angle_between np_std s msg t_start t_active now) in
  let reply :=
    snd (websocket_message angle_between np_std s msg t_start t_active now) in
  mode s' = new_mode
  /\ (m_mode msg = None -> mode s' = BEGINNER)
  /\ (new_mode <> mode s ->
      config s' = config_for new_mode
      /\ correct_count s' = 0%Z /\ incorrect_count s' = 0%Z
      /\ depth_angles s' = [] /\ feedback_history s' = []
      /\ exists r,
           reply = reply_result r
           /\ r_is_ready r = false
           /\ r_correct_count r = 0%Z /\ r_incorrect_count r = 0%Z).
Proof.
  intros Hreset Hsummary Hlen. cbv zeta.
  unfold websocket_message. rewrite Hreset, Hsummary. cbv zeta.
  destruct (List.length (get_or (m_landmarks msg) []) <? 33)%nat eqn:Hlt;
    [apply Nat.ltb_lt in Hlt; lia|].
  set (new_mode := mode_of (get_or (m_mode msg) "beginner"%string)).
  assert (Hmode :
            mode (if negb (WorkoutMode_eqb new_mode (mode s))
                  then reset (Some new_mode) t_start t_active s else s)
            = new_mode).
  { destruct (WorkoutMode_eqb_spec new_mode (mode s)) as [E | N];
      cbn [negb]; [symmetry; exact E | reflexivity]. }
  set (s0 := if negb (WorkoutMode_eqb new_mode (mode s)) then _ else s) in *.
  destruct (analyze_mode_config s0 (get_or (m_landmarks msg) [])
              (get_or (m_frame_width msg) 640%Z)
              (get_or (m_frame_height msg) 480%Z) now) as (Am & Ac).
  assert (Hearly :
            new_mode <> mode s ->
            s0 = reset (Some new_mode) t_start t_active s).
  { intro Hne. subst s0.
    destruct (WorkoutMode_eqb_spec new_mode (mode s)) as [E | N];
      [congruence | reflexivity]. }
  assert (Hfresh :
            new_mode <> mode s ->
            frame_ready s0 (get_or (m_landmarks msg) []) = false).
  { intro Hne. rewrite (Hearly Hne). apply frame_ready_early.
    - destruct new_mode; vm_compute; reflexivity.
    - destruct new_mode; vm_compute; reflexivity. }
  pose proof (fun Hne =>
                analyze_early s0 (get_or (m_landmarks msg) [])
                  (get_or (m_frame_width msg) 640%Z)
                  (get_or (m_frame_height msg) 480%Z) now Hlen (Hfresh Hne))
    as Hcount.
  cbv zeta in Hcount.
  destruct (analyze angle_between s0 (get_or (m_landmarks msg) [])
              (get_or (m_frame_width msg) 640%Z)
              (get_or (m_frame_height msg) 480%Z) now) as [s1 r].
  cbn [fst snd] in *.
  split; [congruence|].
  split.
  - intro Hnone. rewrite Am, Hmode. subst new_mode. rewrite Hnone.
    reflexivity.
  - intro Hne.
    assert (Hs0 : s0 = reset (Some new_mode) t_start t_active s)
      by exact (Hearly Hne).
    destruct (Hcount Hne) as (Rr & Rc & Ri & Sc & Si & Sd & Sf);
      try (rewrite Hs0; reflexivity).
    split; [rewrite Ac, Hs0; reflexivity|].
    split; [exact Sc|]. split; [exact Si|].
    split; [rewrite Sd, Hs0; reflexivity|].
    split; [rewrite Sf, Hs0; reflexivity|].
    exists r. auto.
Qed.

End EngineFacts.

(** * Worked examples on the reference kernel *)

Ltac by_computation :=
  vm_compute;
  first [ reflexivity
        | let H := fresh in intro H; discriminate H
        | apply Nat.leb_le; vm_compute; reflexivity ].

Ltac each_by_computation :=
  repeat match goal with
         | |- _ /\ _ => split
         end;
  by_computation.

Ltac states_differ field :=
  let H := fresh in
  intro H; apply (f_equal field) in H; vm_compute in H; discriminate H.

(** C1: half-way down and ready, the next frame lowers the thigh from 45 to
    about 53 degrees, inside the lower-hips band; the feedback is empty. *)
Lemma C1_lower_hips_not_given_witness :
  last_knee_vertical going_down
  < frame_knee_vertical approx_angle mid_squat
  /\ r_feedback_type
      (snd (analyze approx_angle going_down mid_squat 640 480 5)) = NONE
  /\ r_feedback_message
      (snd (analyze approx_angle going_down mid_squat 640 480 5))
     = ""%string
  /\ r_feedback_type (snd (analyze approx_angle going_down mid_squat 640 480 5))
     <> LOWER_HIPS.
Proof.
  split; [by_computation|].
  apply (C1_lower_hips_not_given approx_angle going_down mid_squat 640 480 5);
    by_computation.
Defined.

(** C2: the last frame of a full rep. *)
Lemma C2_rep_finalization_witness :
  correct_count
      (fst (analyze approx_angle before_standing_up standing 640 480 7))
  = 1%Z
  /\ depth_angles
      (fst (analyze approx_angle before_standing_up standing 640 480 7))
     = [90].
Proof.
  pose proof (C2_rep_finalization approx_angle before_standing_up standing
                640 480 7) as H.
  cbv zeta in H.
  destruct H as (_ & Hcorrect & _); try by_computation.
  destruct Hcorrect as (Hc & _ & Hd).
  - by_computation.
  - vm_compute. right. left. reflexivity.
  - split.
    + rewrite Hc. by_computation.
    + rewrite Hd. by_computation.
Defined.

(** C2, the claim as stated: the swung straight leg visits Transition, Depth
    and Transition with a knee joint angle of 180 throughout.  On the frame
    that returns to Standing the history has three entries and holds Depth,
    the correct counter grows by 1, and no depth angle is appended. *)
Lemma C2_counterexample :
  frame_ready leg_swing standing = true
  /\ current_state leg_swing = S2_TRANSITION
  /\ current_state (fst (analyze approx_angle leg_swing standing 640 480 7))
     = S1_NORMAL
  /\ state_sequence leg_swing = [S2_TRANSITION; S3_PASS; S2_TRANSITION]
  /\ correct_count (fst (analyze approx_angle leg_swing standing 640 480 7))
     = (correct_count leg_swing + 1)%Z
  /\ min_knee_angle_this_rep (bookkeeping approx_angle leg_swing standing 7)
     = 180
  /\ depth_angles leg_swing = []
  /\ depth_angles
      (fst (analyze approx_angle leg_swing standing 640 480 7)) = [].
Proof. each_by_computation. Qed.

(** C3: ten landmarks, as in the test of incomplete poses. *)
Lemma C3_incomplete_pose_witness :
  analyze approx_angle fresh (repeat centre 10) 640 480 1 = (fresh, incomplete_result).
Proof.
  apply (proj1 (C3_incomplete_pose approx_angle fresh (repeat centre 10)
                  640 480 1)).
  by_computation.
Defined.

(** C3, the claim as stated: a frame of 34 landmarks is analysed, and the
    consecutive-visible counter of the trainer goes up. *)
Lemma C3_counterexample :
  List.length (standing ++ [centre]) = 34%nat
  /\ fst (analyze approx_angle fresh (standing ++ [centre]) 640 480 1) <> fresh
  /\ full_body_visible_count
       (fst (analyze approx_angle fresh (standing ++ [centre]) 640 480 1)) = 1%Z
  /\ r_debug_info
      (snd (analyze approx_angle fresh (standing ++ [centre]) 640 480 1))
     = "Full body visible"%string.
Proof.
  split; [reflexivity|]. split; [states_differ full_body_visible_count|].
  split; by_computation.
Qed.

(** C4: crouched and still for 29 seconds; the frame is also the one on
    which the trainer becomes ready, so the history ends as [s2]. *)
Lemma C4_inactivity_reset_witness :
  inactive_thresh (config crouching_unready)
  < frame_inactivity approx_angle crouching_unready half_squat 30
  /\ correct_count
      (fst (analyze approx_angle crouching_unready half_squat 640 480 30))
     = 0%Z
  /\ incorrect_count
       (fst
            (analyze approx_angle crouching_unready half_squat 640 480 30)) = 0%Z
  /\ state_sequence
       (fst (analyze approx_angle crouching_unready half_squat 640 480 30))
     = [S2_TRANSITION].
Proof.
  split; [by_computation|].
  pose proof (C4_inactivity_reset approx_angle crouching_unready half_squat
                640 480 30) as H.
  cbv zeta in H.
  destruct H as (_ & Hc & Hi & _ & Hchange);
    [by_computation | by_computation | by_computation |].
  split; [exact Hc|]. split; [exact Hi|].
  destruct Hchange as (_ & Hseq); [by_computation | by_computation |].
  rewrite Hseq. by_computation.
Defined.

(** C4, the claim as stated: two crouched frames, then a third 29 seconds
    later.  The frame has 33 landmarks, a side view and an inactivity above
    the Beginner timeout of 20 seconds; it is also the frame on which the
    trainer becomes ready, so the state machine runs after the reset: the
    phase changes from Standing to Transition and the history is not
    empty. *)
Lemma C4_counterexample :
  List.length half_squat = 33%nat
  /\ r_is_frontal_view
       (snd
            (analyze approx_angle crouching_unready half_squat 640 480 30)) = false
  /\ inactive_thresh (config crouching_unready)
     < r_inactivity_seconds
         (snd (analyze approx_angle crouching_unready half_squat 640 480 30))
  /\ current_state crouching_unready = S1_NORMAL
  /\ current_state
      (fst (analyze approx_angle crouching_unready half_squat 640 480 30))
     = S2_TRANSITION
  /\ state_sequence
       (fst (analyze approx_angle crouching_unready half_squat 640 480 30))
     = [S2_TRANSITION].
Proof. each_by_computation. Qed.

(** C5: a fresh trainer. *)
Lemma C5_summary_zero_reps_witness :
  form_label (get_summary approx_std fresh 10) = "Needs Work"%string
  /\ average_depth_angle (get_summary approx_std fresh 10) = 180
  /\ best_depth_angle (get_summary approx_std fresh 10) = 180.
Proof.
  pose proof (C5_summary_zero_reps approx_std fresh 10) as H.
  cbv zeta in H.
  destruct H as (_ & _ & _ & Hlabel & Hdepth); try reflexivity.
  split; [exact Hlabel|]. apply Hdepth. reflexivity.
Defined.

(** C5, the claim as stated: after one correct rep the inactivity timeout
    zeroes both counters but keeps the recorded depth angle, and the summary
    reports it as average and best depth. *)
Lemma C5_counterexample :
  correct_count one_rep_then_idle = 0%Z
  /\ incorrect_count one_rep_then_idle = 0%Z
  /\ depth_angles one_rep_then_idle = [90]
  /\ average_depth_angle (get_summary approx_std one_rep_then_idle 41) = 90
  /\ best_depth_angle (get_summary approx_std one_rep_then_idle 41) = 90
  /\ ~ average_depth_angle (get_summary approx_std one_rep_then_idle 41) == 180
  /\ ~ best_depth_angle (get_summary approx_std one_rep_then_idle 41) == 180.
Proof. each_by_computation. Qed.

(** C6: the frame that finalizes the rep resets the minimum. *)
Lemma C6_per_rep_minimum_witness :
  min_knee_angle_this_rep
    (fst (analyze approx_angle before_standing_up standing 640 480 7)) = 180
  /\ state_sequence
      (fst (analyze approx_angle before_standing_up standing 640 480 7))
     = [].
Proof.
  pose proof (C6_per_rep_minimum approx_angle before_standing_up standing
                640 480 7) as H.
  cbv zeta in H.
  destruct H as (Hfinal & _); try by_computation.
  apply Hfinal. each_by_computation.
Defined.

(** C6, the claim as stated: half-way down with history [s2] and minimum
    135, then still for 29 seconds.  The timeout empties the history; the
    minimum stays 135. *)
Lemma C6_counterexample :
  state_sequence crouching_ready = [S2_TRANSITION]
  /\ min_knee_angle_this_rep crouching_ready = 135
  /\ inactive_thresh (config crouching_ready)
     < r_inactivity_seconds
         (snd (analyze approx_angle crouching_ready half_squat 640 480 30))
  /\ state_sequence
      (fst (analyze approx_angle crouching_ready half_squat 640 480 30))
     = []
  /\ min_knee_angle_this_rep
       (fst (analyze approx_angle crouching_ready half_squat 640 480 30)) = 135
  /\ ~ min_knee_angle_this_rep
         (fst
              (analyze approx_angle crouching_ready half_squat 640 480 30)) == 180.
Proof. each_by_computation. Qed.

(** C7: under the Beginner profile 50 degrees is Transition, and 70 degrees
    lies in the gap between Transition and Depth and keeps the phase. *)
Lemma C7_determine_state_witness :
  bands_ordered (config fresh)
  /\ _determine_state fresh 50 = S2_TRANSITION
  /\ _determine_state going_down 70 = S2_TRANSITION.
Proof.
  split; [apply (bands_ordered_builtin BEGINNER)|]. split.
  - apply (C7_determine_state fresh 50 (bands_ordered_builtin BEGINNER));
      q_concrete.
  - apply (C7_determine_state going_down 70 (bands_ordered_builtin BEGINNER));
      by_computation.
Defined.

(** C8: facing the camera, the offset angle is 90 degrees. *)
Lemma C8_frontal_view_witness :
  offset_thresh (config going_down) < frame_offset_angle approx_angle facing
  /\ r_feedback_type (snd (analyze approx_angle going_down facing 640 480 5))
     = FRONTAL_WARNING
  /\ state_sequence (fst (analyze approx_angle going_down facing 640 480 5))
     = [S2_TRANSITION].
Proof.
  split; [by_computation|].
  pose proof (C8_frontal_view approx_angle going_down facing 640 480 5) as H.
  cbv zeta in H.
  destruct H as (Hfb & _ & _ & _ & _ & _ & Hseq & _); try by_computation.
  split; [exact Hfb|]. rewrite Hseq. by_computation.
Defined.

(** C9: the nose above the top margin, on a trainer that was ready. *)
Lemma C9_visibility_failure_witness :
  is_ready going_down = true
  /\ r_is_full_body_visible
       (snd (analyze approx_angle going_down nose_cut_off 640 480 5)) = false
  /\ full_body_visible_count
       (fst (analyze approx_angle going_down nose_cut_off 640 480 5)) = 0%Z
  /\ is_ready
      (fst (analyze approx_angle going_down nose_cut_off 640 480 5)) = false
  /\ r_is_ready
      (snd (analyze approx_angle going_down nose_cut_off 640 480 5)) = false.
Proof.
  split; [by_computation|].
  apply (C9_visibility_failure approx_angle going_down nose_cut_off 640 480 5
           LandmarkIndex.NOSE "Nose"%string (mk (1 # 2) (1 # 100))).
  - by_computation.
  - reflexivity.
  - unfold key_indices. simpl. tauto.
  - reflexivity.
  - unfold fails_gate. right. right. left. by_computation.
Defined.

(** C10: the first frame of a session, half-way down. *)
Lemma C10_not_ready_bookkeeping_witness :
  frame_ready fresh half_squat = false
  /\ min_knee_angle_this_rep
      (fst (analyze approx_angle fresh half_squat 640 480 1))
     = 135
  /\ last_knee_vertical
      (fst (analyze approx_angle fresh half_squat 640 480 1)) = 45
  /\ current_state
      (fst (analyze approx_angle fresh half_squat 640 480 1)) = S1_NORMAL.
Proof.
  split; [by_computation|].
  pose proof (C10_not_ready_bookkeeping approx_angle fresh half_squat
                640 480 1) as H.
  cbv zeta in H.
  destruct H as (Hmin & Hkv & _ & _ & _ & _ & Hcur & _); try by_computation.
  split; [rewrite Hmin; by_computation|].
  split; [rewrite Hkv; by_computation|].
  rewrite Hcur. reflexivity.
Defined.

(** Down to full depth and straight back up, the way up skipping the
    Transition band: the history is [s2; s3] when the rep is finalized, and
    the rep counts as incorrect although Depth was reached. *)
Lemma update_counters_short_witness :
  state_sequence
    (run approx_angle fresh
       (warm_up ++ [(half_squat, 4); (deep_squat_pose, 5)]))
  = [S2_TRANSITION; S3_PASS]
  /\ incorrect_count
       (_update_counters
          (run approx_angle fresh
             (warm_up ++ [(half_squat, 4); (deep_squat_pose, 5)])))
     = 1%Z
  /\ incorrect_count
       (run approx_angle fresh
          (warm_up ++ [(half_squat, 4); (deep_squat_pose, 5); (standing, 6)]))
     = 1%Z.
Proof.
  split; [by_computation|]. split; [|by_computation].
  destruct (update_counters_short
              (run approx_angle fresh
                 (warm_up ++ [(half_squat, 4); (deep_squat_pose, 5)])))
    as (_ & Hi & _).
  - by_computation.
  - by_computation.
  - rewrite Hi. by_computation.
Defined.

(** ** Worked examples for the further properties *)

(** The upright pose passes the visibility gate of the Beginner profile. *)
Lemma standing_passes : frame_passes (config fresh) standing.
Proof.
  split; [apply Nat.leb_le; reflexivity|].
  intros idx name lm Hin Hnth. simpl in Hin.
  repeat (destruct Hin as [Hin | Hin];
          [injection Hin as <- <-; vm_compute in Hnth;
           injection Hnth as <-; unfold passes_gate;
           each_by_computation|]).
  destruct Hin.
Qed.

(** The first upright frame of a session is seen in full and counted, and
    the reply is not ready yet. *)
Lemma visible_frame_counts_witness :
  full_body_visible_count (fst (analyze approx_angle fresh standing 640 480 1))
  = 1%Z
  /\ r_is_ready (snd (analyze approx_angle fresh standing 640 480 1)) = false.
Proof.
  pose proof (visible_frame_counts approx_angle fresh standing 640 480 1
                standing_passes) as H.
  cbv zeta in H. destruct H as (_ & _ & Hc & Hr).
  split; [rewrite Hc | rewrite Hr]; by_computation.
Defined.

(** Three upright frames in a row bring the count to three. *)
Lemma visible_streak_witness :
  full_body_visible_count (run approx_angle fresh warm_up) = 3%Z.
Proof.
  rewrite (visible_streak approx_angle warm_up fresh).
  - by_computation.
  - intros landmarks t Hin. simpl in Hin.
    repeat (destruct Hin as [Hin | Hin];
            [injection Hin as <- _; exact standing_passes|]).
    destruct Hin.
Defined.

(** Thirty-three landmarks at the centre of the frame. *)
Lemma centre_collapsed : collapsed (repeat centre 33).
Proof.
  intros i j Hi Hj. unfold get_pt, get_landmark_coords.
  rewrite !nth_error_repeat by assumption. reflexivity.
Qed.

Lemma collapsed_frame_witness :
  r_is_frontal_view
    (snd (analyze approx_angle fresh (repeat centre 33) 640 480 1)) = false
  /\ r_knee_angle
       (snd (analyze approx_angle fresh (repeat centre 33) 640 480 1)) = 0
  /\ r_detected_side
       (snd (analyze approx_angle fresh (repeat centre 33) 640 480 1))
     = "right"%string.
Proof.
  pose proof (collapsed_frame approx_angle fresh (repeat centre 33) 640 480 1)
    as H.
  cbv zeta in H.
  destruct H as (Hf & _ & Hk & _ & _ & _ & Hs & _).
  - apply Nat.leb_le. reflexivity.
  - exact centre_collapsed.
  - by_computation.
  - auto.
Defined.

(** Half-way down, both legs at the same place: the tie selects the right
    leg. *)
Lemma side_selection_witness :
  r_detected_side (snd (analyze approx_angle fresh half_squat 640 480 1))
  = "right"%string.
Proof.
  pose proof (side_selection approx_angle fresh half_squat 640 480 1) as H.
  cbv zeta in H.
  destruct H as (_ & _ & _ & _ & Hright).
  - apply Nat.leb_le. reflexivity.
  - by_computation.
  - apply Hright. by_computation.
Defined.

(** After one correct rep the accuracy is 100. *)
Lemma summary_ranges_witness :
  accuracy_percentage (get_summary approx_std one_rep 10) == 100.
Proof.
  pose proof (summary_ranges approx_std one_rep 10) as H.
  cbv zeta in H.
  destruct H as (_ & _ & _ & Hfull & _).
  - by_computation.
  - by_computation.
  - apply Hfull; by_computation.
Defined.

(** After one correct rep with two "bend forward" cues, that cue is the most
    common issue. *)
Lemma most_common_issue_spec_witness :
  exists v, In (BEND_FORWARD, v) (feedback_history one_rep).
Proof.
  destruct (most_common_issue_spec approx_std one_rep 10) as (_ & H).
  destruct (H BEND_FORWARD) as (v & Hin & _).
  - by_computation.
  - exists v. exact Hin.
Defined.

(** After one correct rep of depth 90 the best depth angle is the recorded
    one. *)
Lemma depth_statistics_witness :
  In (best_depth_angle (get_summary approx_std one_rep 10))
    (depth_angles one_rep).
Proof.
  pose proof (depth_statistics approx_std one_rep 10) as H.
  cbv zeta in H. destruct H as (_ & H).
  destruct H as (Hin & _).
  - by_computation.
  - exact Hin.
Defined.

(** Resetting without a mode after one rep gives a new Beginner trainer. *)
Lemma reset_is_init_witness :
  reset None 8 8 one_rep = init BEGINNER 8 8.
Proof.
  destruct (reset_is_init BEGINNER 8 8 one_rep) as (_ & H).
  rewrite H; by_computation.
Defined.

(** The reply to the last frame of the rep reports the trainer's counters. *)
Lemma result_reports_trainer_witness :
  r_correct_count
    (snd (analyze approx_angle before_standing_up standing 640 480 7))
  = correct_count
      (fst (analyze approx_angle before_standing_up standing 640 480 7)).
Proof.
  pose proof (result_reports_trainer approx_angle before_standing_up standing
                640 480 7) as H.
  cbv zeta in H. destruct H as (H & _).
  destruct H as (_ & Hc & _).
  - apply Nat.leb_le. reflexivity.
  - exact Hc.
Defined.

(** A rep with two frames on the way down, one at depth, one on the way up
    and one upright counts as correct. *)
Lemma full_rep_counted_witness :
  correct_count
    (run approx_angle (run approx_angle fresh warm_up)
       ([(half_squat, 4); (half_squat, 9 # 2)] ++ [(deep_squat_pose, 5)]
        ++ [(half_squat, 6)] ++ [(standing, 7)]))
  = 1%Z
  /\ incorrect_count
       (run approx_angle (run approx_angle fresh warm_up)
          ([(half_squat, 4); (half_squat, 9 # 2)] ++ [(deep_squat_pose, 5)]
           ++ [(half_squat, 6)] ++ [(standing, 7)]))
     = 0%Z.
Proof.
  pose proof (full_rep_counted approx_angle (run approx_angle fresh warm_up)
                [(half_squat, 4); (half_squat, 9 # 2)] [(deep_squat_pose, 5)]
                [(half_squat, 6)] [(standing, 7)]) as H.
  cbv zeta in H.
  destruct H as (_ & _ & Hc & Hi).
  - by_computation.
  - by_computation.
  - intro H; discriminate H.
  - intro H; discriminate H.
  - intro H; discriminate H.
  - intro H; discriminate H.
  - by_computation.
  - by_computation.
  - by_computation.
  - by_computation.
  - split; [rewrite Hc | rewrite Hi]; by_computation.
Defined.

(** Half-way down and up again counts as incorrect. *)
Lemma shallow_rep_counted_witness :
  correct_count
    (run approx_angle (run approx_angle fresh warm_up)
       ([(half_squat, 4)] ++ [(standing, 5)]))
  = 0%Z
  /\ incorrect_count
       (run approx_angle (run approx_angle fresh warm_up)
          ([(half_squat, 4)] ++ [(standing, 5)]))
     = 1%Z.
Proof.
  pose proof (shallow_rep_counted approx_angle
                (run approx_angle fresh warm_up)
                [(half_squat, 4)] [(standing, 5)]) as H.
  cbv zeta in H.
  destruct H as (_ & _ & Hc & Hi).
  - by_computation.
  - by_computation.
  - intro H; discriminate H.
  - intro H; discriminate H.
  - by_computation.
  - by_computation.
  - split; [rewrite Hc | rewrite Hi]; by_computation.
Defined.

(** An upright frame that names the mode "pro", sent to a Beginner trainer
    that has counted one rep: the rep is gone. *)
Lemma websocket_mode_switch_witness :
  correct_count one_rep = 1%Z
  /\ mode (fst (websocket_message approx_angle approx_std one_rep pro_frame
                  8 8 8)) = PRO
  /\ correct_count
       (fst (websocket_message approx_angle approx_std one_rep pro_frame
               8 8 8)) = 0%Z.
Proof.
  pose proof (websocket_mode_switch approx_angle approx_std one_rep pro_frame
                8 8 8) as H.
  cbv zeta in H.
  destruct H as (Hm & _ & Hnew).
  - reflexivity.
  - reflexivity.
  - apply Nat.leb_le. reflexivity.
  - destruct Hnew as (_ & Hc & _).
    + by_computation.
    + split; [by_computation|]. split; [rewrite Hm; reflexivity | exact Hc].
Defined.
